(** * Strategy-signal and risk-evaluation engine: a shallow embedding

    The TypeScript sources embedded here are
    - [src/algorithms/SmartStakingBot.ts] (the staking, channel-index and
      momentum evaluators and the shared data types),
    - [src/algorithms/DCATradingBot.ts],
    - [src/unnamed/part_000] (the risk manager),
    - [src/algorithms/AlgorithmTester.ts] (the backtest harness).

    Conventions of the embedding.
    - A JavaScript [number] is a value of [num]: an exact rational, or one
      of the three IEEE special values [+Infinity], [-Infinity], [NaN].
      Arithmetic on finite values is exact (binary rounding is not
      modelled) and there is a single zero.
    - [Date.now()] is an explicit argument [now : Z] (milliseconds).
    - A [Map<string, V>] is an association list kept in insertion order,
      which is the order [forEach], [keys()] and [values()] visit.
    - [Math.sqrt] and the general [Math.pow] have no exact rational
      counterpart; the definitions that call them take them as section
      variables, so every result holds for any implementation of both.
      [Math.pow(x, 2)] is written [x * x].
    - The human-readable [reason] of a signal keeps its fixed text; the
      figures interpolated with [toFixed] are left out.
    - Embedded are the evaluation paths ([analyzeMarket] and what it
      calls) and the position ledgers ([updatePosition]) of the four
      evaluators, the risk manager's metrics, signal validation, limits,
      emergency de-risking signals and parameter optimizer, and the
      harness's trade metrics and result evaluation. The harness's
      simulation loop (which drives an untyped evaluator against the
      wall clock) and its scenario generators (which draw random
      numbers) are not.
    - A client of an evaluator or of the risk manager is a list of
      [Call]s; [run] is the state such a list leaves, so that a property
      of every reachable state is a property of [run calls (create ..)]
      for every [calls]. *)

From Stdlib Require Import QArith Qround Qabs ZArith String List Bool Lia Lqa.
Import ListNotations.
Local Open Scope Q_scope.

(* ================================================================== *)
(** * JavaScript numbers *)
(* ================================================================== *)

Inductive num : Type :=
| Fin (q : Q)
| PInf
| NInf
| NaN.

Declare Scope num_scope.
Delimit Scope num_scope with num.
Bind Scope num_scope with num.

Definition Qltb (a b : Q) : bool := negb (Qle_bool b a).

Definition of_Z (z : Z) : num := Fin (inject_Z z).
Definition of_nat (n : nat) : num := of_Z (Z.of_nat n).

Definition num_neg (a : num) : num :=
  match a with
  | Fin q => Fin (- q)
  | PInf => NInf
  | NInf => PInf
  | NaN => NaN
  end.

Definition num_add (a b : num) : num :=
  match a, b with
  | NaN, _ | _, NaN => NaN
  | Fin x, Fin y => Fin (x + y)
  | PInf, NInf | NInf, PInf => NaN
  | PInf, _ | _, PInf => PInf
  | NInf, _ | _, NInf => NInf
  end.

Definition num_sub (a b : num) : num := num_add a (num_neg b).

(** Sign of a rational as used by the rules for infinities. *)
Definition Qsign (q : Q) : comparison := 0 ?= q.

Definition num_mul (a b : num) : num :=
  match a, b with
  | NaN, _ | _, NaN => NaN
  | Fin x, Fin y => Fin (x * y)
  | Fin x, PInf | PInf, Fin x =>
      match Qsign x with Eq => NaN | Lt => PInf | Gt => NInf end
  | Fin x, NInf | NInf, Fin x =>
      match Qsign x with Eq => NaN | Lt => NInf | Gt => PInf end
  | PInf, PInf | NInf, NInf => PInf
  | PInf, NInf | NInf, PInf => NInf
  end.

Definition num_div (a b : num) : num :=
  match a, b with
  | NaN, _ | _, NaN => NaN
  | Fin x, Fin y =>
      if Qeq_bool y 0
      then match Qsign x with Eq => NaN | Lt => PInf | Gt => NInf end
      else Fin (x / y)
  | Fin _, PInf | Fin _, NInf => Fin 0
  | PInf, Fin y => if Qltb y 0 then NInf else PInf
  | NInf, Fin y => if Qltb y 0 then PInf else NInf
  | _, _ => NaN
  end.

(** [a < b], [a <= b], [a === b]: false as soon as one side is [NaN]. *)
Definition num_ltb (a b : num) : bool :=
  match a, b with
  | NaN, _ | _, NaN => false
  | Fin x, Fin y => Qltb x y
  | NInf, NInf | PInf, _ => false
  | NInf, _ => true
  | Fin _, PInf => true
  | Fin _, NInf => false
  end.

Definition num_eqb (a b : num) : bool :=
  match a, b with
  | Fin x, Fin y => Qeq_bool x y
  | PInf, PInf | NInf, NInf => true
  | _, _ => false
  end.

Definition num_leb (a b : num) : bool := num_ltb a b || num_eqb a b.
Definition num_gtb (a b : num) : bool := num_ltb b a.
Definition num_geb (a b : num) : bool := num_leb b a.
(** [a !== b] *)
Definition num_neqb (a b : num) : bool := negb (num_eqb a b).

Definition is_nan (a : num) : bool :=
  match a with NaN => true | _ => false end.

Definition is_finite (a : num) : bool :=
  match a with Fin _ => true | _ => false end.

(** Truthiness of a number: every value but [0] and [NaN]. *)
Definition truthy (a : num) : bool :=
  match a with
  | NaN => false
  | Fin q => negb (Qeq_bool q 0)
  | _ => true
  end.

(** [Math.min(a, b)], [Math.max(a, b)]: [NaN] if either argument is. *)
Definition num_min (a b : num) : num :=
  match a, b with
  | NaN, _ | _, NaN => NaN
  | _, _ => if num_ltb b a then b else a
  end.

Definition num_max (a b : num) : num :=
  match a, b with
  | NaN, _ | _, NaN => NaN
  | _, _ => if num_ltb a b then b else a
  end.

(** [Math.min(...xs)], [Math.max(...xs)] *)
Definition min_list (xs : list num) : num := fold_left num_min xs PInf.
Definition max_list (xs : list num) : num := fold_left num_max xs NInf.

Definition num_abs (a : num) : num :=
  match a with
  | Fin q => Fin (Qabs q)
  | PInf | NInf => PInf
  | NaN => NaN
  end.

Definition num_floor (a : num) : num :=
  match a with
  | Fin q => of_Z (Qfloor q)
  | _ => a
  end.

(** [Math.round(a)]: the nearest integer, ties going up. *)
Definition num_round (a : num) : num :=
  match a with
  | Fin q => of_Z (Qfloor (q + (1 # 2)))
  | _ => a
  end.

(** [Math.pow(a, 2)] *)
Definition pow2 (a : num) : num := num_mul a a.

(** An array index computed as a number ([xs[Math.floor(...)]]). *)
Definition to_index (a : num) : option nat :=
  match a with
  | Fin q => if Qltb q 0 then None else Some (Z.to_nat (Qfloor q))
  | _ => None
  end.

Infix "+" := num_add : num_scope.
Infix "-" := num_sub : num_scope.
Infix "*" := num_mul : num_scope.
Infix "/" := num_div : num_scope.
Notation "- x" := (num_neg x) : num_scope.
Infix "<?" := num_ltb : num_scope.
Infix "<=?" := num_leb : num_scope.
Infix ">?" := num_gtb : num_scope.
Infix ">=?" := num_geb : num_scope.
Infix "=?" := num_eqb : num_scope.

(** Decimal literals of the sources. *)
Definition dec (n : Z) (d : positive) : num := Fin (n # d).
Coercion of_Z : Z >-> num.

(** [xs.reduce((a, b) => a + b, 0)] *)
Definition sum (xs : list num) : num := fold_left num_add xs (Fin 0).

(* ================================================================== *)
(** * Arrays and maps *)
(* ================================================================== *)

(** [xs.slice(-n)] *)
Definition lastn {A} (n : nat) (xs : list A) : list A :=
  skipn (length xs - n) xs.

(** [xs.slice(0, n)] is [firstn n xs]; [xs.shift()] drops the head. *)
Definition shift {A} (xs : list A) : list A := tl xs.

(** [xs.slice(0, e)] for an end index computed as a number: the index is
    truncated towards zero, a negative one counts from the end, [NaN]
    counts as [0]. *)
Definition Qtrunc (q : Q) : Z :=
  if Qltb q 0 then (- Qfloor (- q))%Z else Qfloor q.

Definition slice_to {A} (e : num) (xs : list A) : list A :=
  match e with
  | Fin q =>
      let i := Qtrunc q in
      if (i <? 0)%Z then firstn (length xs - Z.to_nat (- i)) xs
      else firstn (Z.to_nat i) xs
  | PInf => xs
  | NInf | NaN => []
  end.

(** The consecutive pairs [(xs[i-1], xs[i])], [i = 1 .. length - 1]. *)
Definition adjacent {A} (xs : list A) : list (A * A) := combine xs (tl xs).

(** [xs.sort(cmp)]: a stable insertion sort; [x] stays in front of [y]
    unless [cmp x y > 0], and a [NaN] comparison counts as [0]. *)
Fixpoint insert_by {A} (cmp : A -> A -> num) (x : A) (l : list A) : list A :=
  match l with
  | [] => [x]
  | y :: l' =>
      if num_gtb (cmp x y) (Fin 0) then y :: insert_by cmp x l'
      else x :: l
  end.

Definition sort_by {A} (cmp : A -> A -> num) (l : list A) : list A :=
  fold_right (insert_by cmp) [] l.

Module JsMap.
Definition t (V : Type) : Type := list (string * V).

Definition empty {V} : t V := [].

Fixpoint get {V} (k : string) (m : t V) : option V :=
  match m with
  | [] => None
  | (k', v) :: m' => if String.eqb k k' then Some v else get k m'
  end.

Definition has {V} (k : string) (m : t V) : bool :=
  match get k m with Some _ => true | None => false end.

(** [m.set(k, v)]: an existing key keeps its place, a new one goes last. *)
Fixpoint set {V} (k : string) (v : V) (m : t V) : t V :=
  match m with
  | [] => [(k, v)]
  | (k', v') :: m' =>
      if String.eqb k k' then (k, v) :: m' else (k', v') :: set k v m'
  end.

Fixpoint delete {V} (k : string) (m : t V) : t V :=
  match m with
  | [] => []
  | (k', v') :: m' =>
      if String.eqb k k' then m' else (k', v') :: delete k m'
  end.

Definition keys {V} (m : t V) : list string := map fst m.
Definition values {V} (m : t V) : list V := map snd m.
Definition size {V} (m : t V) : nat := length m.
End JsMap.

(* ================================================================== *)
(** * Shared data types *)
(* ================================================================== *)

Inductive Action := BUY | SELL | HOLD.
Inductive Risk := LOW | MEDIUM | HIGH.
Inductive RiskProfile := CONSERVATIVE | MODERATE | AGGRESSIVE.
Inductive BotType := momentum | dca | staking | cci.

Record MarketData := {
  md_symbol : string;
  md_price : num;
  md_volume : num;
  md_timestamp : Z;
  md_change24h : num;
  md_change1h : num;
  md_high24h : num;
  md_low24h : num;
  md_marketCap : option num
}.

Record TradingSignal := {
  sig_action : Action;
  sig_symbol : string;
  sig_confidence : num;
  sig_price : num;
  sig_quantity : option num;
  sig_reason : string;
  sig_timestamp : Z;
  sig_riskLevel : Risk
}.

Record BotConfig := {
  cfg_id : string;
  cfg_name : string;
  cfg_type : BotType;
  cfg_allocation : num;
  cfg_stopLoss : num;
  cfg_takeProfit : option num;
  cfg_timeframe : string;
  cfg_maxPositions : nat;
  cfg_riskLevel : RiskProfile;
  cfg_enabledAssets : list string
}.

Record Position := {
  pos_symbol : string;
  pos_quantity : num;
  pos_entryPrice : num;
  pos_currentPrice : num;
  pos_pnl : num;
  pos_pnlPercentage : num;
  pos_timestamp : Z
}.

Record BotPerformance := {
  perf_totalPnL : num;
  perf_totalPnLPercentage : num;
  perf_winRate : num;
  perf_totalTrades : nat;
  perf_maxDrawdown : num;
  perf_sharpeRatio : num;
  perf_lastUpdate : Z
}.

(** A value read where the source may find [undefined]. *)
Definition opt_num (o : option num) : num :=
  match o with Some v => v | None => NaN end.

(** [o && ...] on an optional number. *)
Definition opt_truthy (o : option num) : bool :=
  match o with Some v => truthy v | None => false end.

(** [marketData.find(d => d.symbol === symbol)] *)
Definition find_asset (symbol : string) (marketData : list MarketData)
  : option MarketData :=
  find (fun d => String.eqb (md_symbol d) symbol) marketData.

(** [enabledAssets.includes(symbol)] *)
Definition includes (symbol : string) (l : list string) : bool :=
  existsb (String.eqb symbol) l.

Definition initial_performance (now : Z) : BotPerformance :=
  {| perf_totalPnL := Fin 0; perf_totalPnLPercentage := Fin 0;
     perf_winRate := Fin 0; perf_totalTrades := 0%nat;
     perf_maxDrawdown := Fin 0; perf_sharpeRatio := Fin 0;
     perf_lastUpdate := now |}.

(* ================================================================== *)
(** * Momentum evaluator ([MomentumTradingBot]) *)
(* ================================================================== *)

Module MomentumTradingBot.

Record State := {
  config : BotConfig;
  positions : JsMap.t Position;
  performance : BotPerformance;
  priceHistory : JsMap.t (list MarketData);
  lastRebalance : Z
}.

Definition create (cfg : BotConfig) (now : Z) : State :=
  {| config := cfg; positions := JsMap.empty;
     performance := initial_performance now;
     priceHistory := JsMap.empty; lastRebalance := 0%Z |}.

Record Scored := {
  sc_symbol : string;
  sc_score : num;
  sc_data : MarketData
}.

Record Weights := {
  w_shortTerm : num;
  w_mediumTerm : num;
  w_volumeWeighted : num;
  w_volatilityAdjusted : num;
  w_trendStrength : num
}.

(** [history[i].price] at an index the guards keep in range. *)
Definition price_at (history : list MarketData) (i : nat) : num :=
  match nth_error history i with
  | Some d => md_price d
  | None => NaN
  end.

Definition volume_at (history : list MarketData) (i : nat) : num :=
  match nth_error history i with
  | Some d => md_volume d
  | None => NaN
  end.

Definition calculateVolumeTrend (history : list MarketData) : num :=
  if (length history <? 4)%nat then Fin 0 else
  let recent := lastn 4 history in
  let volumes := map md_volume recent in
  let avgVolume := (sum volumes / of_nat (length volumes))%num in
  let latestVolume := volume_at recent (length recent - 1) in
  ((latestVolume - avgVolume) / avgVolume)%num.

Definition calculateShortTermMomentum (history : list MarketData) : num :=
  if (length history <? 4)%nat then Fin 0 else
  let recent := lastn 4 history in
  let priceChange :=
    ((price_at recent (length recent - 1) - price_at recent 0)
     / price_at recent 0)%num in
  let volumeTrend := calculateVolumeTrend recent in
  (priceChange * 100%Z * (1%Z + volumeTrend))%num.

Definition calculateTrendConsistency (history : list MarketData) : num :=
  if (length history <? 10)%nat then Fin 0 else
  let recent := lastn 10 history in
  let positiveChanges :=
    length (filter (fun '(prev, cur) => (md_price cur >? md_price prev)%num)
                   (adjacent recent)) in
  (of_nat positiveChanges / of_nat (length recent - 1))%num.

Definition calculateMediumTermMomentum (history : list MarketData) : num :=
  if (length history <? 24)%nat then Fin 0 else
  let recent := lastn 24 history in
  let priceChange :=
    ((price_at recent (length recent - 1) - price_at recent 0)
     / price_at recent 0)%num in
  let consistency := calculateTrendConsistency recent in
  (priceChange * 100%Z * consistency)%num.

Definition calculateVolumeWeightedMomentum (history : list MarketData) : num :=
  if (length history <? 10)%nat then Fin 0 else
  let recent := lastn 10 history in
  let '(totalVolume, weightedPriceChange) :=
    fold_left
      (fun '(totalVolume, weightedPriceChange) '(prev, data) =>
         let priceChange :=
           ((md_price data - md_price prev) / md_price prev)%num in
         ((totalVolume + md_volume data)%num,
          (weightedPriceChange + priceChange * md_volume data)%num))
      (adjacent recent) (Fin 0, Fin 0) in
  if (totalVolume >? 0%Z)%num
  then (weightedPriceChange / totalVolume * 100%Z)%num
  else Fin 0.

(** The period returns [(p[i] - p[i-1]) / p[i-1]]. *)
Definition returns_of (prices : list num) : list num :=
  map (fun '(prev, cur) => ((cur - prev) / prev)%num) (adjacent prices).

(** [x.reduce((sum, xi, i) => sum + xi * prices[i], 0)] with [x = [0 .. n-1]] *)
Definition sum_xy (prices : list num) : num :=
  fold_left
    (fun acc '(xi, p) => (acc + of_nat xi * p)%num)
    (combine (seq 0 (length prices)) prices) (Fin 0).

Definition calculateRSquared (prices : list num) (x : list nat) (slope : num)
  : num :=
  let n := length prices in
  let sumY := sum prices in
  let meanY := (sumY / of_nat n)%num in
  let '(ssRes, ssTot) :=
    fold_left
      (fun '(ssRes, ssTot) '(xi, p) =>
         let predicted := (slope * of_nat xi)%num in
         ((ssRes + pow2 (p - predicted))%num,
          (ssTot + pow2 (p - meanY))%num))
      (combine x prices) (Fin 0, Fin 0) in
  if (ssTot >? 0%Z)%num then (1%Z - ssRes / ssTot)%num else Fin 0.

Definition calculateTrendStrength (history : list MarketData) : num :=
  if (length history <? 10)%nat then Fin 0 else
  let recent := lastn 10 history in
  let prices := map md_price recent in
  let n := length prices in
  let x := seq 0 n in
  let sumX := sum (map of_nat x) in
  let sumY := sum prices in
  let sumXY := sum_xy prices in
  let sumXX := sum (map (fun xi => (of_nat xi * of_nat xi)%num) x) in
  let slope :=
    ((of_nat n * sumXY - sumX * sumY)
     / (of_nat n * sumXX - sumX * sumX))%num in
  let rSquared := calculateRSquared prices x slope in
  (slope * rSquared * 100%Z)%num.

Definition getMomentumWeights (cfg : BotConfig) : Weights :=
  match cfg_riskLevel cfg with
  | CONSERVATIVE =>
      {| w_shortTerm := dec 2 10; w_mediumTerm := dec 4 10;
         w_volumeWeighted := dec 2 10; w_volatilityAdjusted := dec 15 100;
         w_trendStrength := dec 5 100 |}
  | MODERATE =>
      {| w_shortTerm := dec 3 10; w_mediumTerm := dec 3 10;
         w_volumeWeighted := dec 2 10; w_volatilityAdjusted := dec 15 100;
         w_trendStrength := dec 5 100 |}
  | AGGRESSIVE =>
      {| w_shortTerm := dec 4 10; w_mediumTerm := dec 2 10;
         w_volumeWeighted := dec 2 10; w_volatilityAdjusted := dec 1 10;
         w_trendStrength := dec 1 10 |}
  end.

Section WithMath.
Variable sqrt : num -> num.

Definition calculateVolatility (history : list MarketData) : num :=
  if (length history <? 10)%nat then Fin 0 else
  let prices := map md_price history in
  let returns := returns_of prices in
  let mean := (sum returns / of_nat (length returns))%num in
  let variance :=
    (sum (map (fun ret => pow2 (ret - mean)) returns)
     / of_nat (length returns))%num in
  sqrt variance.

Definition calculateVolatilityAdjustedMomentum (history : list MarketData)
  : num :=
  if (length history <? 20)%nat then Fin 0 else
  let recent := lastn 20 history in
  let volatility := calculateVolatility recent in
  let momentum := calculateShortTermMomentum recent in
  if (volatility >? 0%Z)%num then (momentum / (1%Z + volatility))%num
  else momentum.

(** The composite score of one observation's symbol. *)
Definition momentumScore (cfg : BotConfig) (history : list MarketData) : num :=
  if (length history <? 10)%nat then Fin 0 else
  let shortTerm := calculateShortTermMomentum history in
  let mediumTerm := calculateMediumTermMomentum history in
  let volumeWeighted := calculateVolumeWeightedMomentum history in
  let volatilityAdjusted := calculateVolatilityAdjustedMomentum history in
  let trendStrength := calculateTrendStrength history in
  let weights := getMomentumWeights cfg in
  (shortTerm * w_shortTerm weights
   + mediumTerm * w_mediumTerm weights
   + volumeWeighted * w_volumeWeighted weights
   + volatilityAdjusted * w_volatilityAdjusted weights
   + trendStrength * w_trendStrength weights)%num.

Definition calculateMomentumScores (st : State) (marketData : list MarketData)
  : list Scored :=
  map (fun data =>
         let history :=
           match JsMap.get (md_symbol data) (priceHistory st) with
           | Some h => h
           | None => []
           end in
         {| sc_symbol := md_symbol data;
            sc_score := momentumScore (config st) history;
            sc_data := data |})
      marketData.

Definition generateRebalancingSignals (now : Z) (st : State)
    (topPerformers : list Scored) (currentPositions : list string)
  : list TradingSignal :=
  let cfg := config st in
  let allocationPerPosition :=
    (cfg_allocation cfg / of_nat (cfg_maxPositions cfg))%num in
  let sells :=
    flat_map
      (fun symbol =>
         let isInTopPerformers :=
           existsb (fun asset => String.eqb (sc_symbol asset) symbol)
                   topPerformers in
         if isInTopPerformers then [] else
         match JsMap.get symbol (positions st) with
         | Some position =>
             [{| sig_action := SELL; sig_symbol := symbol;
                 sig_confidence := 85%Z;
                 sig_price := pos_currentPrice position;
                 sig_quantity := Some (pos_quantity position);
                 sig_reason := "Not in top performers - rebalancing";
                 sig_timestamp := now; sig_riskLevel := MEDIUM |}]
         | None => []
         end)
      currentPositions in
  let buys :=
    flat_map
      (fun asset =>
         let targetQuantity :=
           (allocationPerPosition / md_price (sc_data asset))%num in
         match JsMap.get (sc_symbol asset) (positions st) with
         | None =>
             [{| sig_action := BUY; sig_symbol := sc_symbol asset;
                 sig_confidence :=
                   num_min 95%Z (60%Z + sc_score asset)%num;
                 sig_price := md_price (sc_data asset);
                 sig_quantity := Some targetQuantity;
                 sig_reason := "High momentum score";
                 sig_timestamp := now;
                 sig_riskLevel :=
                   if (sc_score asset >? 50%Z)%num then HIGH else MEDIUM |}]
         | Some currentPosition =>
             if (num_abs (pos_quantity currentPosition - targetQuantity)
                 / targetQuantity >? dec 1 10)%num
             then
               let quantityDiff :=
                 (targetQuantity - pos_quantity currentPosition)%num in
               [{| sig_action :=
                     if (quantityDiff >? 0%Z)%num then BUY else SELL;
                   sig_symbol := sc_symbol asset;
                   sig_confidence := 75%Z;
                   sig_price := md_price (sc_data asset);
                   sig_quantity := Some (num_abs quantityDiff);
                   sig_reason := "Rebalancing position";
                   sig_timestamp := now; sig_riskLevel := MEDIUM |}]
             else []
         end)
      topPerformers in
  sells ++ buys.

Definition checkStopLossTriggers (now : Z) (st : State) : list TradingSignal :=
  flat_map
    (fun '(symbol, position) =>
       let lossPercentage := num_abs (pos_pnlPercentage position) in
       if (lossPercentage >=? cfg_stopLoss (config st))%num
       then [{| sig_action := SELL; sig_symbol := symbol;
                sig_confidence := 100%Z;
                sig_price := pos_currentPrice position;
                sig_quantity := Some (pos_quantity position);
                sig_reason := "Stop-loss triggered";
                sig_timestamp := now; sig_riskLevel := HIGH |}]
       else [])
    (positions st).

Definition checkTakeProfitTriggers (now : Z) (st : State)
  : list TradingSignal :=
  if negb (opt_truthy (cfg_takeProfit (config st))) then [] else
  flat_map
    (fun '(symbol, position) =>
       if (pos_pnlPercentage position
           >=? opt_num (cfg_takeProfit (config st)))%num
       then [{| sig_action := SELL; sig_symbol := symbol;
                sig_confidence := 90%Z;
                sig_price := pos_currentPrice position;
                sig_quantity := Some (pos_quantity position);
                sig_reason := "Take-profit triggered";
                sig_timestamp := now; sig_riskLevel := LOW |}]
       else [])
    (positions st).

(** The history update at the head of [analyzeMarket]. *)
Definition recordObservation (h : JsMap.t (list MarketData)) (data : MarketData)
  : JsMap.t (list MarketData) :=
  let history :=
    match JsMap.get (md_symbol data) h with
    | Some l => l
    | None => []
    end ++ [data] in
  JsMap.set (md_symbol data)
    (if (1000 <? length history)%nat then shift history else history) h.

Definition analyzeMarket (now : Z) (marketData : list MarketData) (st : State)
  : list TradingSignal * State :=
  let st1 :=
    {| config := config st; positions := positions st;
       performance := performance st;
       priceHistory := fold_left recordObservation marketData (priceHistory st);
       lastRebalance := lastRebalance st |} in
  if (now - lastRebalance st1 <? 15 * 60 * 1000)%Z then ([], st1) else
  let momentumScores := calculateMomentumScores st1 marketData in
  let sortedAssets :=
    filter (fun asset => includes (sc_symbol asset)
                                  (cfg_enabledAssets (config st1)))
           (sort_by (fun a b => (sc_score b - sc_score a)%num) momentumScores) in
  let topPerformers := firstn (cfg_maxPositions (config st1)) sortedAssets in
  let currentPositions := JsMap.keys (positions st1) in
  let signals :=
    generateRebalancingSignals now st1 topPerformers currentPositions
    ++ checkStopLossTriggers now st1
    ++ (if opt_truthy (cfg_takeProfit (config st1))
        then checkTakeProfitTriggers now st1 else []) in
  (signals,
   {| config := config st1; positions := positions st1;
      performance := performance st1; priceHistory := priceHistory st1;
      lastRebalance := now |}).

End WithMath.

Definition calculateMaxDrawdown (st : State) : num := Fin 0.
Definition calculateSharpeRatio (st : State) : num := Fin 0.

Definition updatePerformance (now : Z) (st : State) : State :=
  let ps := JsMap.values (positions st) in
  let totalPnL := sum (map pos_pnl ps) in
  let totalTrades := length ps in
  let winningTrades :=
    length (filter (fun p => (pos_pnl p >? 0%Z)%num) ps) in
  {| config := config st; positions := positions st;
     performance :=
       {| perf_totalPnL := totalPnL;
          perf_totalPnLPercentage :=
            if (cfg_allocation (config st) >? 0%Z)%num
            then (totalPnL / cfg_allocation (config st) * 100%Z)%num
            else Fin 0;
          perf_winRate :=
            if (0 <? totalTrades)%nat
            then (of_nat winningTrades / of_nat totalTrades * 100%Z)%num
            else Fin 0;
          perf_totalTrades := totalTrades;
          perf_maxDrawdown := calculateMaxDrawdown st;
          perf_sharpeRatio := calculateSharpeRatio st;
          perf_lastUpdate := now |};
     priceHistory := priceHistory st; lastRebalance := lastRebalance st |}.

Definition with_positions (st : State) (ps : JsMap.t Position) : State :=
  {| config := config st; positions := ps; performance := performance st;
     priceHistory := priceHistory st; lastRebalance := lastRebalance st |}.

Definition updatePosition (now : Z) (symbol : string) (action : Action)
    (quantity price : num) (st : State) : State :=
  let currentPosition := JsMap.get symbol (positions st) in
  let st' :=
    match action with
    | BUY =>
        match currentPosition with
        | Some cur =>
            let totalQuantity := (pos_quantity cur + quantity)%num in
            let totalValue :=
              (pos_quantity cur * pos_entryPrice cur + quantity * price)%num in
            let newEntryPrice := (totalValue / totalQuantity)%num in
            with_positions st
              (JsMap.set symbol
                 {| pos_symbol := symbol; pos_quantity := totalQuantity;
                    pos_entryPrice := newEntryPrice;
                    pos_currentPrice := price;
                    pos_pnl := ((price - newEntryPrice) * totalQuantity)%num;
                    pos_pnlPercentage :=
                      ((price - newEntryPrice) / newEntryPrice * 100%Z)%num;
                    pos_timestamp := now |}
                 (positions st))
        | None =>
            with_positions st
              (JsMap.set symbol
                 {| pos_symbol := symbol; pos_quantity := quantity;
                    pos_entryPrice := price; pos_currentPrice := price;
                    pos_pnl := Fin 0; pos_pnlPercentage := Fin 0;
                    pos_timestamp := now |}
                 (positions st))
        end
    | SELL =>
        match currentPosition with
        | Some cur =>
            let remainingQuantity := (pos_quantity cur - quantity)%num in
            if (remainingQuantity <=? dec 1 1000)%num
            then with_positions st (JsMap.delete symbol (positions st))
            else
              with_positions st
                (JsMap.set symbol
                   {| pos_symbol := pos_symbol cur;
                      pos_quantity := remainingQuantity;
                      pos_entryPrice := pos_entryPrice cur;
                      pos_currentPrice := price;
                      pos_pnl :=
                        ((price - pos_entryPrice cur) * remainingQuantity)%num;
                      pos_pnlPercentage :=
                        ((price - pos_entryPrice cur) / pos_entryPrice cur
                         * 100%Z)%num;
                      pos_timestamp := pos_timestamp cur |}
                   (positions st))
        | None => st
        end
    | HOLD => st
    end in
  updatePerformance now st'.

Definition getPositions (st : State) : list Position :=
  JsMap.values (positions st).

(** The calls a client makes on an evaluator, and the state a sequence
    of them leaves. *)
Inductive Call :=
| CallAnalyzeMarket (now : Z) (marketData : list MarketData)
| CallUpdatePosition (now : Z) (symbol : string) (action : Action)
    (quantity price : num).

Definition step (sqrt : num -> num) (st : State) (c : Call) : State :=
  match c with
  | CallAnalyzeMarket now marketData =>
      snd (analyzeMarket sqrt now marketData st)
  | CallUpdatePosition now symbol action quantity price =>
      updatePosition now symbol action quantity price st
  end.

Definition run (sqrt : num -> num) (calls : list Call) (st : State) : State :=
  fold_left (step sqrt) calls st.

End MomentumTradingBot.

(* ================================================================== *)
(** * Dollar-cost-averaging evaluator ([DCATradingBot]) *)
(* ================================================================== *)

Module DCATradingBot.

Inductive Frequency := DAILY | WEEKLY | MONTHLY | CUSTOM.

Record DCASchedule := {
  frequency : Frequency;
  interval : num;
  amount : num;
  startDate : Z;
  endDate : option Z;
  maxPurchases : option num
}.

Record Purchase := {
  pu_date : Z;
  pu_price : num;
  pu_quantity : num;
  pu_amount : num
}.

Record DCAPosition := {
  symbol : string;
  totalQuantity : num;
  totalInvested : num;
  averagePrice : num;
  currentValue : num;
  totalPnL : num;
  totalPnLPercentage : num;
  purchases : list Purchase;
  lastPurchase : Z;
  nextPurchase : num
}.

Record State := {
  config : BotConfig;
  schedule : DCASchedule;
  positions : JsMap.t DCAPosition;
  performance : BotPerformance;
  marketData : JsMap.t (list MarketData)
}.

Definition MAX_HISTORY : nat := 1000.
Definition PRUNE_CHUNK : nat := 200.

Definition create (cfg : BotConfig) (sch : DCASchedule) (now : Z) : State :=
  {| config := cfg; schedule := sch; positions := JsMap.empty;
     performance := initial_performance now; marketData := JsMap.empty |}.

Definition getIntervalMs (sch : DCASchedule) : num :=
  match frequency sch with
  | DAILY => of_Z (24 * 60 * 60 * 1000)
  | WEEKLY => of_Z (7 * 24 * 60 * 60 * 1000)
  | MONTHLY => of_Z (30 * 24 * 60 * 60 * 1000)
  | CUSTOM => (interval sch * of_Z 60 * of_Z 60 * of_Z 1000)%num
  end.

Definition shouldMakePurchase (st : State) (position : option DCAPosition)
    (now : Z) : bool :=
  let sch := schedule st in
  if (now <? startDate sch)%Z then false else
  if match endDate sch with
     | Some e => negb (e =? 0)%Z && (e <? now)%Z
     | None => false
     end then false else
  if match maxPurchases sch, position with
     | Some m, Some p =>
         truthy m && (of_nat (length (purchases p)) >=? m)%num
     | _, _ => false
     end then false else
  match position with
  | None => true
  | Some p =>
      let timeSinceLastPurchase := of_Z (now - lastPurchase p) in
      let intervalMs := getIntervalMs sch in
      (timeSinceLastPurchase >=? intervalMs)%num
  end.

Definition calculateVolumeRatio (st : State) (sym : string) : num :=
  match JsMap.get sym (marketData st) with
  | None => of_Z 1
  | Some history =>
      if (length history <? 10)%nat then of_Z 1 else
      let recentVolumes := map md_volume (lastn 10 history) in
      let avgVolume :=
        (sum recentVolumes / of_nat (length recentVolumes))%num in
      let latestVolume :=
        nth (length recentVolumes - 1) recentVolumes NaN in
      (latestVolume / avgVolume)%num
  end.

Definition calculateDCAConfidence (st : State) (assetData : MarketData)
    (position : option DCAPosition) : num :=
  let c0 := of_Z 70 in
  let c1 :=
    if (md_change24h assetData <? of_Z (-5))%num then (c0 + of_Z 15)%num
    else if (md_change24h assetData >? of_Z 10)%num then (c0 - of_Z 10)%num
    else c0 in
  let volumeRatio := calculateVolumeRatio st (md_symbol assetData) in
  let c2 :=
    if (volumeRatio >? dec 12 10)%num then (c1 + of_Z 5)%num
    else if (volumeRatio <? dec 8 10)%num then (c1 - of_Z 5)%num
    else c1 in
  let c3 :=
    match position with
    | Some p =>
        let positionSize :=
          (totalInvested p / cfg_allocation (config st) * of_Z 100)%num in
        if (positionSize <? of_Z 20)%num then (c2 + of_Z 10)%num
        else if (positionSize >? of_Z 50)%num then (c2 - of_Z 10)%num
        else c2
    | None => c2
    end in
  num_max (of_Z 30) (num_min (of_Z 95) c3).

Section WithMath.
Variable sqrt : num -> num.

Definition calculateVolatility (st : State) (sym : string) : num :=
  match JsMap.get sym (marketData st) with
  | None => Fin 0
  | Some history =>
      if (length history <? 10)%nat then Fin 0 else
      let prices := map md_price (lastn 20 history) in
      let returns := MomentumTradingBot.returns_of prices in
      let mean := (sum returns / of_nat (length returns))%num in
      let variance :=
        (sum (map (fun ret => pow2 (ret - mean)) returns)
         / of_nat (length returns))%num in
      sqrt variance
  end.

Definition applyDynamicSizing (st : State) (baseAmount : num)
    (assetData : MarketData) (position : option DCAPosition) : num :=
  let m0 := of_Z 1 in
  let volatility := calculateVolatility st (md_symbol assetData) in
  let m1 :=
    if (volatility >? dec 5 100)%num then (m0 * dec 8 10)%num
    else if (volatility <? dec 2 100)%num then (m0 * dec 12 10)%num
    else m0 in
  let m2 :=
    match position with
    | Some p =>
        let priceChange :=
          ((md_price assetData - averagePrice p) / averagePrice p)%num in
        if (priceChange <? dec (-1) 10)%num then (m1 * dec 15 10)%num
        else if (priceChange >? dec 2 10)%num then (m1 * dec 7 10)%num
        else m1
    | None => m1
    end in
  let volumeRatio := calculateVolumeRatio st (md_symbol assetData) in
  let m3 :=
    if (volumeRatio >? dec 15 10)%num then (m2 * dec 11 10)%num
    else if (volumeRatio <? dec 5 10)%num then (m2 * dec 9 10)%num
    else m2 in
  let multiplier :=
    match cfg_riskLevel (config st) with
    | CONSERVATIVE => (m3 * dec 8 10)%num
    | AGGRESSIVE => (m3 * dec 13 10)%num
    | MODERATE => m3
    end in
  num_max (baseAmount * dec 5 10)%num
          (num_min (baseAmount * of_Z 2)%num (baseAmount * multiplier)%num).

Definition calculateRiskLevel (st : State) (assetData : MarketData)
    (position : option DCAPosition) : Risk :=
  let volatility := calculateVolatility st (md_symbol assetData) in
  let r1 :=
    if (volatility >? dec 8 100)%num then 3%nat
    else if (volatility >? dec 5 100)%num then 2%nat
    else if (volatility >? dec 3 100)%num then 1%nat
    else 0%nat in
  let r2 :=
    if (num_abs (md_change24h assetData) >? of_Z 15)%num then (r1 + 2)%nat
    else if (num_abs (md_change24h assetData) >? of_Z 10)%num
         then (r1 + 1)%nat
    else r1 in
  let volumeRatio := calculateVolumeRatio st (md_symbol assetData) in
  let r3 := if (volumeRatio <? dec 5 10)%num then (r2 + 1)%nat else r2 in
  let riskScore :=
    match position with
    | Some p =>
        let positionSize :=
          (totalInvested p / cfg_allocation (config st) * of_Z 100)%num in
        if (positionSize >? of_Z 40)%num then (r3 + 1)%nat else r3
    | None => r3
    end in
  if (4 <=? riskScore)%nat then HIGH
  else if (2 <=? riskScore)%nat then MEDIUM
  else LOW.

Definition generateDCASignal (now : Z) (st : State) (sym : string)
    (assetData : MarketData) (position : option DCAPosition)
  : option TradingSignal :=
  let amount := amount (schedule st) in
  let adjustedAmount := applyDynamicSizing st amount assetData position in
  let adjustedQuantity := (adjustedAmount / md_price assetData)%num in
  let confidence := calculateDCAConfidence st assetData position in
  Some {| sig_action := BUY; sig_symbol := sym;
          sig_confidence := confidence;
          sig_price := md_price assetData;
          sig_quantity := Some adjustedQuantity;
          sig_reason := "DCA purchase";
          sig_timestamp := now;
          sig_riskLevel := calculateRiskLevel st assetData position |}.

Definition pnlPercentage (position : DCAPosition) (assetData : MarketData)
  : num :=
  let currentValue := (totalQuantity position * md_price assetData)%num in
  ((currentValue - totalInvested position) / totalInvested position
   * of_Z 100)%num.

Definition checkEmergencyStopLoss (now : Z) (st : State)
    (position : DCAPosition) (assetData : MarketData)
  : option TradingSignal :=
  if (pnlPercentage position assetData
      <=? - cfg_stopLoss (config st))%num
  then Some {| sig_action := SELL; sig_symbol := symbol position;
               sig_confidence := of_Z 100;
               sig_price := md_price assetData;
               sig_quantity := Some (totalQuantity position);
               sig_reason := "Emergency stop-loss triggered";
               sig_timestamp := now; sig_riskLevel := HIGH |}
  else None.

Definition shouldTakeProfit (st : State) (position : DCAPosition)
    (assetData : MarketData) : bool :=
  if negb (opt_truthy (cfg_takeProfit (config st))) then false else
  (pnlPercentage position assetData
   >=? opt_num (cfg_takeProfit (config st)))%num.

Definition generateTakeProfitSignal (now : Z) (position : DCAPosition)
    (assetData : MarketData) : TradingSignal :=
  {| sig_action := SELL; sig_symbol := symbol position;
     sig_confidence := of_Z 90;
     sig_price := md_price assetData;
     sig_quantity := Some (totalQuantity position);
     sig_reason := "Take-profit triggered";
     sig_timestamp := now; sig_riskLevel := LOW |}.

Definition opt_list {A} (o : option A) : list A :=
  match o with Some a => [a] | None => [] end.

(** The history update at the head of [analyzeMarket], pruned in chunks. *)
Definition recordObservation (h : JsMap.t (list MarketData)) (data : MarketData)
  : JsMap.t (list MarketData) :=
  let history :=
    match JsMap.get (md_symbol data) h with
    | Some l => l
    | None => []
    end ++ [data] in
  JsMap.set (md_symbol data)
    (if (MAX_HISTORY + PRUNE_CHUNK <? length history)%nat
     then skipn (length history - MAX_HISTORY) history else history) h.

Definition analyzeMarket (now : Z) (data : list MarketData) (st : State)
  : list TradingSignal * State :=
  let st1 :=
    {| config := config st; schedule := schedule st;
       positions := positions st; performance := performance st;
       marketData := fold_left recordObservation data (marketData st) |} in
  let signals :=
    flat_map
      (fun sym =>
         let position := JsMap.get sym (positions st1) in
         match find_asset sym data with
         | None => []
         | Some assetData =>
             (if shouldMakePurchase st1 position now
              then opt_list (generateDCASignal now st1 sym assetData position)
              else [])
             ++ match position with
                | Some p =>
                    if (cfg_stopLoss (config st1) >? of_Z 0)%num
                    then opt_list (checkEmergencyStopLoss now st1 p assetData)
                    else []
                | None => []
                end
             ++ match position with
                | Some p =>
                    if opt_truthy (cfg_takeProfit (config st1))
                       && shouldTakeProfit st1 p assetData
                    then [generateTakeProfitSignal now p assetData]
                    else []
                | None => []
                end
         end)
      (cfg_enabledAssets (config st1)) in
  (signals, st1).

Definition calculateMaxDrawdown (st : State) : num :=
  let '(maxDrawdown, peakValue) :=
    fold_left
      (fun '(maxDrawdown, peakValue) position =>
         let cur := currentValue position in
         if (cur >? peakValue)%num then (maxDrawdown, cur)
         else
           let drawdown := ((peakValue - cur) / peakValue)%num in
           (num_max maxDrawdown drawdown, peakValue))
      (JsMap.values (positions st)) (Fin 0, Fin 0) in
  (maxDrawdown * of_Z 100)%num.

Definition calculateSharpeRatio (st : State) : num :=
  let returns :=
    flat_map
      (fun position =>
         match purchases position with
         | firstPurchase :: _ :: _ =>
             let lastPurchase :=
               last (purchases position) firstPurchase in
             [((pu_price lastPurchase - pu_price firstPurchase)
               / pu_price firstPurchase)%num]
         | _ => []
         end)
      (JsMap.values (positions st)) in
  if (length returns =? 0)%nat then Fin 0 else
  let meanReturn := (sum returns / of_nat (length returns))%num in
  let variance :=
    (sum (map (fun ret => pow2 (ret - meanReturn)) returns)
     / of_nat (length returns))%num in
  let stdDev := sqrt variance in
  let riskFreeRate := (dec 2 100 / of_Z 365)%num in
  if (stdDev >? of_Z 0)%num then ((meanReturn - riskFreeRate) / stdDev)%num
  else Fin 0.

Definition updatePerformance (now : Z) (st : State) : State :=
  let ps := JsMap.values (positions st) in
  let totalPnL' := sum (map totalPnL ps) in
  let totalInvested' := sum (map totalInvested ps) in
  let totalTrades :=
    fold_left (fun n p => (n + length (purchases p))%nat) ps 0%nat in
  let winningTrades :=
    fold_left
      (fun n p =>
         if (totalPnL p >? of_Z 0)%num then (n + length (purchases p))%nat
         else n)
      ps 0%nat in
  {| config := config st; schedule := schedule st; positions := positions st;
     performance :=
       {| perf_totalPnL := totalPnL';
          perf_totalPnLPercentage :=
            if (totalInvested' >? of_Z 0)%num
            then (totalPnL' / totalInvested' * of_Z 100)%num else Fin 0;
          perf_winRate :=
            if (0 <? totalTrades)%nat
            then (of_nat winningTrades / of_nat totalTrades * of_Z 100)%num
            else Fin 0;
          perf_totalTrades := totalTrades;
          perf_maxDrawdown := calculateMaxDrawdown st;
          perf_sharpeRatio := calculateSharpeRatio st;
          perf_lastUpdate := now |};
     marketData := marketData st |}.

Definition with_positions (st : State) (ps : JsMap.t DCAPosition) : State :=
  {| config := config st; schedule := schedule st; positions := ps;
     performance := performance st; marketData := marketData st |}.

Definition updatePosition (now : Z) (sym : string) (action : Action)
    (quantity price : num) (st : State) : State :=
  let currentPosition := JsMap.get sym (positions st) in
  let st' :=
    match action with
    | BUY =>
        let amount := (quantity * price)%num in
        let purchase :=
          {| pu_date := now; pu_price := price; pu_quantity := quantity;
             pu_amount := amount |} in
        match currentPosition with
        | Some cur =>
            let newTotalQuantity := (totalQuantity cur + quantity)%num in
            let newTotalInvested := (totalInvested cur + amount)%num in
            let newAveragePrice :=
              (newTotalInvested / newTotalQuantity)%num in
            with_positions st
              (JsMap.set sym
                 {| symbol := sym;
                    totalQuantity := newTotalQuantity;
                    totalInvested := newTotalInvested;
                    averagePrice := newAveragePrice;
                    currentValue := (newTotalQuantity * price)%num;
                    totalPnL :=
                      ((price - newAveragePrice) * newTotalQuantity)%num;
                    totalPnLPercentage :=
                      ((price - newAveragePrice) / newAveragePrice
                       * of_Z 100)%num;
                    purchases := purchases cur ++ [purchase];
                    lastPurchase := now;
                    nextPurchase :=
                      (of_Z now + getIntervalMs (schedule st))%num |}
                 (positions st))
        | None =>
            with_positions st
              (JsMap.set sym
                 {| symbol := sym;
                    totalQuantity := quantity;
                    totalInvested := amount;
                    averagePrice := price;
                    currentValue := (quantity * price)%num;
                    totalPnL := Fin 0;
                    totalPnLPercentage := Fin 0;
                    purchases := [purchase];
                    lastPurchase := now;
                    nextPurchase :=
                      (of_Z now + getIntervalMs (schedule st))%num |}
                 (positions st))
        end
    | SELL =>
        match currentPosition with
        | Some _ => with_positions st (JsMap.delete sym (positions st))
        | None => st
        end
    | HOLD => st
    end in
  updatePerformance now st'.

End WithMath.

(** The calls a client makes on an evaluator, and the state a sequence
    of them leaves. *)
Inductive Call :=
| CallAnalyzeMarket (now : Z) (data : list MarketData)
| CallUpdatePosition (now : Z) (sym : string) (action : Action)
    (quantity price : num).

Definition step (sqrt : num -> num) (st : State) (c : Call) : State :=
  match c with
  | CallAnalyzeMarket now data => snd (analyzeMarket sqrt now data st)
  | CallUpdatePosition now sym action quantity price =>
      updatePosition sqrt now sym action quantity price st
  end.

Definition run (sqrt : num -> num) (calls : list Call) (st : State) : State :=
  fold_left (step sqrt) calls st.

End DCATradingBot.

(* ================================================================== *)
(** * Staking-yield evaluator ([SmartStakingBot]) *)
(* ================================================================== *)

Module SmartStakingBot.

Inductive Liquidity := LiqHIGH | LiqMEDIUM | LiqLOW.
Inductive Compound := DAILY | WEEKLY | MONTHLY.
Inductive Status := ACTIVE | UNLOCKING | UNLOCKED.

Record StakingOpportunity := {
  symbol : string;
  platform : string;
  apy : num;
  minStake : num;
  maxStake : option num;
  lockPeriod : num;
  riskLevel : Risk;
  liquidity : Liquidity;
  compoundFrequency : Compound;
  fees : num;
  lastUpdated : Z
}.

Record StakingPosition := {
  sp_symbol : string;
  sp_platform : string;
  stakedAmount : num;
  sp_apy : num;
  sp_startDate : Z;
  sp_endDate : num;
  sp_lockPeriod : num;
  sp_compoundFrequency : Compound;
  estimatedRewards : num;
  actualRewards : num;
  status : Status;
  sp_riskLevel : Risk
}.

Record StakingAllocation := {
  al_symbol : string;
  al_platform : string;
  al_amount : num;
  al_apy : num;
  al_priority : num;
  al_reason : string
}.

(** [{ ...opp, score }] *)
Record ScoredOpportunity := {
  so_opp : StakingOpportunity;
  so_score : num
}.

Record State := {
  config : BotConfig;
  positions : JsMap.t StakingPosition;
  opportunities : JsMap.t (list StakingOpportunity);
  performance : BotPerformance;
  lastOptimization : Z
}.

Definition MAX_OPPS_PER_SYMBOL : nat := 10.

Definition create (cfg : BotConfig) (now : Z) : State :=
  {| config := cfg; positions := JsMap.empty; opportunities := JsMap.empty;
     performance := initial_performance now; lastOptimization := 0%Z |}.

(** [table[key]] and [table[k1]?.[k2]] on the literal lookup tables. *)
Definition lookup {V} (k : string) (table : list (string * V)) : option V :=
  JsMap.get k table.

Definition lookup2 {V} (k1 k2 : string)
    (table : list (string * list (string * V))) : option V :=
  match lookup k1 table with
  | Some row => lookup k2 row
  | None => None
  end.

(** [v || d] on a number that may be missing. *)
Definition num_or (o : option num) (d : num) : num :=
  match o with
  | Some v => if truthy v then v else d
  | None => d
  end.

Definition val_or {V} (o : option V) (d : V) : V :=
  match o with Some v => v | None => d end.

Definition getStakingPlatforms (sym : string) : list string :=
  val_or
    (lookup sym
       [("ETH", ["Lido"; "Rocket Pool"; "Coinbase"; "Kraken"]);
        ("SOL", ["Marinade"; "Jito"; "Solana Foundation"]);
        ("ADA", ["Cardano Pool"; "Binance"; "Kraken"]);
        ("DOT", ["Polkadot"; "Kraken"; "Binance"]);
        ("AVAX", ["Avalanche"; "Binance"; "Kraken"]);
        ("MATIC", ["Polygon"; "Binance"; "Kraken"]);
        ("ATOM", ["Cosmos Hub"; "Binance"; "Kraken"]);
        ("NEAR", ["NEAR Protocol"; "Binance"; "Kraken"])]%string)
    ["Binance"; "Kraken"; "Coinbase"]%string.

Definition getBaseAPY (sym : string) : num :=
  num_or
    (lookup sym
       [("ETH", dec 45 10); ("SOL", dec 72 10); ("ADA", dec 58 10);
        ("DOT", dec 125 10); ("AVAX", dec 89 10); ("MATIC", dec 62 10);
        ("ATOM", dec 195 10); ("NEAR", dec 112 10)]%string)
    (of_Z 5).

Definition getPlatformMultiplier (pf : string) : num :=
  num_or
    (lookup pf
       [("Lido", of_Z 1); ("Rocket Pool", dec 95 100);
        ("Coinbase", dec 85 100); ("Kraken", dec 90 100);
        ("Binance", dec 88 100); ("Marinade", dec 105 100);
        ("Jito", dec 11 10); ("Solana Foundation", of_Z 1);
        ("Cardano Pool", of_Z 1); ("Polkadot", of_Z 1);
        ("Avalanche", of_Z 1); ("Polygon", of_Z 1);
        ("Cosmos Hub", of_Z 1); ("NEAR Protocol", of_Z 1)]%string)
    (dec 9 10).

Definition getRiskAdjustment (sym pf : string) : num :=
  let platformRisk :=
    [("Lido", dec 95 100); ("Rocket Pool", dec 98 100);
     ("Coinbase", dec 92 100); ("Kraken", dec 94 100);
     ("Binance", dec 90 100); ("Marinade", dec 102 100);
     ("Jito", dec 105 100); ("Solana Foundation", dec 98 100)]%string in
  let assetRisk :=
    [("ETH", dec 95 100); ("SOL", dec 105 100); ("ADA", of_Z 1);
     ("DOT", dec 11 10); ("AVAX", dec 108 100); ("MATIC", dec 102 100);
     ("ATOM", dec 115 100); ("NEAR", dec 11 10)]%string in
  (of_Z 1 * num_or (lookup pf platformRisk) (dec 95 100)
   * num_or (lookup sym assetRisk) (of_Z 1))%num.

Definition getMinStake (sym pf : string) : num :=
  num_or
    (lookup2 sym pf
       [("ETH", [("Lido", dec 1 10); ("Rocket Pool", dec 1 10);
                 ("Coinbase", dec 1 10); ("Kraken", dec 1 10)]);
        ("SOL", [("Marinade", of_Z 1); ("Jito", of_Z 1);
                 ("Solana Foundation", of_Z 1)]);
        ("ADA", [("Cardano Pool", of_Z 10); ("Binance", of_Z 10);
                 ("Kraken", of_Z 10)]);
        ("DOT", [("Polkadot", of_Z 1); ("Kraken", of_Z 1);
                 ("Binance", of_Z 1)])]%string)
    (of_Z 1).

Definition getMaxStake (sym pf : string) : num :=
  num_or
    (lookup2 sym pf
       [("ETH", [("Lido", of_Z 1000); ("Rocket Pool", of_Z 1000);
                 ("Coinbase", of_Z 10000); ("Kraken", of_Z 10000)]);
        ("SOL", [("Marinade", of_Z 10000); ("Jito", of_Z 10000);
                 ("Solana Foundation", of_Z 10000)])]%string)
    (of_Z 10000).

Definition getLockPeriod (sym pf : string) : num :=
  num_or
    (lookup2 sym pf
       [("ETH", [("Lido", of_Z 0); ("Rocket Pool", of_Z 0);
                 ("Coinbase", of_Z 0); ("Kraken", of_Z 0)]);
        ("SOL", [("Marinade", of_Z 0); ("Jito", of_Z 0);
                 ("Solana Foundation", of_Z 0)]);
        ("ADA", [("Cardano Pool", of_Z 0); ("Binance", of_Z 0);
                 ("Kraken", of_Z 0)]);
        ("DOT", [("Polkadot", of_Z 28); ("Kraken", of_Z 0);
                 ("Binance", of_Z 0)]);
        ("AVAX", [("Avalanche", of_Z 0); ("Binance", of_Z 0);
                  ("Kraken", of_Z 0)]);
        ("MATIC", [("Polygon", of_Z 0); ("Binance", of_Z 0);
                   ("Kraken", of_Z 0)]);
        ("ATOM", [("Cosmos Hub", of_Z 21); ("Binance", of_Z 0);
                  ("Kraken", of_Z 0)]);
        ("NEAR", [("NEAR Protocol", of_Z 0); ("Binance", of_Z 0);
                  ("Kraken", of_Z 0)])]%string)
    (of_Z 0).

Definition getRiskLevel (sym pf : string) : Risk :=
  val_or
    (lookup2 sym pf
       [("ETH", [("Lido", LOW); ("Rocket Pool", LOW); ("Coinbase", LOW);
                 ("Kraken", LOW)]);
        ("SOL", [("Marinade", MEDIUM); ("Jito", MEDIUM);
                 ("Solana Foundation", LOW)]);
        ("ADA", [("Cardano Pool", LOW); ("Binance", LOW); ("Kraken", LOW)]);
        ("DOT", [("Polkadot", MEDIUM); ("Kraken", LOW); ("Binance", LOW)]);
        ("AVAX", [("Avalanche", MEDIUM); ("Binance", LOW); ("Kraken", LOW)]);
        ("MATIC", [("Polygon", MEDIUM); ("Binance", LOW); ("Kraken", LOW)]);
        ("ATOM", [("Cosmos Hub", MEDIUM); ("Binance", LOW); ("Kraken", LOW)]);
        ("NEAR", [("NEAR Protocol", MEDIUM); ("Binance", LOW);
                  ("Kraken", LOW)])]%string)
    MEDIUM.

Definition getLiquidity (sym pf : string) : Liquidity :=
  val_or
    (lookup2 sym pf
       [("ETH", [("Lido", LiqHIGH); ("Rocket Pool", LiqHIGH);
                 ("Coinbase", LiqHIGH); ("Kraken", LiqHIGH)]);
        ("SOL", [("Marinade", LiqHIGH); ("Jito", LiqHIGH);
                 ("Solana Foundation", LiqHIGH)]);
        ("ADA", [("Cardano Pool", LiqHIGH); ("Binance", LiqHIGH);
                 ("Kraken", LiqHIGH)]);
        ("DOT", [("Polkadot", LiqMEDIUM); ("Kraken", LiqHIGH);
                 ("Binance", LiqHIGH)]);
        ("AVAX", [("Avalanche", LiqMEDIUM); ("Binance", LiqHIGH);
                  ("Kraken", LiqHIGH)]);
        ("MATIC", [("Polygon", LiqMEDIUM); ("Binance", LiqHIGH);
                   ("Kraken", LiqHIGH)]);
        ("ATOM", [("Cosmos Hub", LiqMEDIUM); ("Binance", LiqHIGH);
                  ("Kraken", LiqHIGH)]);
        ("NEAR", [("NEAR Protocol", LiqMEDIUM); ("Binance", LiqHIGH);
                  ("Kraken", LiqHIGH)])]%string)
    LiqMEDIUM.

Definition getCompoundFrequency (pf : string) : Compound :=
  val_or
    (lookup pf
       [("Lido", DAILY); ("Rocket Pool", DAILY); ("Coinbase", WEEKLY);
        ("Kraken", WEEKLY); ("Binance", DAILY); ("Marinade", DAILY);
        ("Jito", DAILY); ("Solana Foundation", DAILY);
        ("Cardano Pool", DAILY); ("Polkadot", WEEKLY);
        ("Avalanche", DAILY); ("Polygon", DAILY); ("Cosmos Hub", DAILY);
        ("NEAR Protocol", DAILY)]%string)
    WEEKLY.

Definition getFees (pf : string) : num :=
  num_or
    (lookup pf
       [("Lido", of_Z 10); ("Rocket Pool", of_Z 15); ("Coinbase", of_Z 25);
        ("Kraken", of_Z 20); ("Binance", of_Z 5); ("Marinade", of_Z 6);
        ("Jito", of_Z 8); ("Solana Foundation", of_Z 0);
        ("Cardano Pool", of_Z 0); ("Polkadot", of_Z 0);
        ("Avalanche", of_Z 0); ("Polygon", of_Z 0); ("Cosmos Hub", of_Z 0);
        ("NEAR Protocol", of_Z 0)]%string)
    (of_Z 10).

Definition generateStakingOpportunity (now : Z) (asset : MarketData)
    (pf : string) : StakingOpportunity :=
  let baseAPY := getBaseAPY (md_symbol asset) in
  let platformMultiplier := getPlatformMultiplier pf in
  let riskAdjustment := getRiskAdjustment (md_symbol asset) pf in
  let apy := (baseAPY * platformMultiplier * riskAdjustment)%num in
  {| symbol := md_symbol asset;
     platform := pf;
     apy := num_max (dec 5 10) (num_min (of_Z 50) apy);
     minStake := getMinStake (md_symbol asset) pf;
     maxStake := Some (getMaxStake (md_symbol asset) pf);
     lockPeriod := getLockPeriod (md_symbol asset) pf;
     riskLevel := getRiskLevel (md_symbol asset) pf;
     liquidity := getLiquidity (md_symbol asset) pf;
     compoundFrequency := getCompoundFrequency pf;
     fees := getFees pf;
     lastUpdated := now |}.

Definition updateStakingOpportunities (now : Z) (marketData : list MarketData)
    (opps : JsMap.t (list StakingOpportunity))
  : JsMap.t (list StakingOpportunity) :=
  fold_left
    (fun m asset =>
       let opportunities :=
         map (generateStakingOpportunity now asset)
             (getStakingPlatforms (md_symbol asset)) in
       JsMap.set (md_symbol asset)
                 (firstn MAX_OPPS_PER_SYMBOL opportunities) m)
    marketData opps.

Definition calculateStakingScore (opportunity : StakingOpportunity)
    (marketData : list MarketData) : num :=
  let s0 := (apy opportunity * of_Z 10)%num in
  let s1 :=
    match riskLevel opportunity with
    | LOW => (s0 * dec 12 10)%num
    | MEDIUM => (s0 * of_Z 1)%num
    | HIGH => (s0 * dec 7 10)%num
    end in
  let s2 :=
    match liquidity opportunity with
    | LiqHIGH => (s1 * dec 11 10)%num
    | LiqMEDIUM => (s1 * of_Z 1)%num
    | LiqLOW => (s1 * dec 8 10)%num
    end in
  let s3 := (s2 * (of_Z 1 - fees opportunity / of_Z 100))%num in
  let s4 :=
    if (lockPeriod opportunity >? of_Z 0)%num
    then (s3 * num_max (dec 5 10)
                       (of_Z 1 - lockPeriod opportunity / of_Z 365))%num
    else s3 in
  let s5 :=
    match compoundFrequency opportunity with
    | DAILY => (s4 * dec 11 10)%num
    | WEEKLY => (s4 * of_Z 1)%num
    | MONTHLY => (s4 * dec 9 10)%num
    end in
  let s6 :=
    match find_asset (symbol opportunity) marketData with
    | Some assetData =>
        if (md_change24h assetData >? of_Z (-2))%num
           && (md_change24h assetData <? of_Z 5)%num
        then (s5 * dec 11 10)%num
        else if (md_change24h assetData <? of_Z (-10))%num
             then (s5 * dec 8 10)%num
        else s5
    | None => s5
    end in
  num_max (of_Z 0) s6.

(** One round of the greedy loop of [calculateOptimalAllocations]. *)
Definition allocateOne (totalCapital : num)
    (acc : list StakingAllocation * num) (opp : ScoredOpportunity)
  : list StakingAllocation * num :=
  let '(allocations, remainingCapital) := acc in
  if (remainingCapital <=? of_Z 0)%num then acc else
  let maxAllocation :=
    num_min
      (num_min remainingCapital
               (num_or (maxStake (so_opp opp)) remainingCapital))
      (totalCapital * dec 3 10)%num in
  if (maxAllocation >=? minStake (so_opp opp))%num
  then
    (allocations
     ++ [{| al_symbol := symbol (so_opp opp);
            al_platform := platform (so_opp opp);
            al_amount := maxAllocation;
            al_apy := apy (so_opp opp);
            al_priority := num_round (so_score opp);
            al_reason := "High APY" |}],
     (remainingCapital - maxAllocation)%num)
  else acc.

(** The scored, enabled opportunities in the order the nested [forEach]
    visits them. *)
Definition scoreOpportunities (st : State) (marketData : list MarketData)
  : list ScoredOpportunity :=
  flat_map
    (fun opps =>
       flat_map
         (fun opp =>
            if includes (symbol opp) (cfg_enabledAssets (config st))
            then [{| so_opp := opp;
                     so_score := calculateStakingScore opp marketData |}]
            else [])
         opps)
    (JsMap.values (opportunities st)).

Definition currentStaked (st : State) : num :=
  sum (map stakedAmount (JsMap.values (positions st))).

Definition calculateOptimalAllocations (st : State)
    (marketData : list MarketData) : list StakingAllocation :=
  let totalCapital := cfg_allocation (config st) in
  let availableCapital := (totalCapital - currentStaked st)%num in
  let scoredOpportunities :=
    sort_by (fun a b => (so_score b - so_score a)%num)
            (scoreOpportunities st marketData) in
  fst (fold_left (allocateOne totalCapital) scoredOpportunities
                 ([], availableCapital)).

Definition calculateStakingConfidence (allocation : StakingAllocation) : num :=
  let c0 := of_Z 70 in
  let c1 :=
    if (al_apy allocation >? of_Z 15)%num then (c0 + of_Z 15)%num
    else if (al_apy allocation >? of_Z 10)%num then (c0 + of_Z 10)%num
    else if (al_apy allocation >? of_Z 5)%num then (c0 + of_Z 5)%num
    else c0 in
  let c2 := (c1 + al_priority allocation * of_Z 2)%num in
  num_min (of_Z 95) c2.

(** [marketData.find(d => d.symbol === s)?.price || d] *)
Definition price_or (sym : string) (marketData : list MarketData) (d : num)
  : num :=
  num_or (option_map md_price (find_asset sym marketData)) d.

Definition position_key (sym pf : string) : string :=
  (sym ++ "-" ++ pf)%string.

Definition optimizeStakingAllocation (now : Z) (st : State)
    (marketData : list MarketData) : list TradingSignal :=
  flat_map
    (fun allocation =>
       let price := price_or (al_symbol allocation) marketData (of_Z 0) in
       let divisor := price_or (al_symbol allocation) marketData (of_Z 1) in
       match JsMap.get (position_key (al_symbol allocation)
                                     (al_platform allocation))
                       (positions st) with
       | None =>
           [{| sig_action := BUY; sig_symbol := al_symbol allocation;
               sig_confidence := calculateStakingConfidence allocation;
               sig_price := price;
               sig_quantity := Some (al_amount allocation / divisor)%num;
               sig_reason := "Optimal staking allocation";
               sig_timestamp := now;
               sig_riskLevel :=
                 getRiskLevel (al_symbol allocation)
                              (al_platform allocation) |}]
       | Some currentPosition =>
           if (num_abs (stakedAmount currentPosition - al_amount allocation)
               / al_amount allocation >? dec 1 10)%num
           then
             let amountDiff :=
               (al_amount allocation - stakedAmount currentPosition)%num in
             [{| sig_action :=
                   if (amountDiff >? of_Z 0)%num then BUY else SELL;
                 sig_symbol := al_symbol allocation;
                 sig_confidence := of_Z 75;
                 sig_price := price;
                 sig_quantity := Some (num_abs amountDiff / divisor)%num;
                 sig_reason := "Rebalancing staking position";
                 sig_timestamp := now; sig_riskLevel := MEDIUM |}]
           else []
       end)
    (calculateOptimalAllocations st marketData).

Definition getCompoundIntervalMs (f : Compound) : Z :=
  match f with
  | DAILY => 24 * 60 * 60 * 1000
  | WEEKLY => 7 * 24 * 60 * 60 * 1000
  | MONTHLY => 30 * 24 * 60 * 60 * 1000
  end.

Definition shouldCompound (position : StakingPosition) (now : Z) : bool :=
  let timeSinceStart := (now - sp_startDate position)%Z in
  let compoundInterval := getCompoundIntervalMs (sp_compoundFrequency position) in
  (compoundInterval <? timeSinceStart)%Z
  && (estimatedRewards position >? of_Z 0)%num.

Definition is_active (s : Status) : bool :=
  match s with ACTIVE => true | _ => false end.

Definition with_status (p : StakingPosition) (s : Status) : StakingPosition :=
  {| sp_symbol := sp_symbol p; sp_platform := sp_platform p;
     stakedAmount := stakedAmount p; sp_apy := sp_apy p;
     sp_startDate := sp_startDate p; sp_endDate := sp_endDate p;
     sp_lockPeriod := sp_lockPeriod p;
     sp_compoundFrequency := sp_compoundFrequency p;
     estimatedRewards := estimatedRewards p;
     actualRewards := actualRewards p; status := s;
     sp_riskLevel := sp_riskLevel p |}.

(** One position of [manageExistingPositions]: its signals, and the
    position as the loop leaves it (a matured one is marked [UNLOCKED]). *)
Definition managePosition (now : Z) (marketData : list MarketData)
    (position : StakingPosition) : list TradingSignal * StakingPosition :=
  let price := price_or (sp_symbol position) marketData (of_Z 0) in
  let divisor := price_or (sp_symbol position) marketData (of_Z 1) in
  let unlock :=
    is_active (status position) && (of_Z now >=? sp_endDate position)%num in
  let position1 := if unlock then with_status position UNLOCKED else position in
  let unlockSignals :=
    if unlock
    then [{| sig_action := SELL; sig_symbol := sp_symbol position;
             sig_confidence := of_Z 100; sig_price := price;
             sig_quantity := Some (stakedAmount position / divisor)%num;
             sig_reason := "Staking period completed - unlocking funds";
             sig_timestamp := now; sig_riskLevel := LOW |}]
    else [] in
  let compoundSignals :=
    if is_active (status position1) && shouldCompound position1 now
    then [{| sig_action := BUY; sig_symbol := sp_symbol position1;
             sig_confidence := of_Z 85; sig_price := price;
             sig_quantity := Some (estimatedRewards position1 / divisor)%num;
             sig_reason := "Compounding staking rewards";
             sig_timestamp := now; sig_riskLevel := LOW |}]
    else [] in
  (unlockSignals ++ compoundSignals, position1).

Definition manageExistingPositions (now : Z) (marketData : list MarketData)
    (ps : JsMap.t StakingPosition)
  : list TradingSignal * JsMap.t StakingPosition :=
  fold_left
    (fun '(signals, done) '(key, position) =>
       let '(s, position1) := managePosition now marketData position in
       (signals ++ s, done ++ [(key, position1)]))
    ps ([], []).

Definition checkEmergencyUnstaking (now : Z) (st : State)
    (marketData : list MarketData) : list TradingSignal :=
  if (cfg_stopLoss (config st) <=? of_Z 0)%num then [] else
  flat_map
    (fun '(key, position) =>
       if negb (is_active (status position)) then [] else
       match find_asset (sp_symbol position) marketData with
       | None => []
       | Some assetData =>
           let currentValue :=
             (stakedAmount position * md_price assetData)%num in
           let totalInvested :=
             (stakedAmount position * md_price assetData)%num in
           let pnlPercentage :=
             ((currentValue - totalInvested) / totalInvested
              * of_Z 100)%num in
           if (pnlPercentage <=? - cfg_stopLoss (config st))%num
           then [{| sig_action := SELL; sig_symbol := sp_symbol position;
                    sig_confidence := of_Z 100;
                    sig_price := md_price assetData;
                    sig_quantity :=
                      Some (stakedAmount position / md_price assetData)%num;
                    sig_reason := "Emergency unstaking";
                    sig_timestamp := now; sig_riskLevel := HIGH |}]
           else []
       end)
    (positions st).

Definition analyzeMarket (now : Z) (marketData : list MarketData) (st : State)
  : list TradingSignal * State :=
  let st1 :=
    {| config := config st; positions := positions st;
       opportunities :=
         updateStakingOpportunities now marketData (opportunities st);
       performance := performance st;
       lastOptimization := lastOptimization st |} in
  let optimize := (60 * 60 * 1000 <? now - lastOptimization st1)%Z in
  let optimizationSignals :=
    if optimize then optimizeStakingAllocation now st1 marketData else [] in
  let '(managementSignals, ps) :=
    manageExistingPositions now marketData (positions st1) in
  let st2 :=
    {| config := config st1; positions := ps;
       opportunities := opportunities st1; performance := performance st1;
       lastOptimization := if optimize then now else lastOptimization st1 |} in
  let emergencySignals := checkEmergencyUnstaking now st2 marketData in
  (optimizationSignals ++ managementSignals ++ emergencySignals, st2).



(** ** The staking ledger *)

(** [opportunities.reduce((best, current) => ...)] without an initial
    value: the first element starts as [best]. *)
Definition findBestOpportunity (st : State) (sym : string)
  : option StakingOpportunity :=
  match JsMap.get sym (opportunities st) with
  | None | Some [] => None
  | Some (first :: rest) =>
      Some
        (fold_left
           (fun best current =>
              let bestScore := calculateStakingScore best [] in
              let currentScore := calculateStakingScore current [] in
              if (currentScore >? bestScore)%num then current else best)
           rest first)
  end.

Definition calculateEstimatedRewards (stakedAmount apy : num) : num :=
  let dailyRate := (apy / of_Z 365 / of_Z 100)%num in
  (stakedAmount * dailyRate)%num.

Definition calculateSharpeRatio (st : State) : num :=
  let avgAPY :=
    (sum (map sp_apy (JsMap.values (positions st)))
     / of_nat (JsMap.size (positions st)))%num in
  let riskFreeRate := of_Z 2 in
  let volatility := of_Z 2 in
  if (0 <? JsMap.size (positions st))%nat
  then ((avgAPY - riskFreeRate) / volatility)%num
  else Fin 0.

Definition updatePerformance (now : Z) (st : State) : State :=
  let ps := JsMap.values (positions st) in
  let totalPnL := sum (map actualRewards ps) in
  let totalInvested := sum (map stakedAmount ps) in
  let totalTrades := length ps in
  let winningTrades :=
    length (filter (fun p => (actualRewards p >? of_Z 0)%num) ps) in
  {| config := config st; positions := positions st;
     opportunities := opportunities st;
     performance :=
       {| perf_totalPnL := totalPnL;
          perf_totalPnLPercentage :=
            if (totalInvested >? of_Z 0)%num
            then (totalPnL / totalInvested * of_Z 100)%num else Fin 0;
          perf_winRate :=
            if (0 <? totalTrades)%nat
            then (of_nat winningTrades / of_nat totalTrades * of_Z 100)%num
            else Fin 0;
          perf_totalTrades := totalTrades;
          perf_maxDrawdown := Fin 0;
          perf_sharpeRatio := calculateSharpeRatio st;
          perf_lastUpdate := now |};
     lastOptimization := lastOptimization st |}.

Definition with_positions (st : State) (ps : JsMap.t StakingPosition) : State :=
  {| config := config st; positions := ps; opportunities := opportunities st;
     performance := performance st; lastOptimization := lastOptimization st |}.

(** [platform ? `${symbol}-${platform}` : symbol]: an absent or empty
    platform leaves the symbol as the key. *)
Definition ledger_key (sym : string) (pf : option string) : string :=
  match pf with
  | Some p => if String.eqb p "" then sym else position_key sym p
  | None => sym
  end.

(** [{ ...currentPosition, stakedAmount, estimatedRewards }] *)
Definition restake (p : StakingPosition) (staked rewards : num)
  : StakingPosition :=
  {| sp_symbol := sp_symbol p; sp_platform := sp_platform p;
     stakedAmount := staked; sp_apy := sp_apy p;
     sp_startDate := sp_startDate p; sp_endDate := sp_endDate p;
     sp_lockPeriod := sp_lockPeriod p;
     sp_compoundFrequency := sp_compoundFrequency p;
     estimatedRewards := rewards;
     actualRewards := actualRewards p; status := status p;
     sp_riskLevel := sp_riskLevel p |}.

(** A BUY for a symbol without a known opportunity returns before the
    performance is refreshed. *)
Definition updatePosition (now : Z) (sym : string) (action : Action)
    (quantity price : num) (pf : option string) (st : State) : State :=
  let key := ledger_key sym pf in
  let currentPosition := JsMap.get key (positions st) in
  match action with
  | BUY =>
      match findBestOpportunity st sym with
      | None => st
      | Some opportunity =>
          let staked := (quantity * price)%num in
          updatePerformance now
            match currentPosition with
            | Some cur =>
                with_positions st
                  (JsMap.set key
                     (restake cur (stakedAmount cur + staked)%num
                        (calculateEstimatedRewards
                           (stakedAmount cur + staked)%num (apy opportunity)))
                     (positions st))
            | None =>
                with_positions st
                  (JsMap.set key
                     {| sp_symbol := sym;
                        sp_platform := platform opportunity;
                        stakedAmount := staked;
                        sp_apy := apy opportunity;
                        sp_startDate := now;
                        sp_endDate :=
                          (of_Z now
                           + lockPeriod opportunity * of_Z 24 * of_Z 60
                             * of_Z 60 * of_Z 1000)%num;
                        sp_lockPeriod := lockPeriod opportunity;
                        sp_compoundFrequency := compoundFrequency opportunity;
                        estimatedRewards :=
                          calculateEstimatedRewards staked (apy opportunity);
                        actualRewards := of_Z 0;
                        status := ACTIVE;
                        sp_riskLevel := riskLevel opportunity |}
                     (positions st))
            end
      end
  | SELL =>
      updatePerformance now
        match currentPosition with
        | Some _ => with_positions st (JsMap.delete key (positions st))
        | None => st
        end
  | HOLD => updatePerformance now st
  end.

(** The calls a client makes on an evaluator, and the state a sequence
    of them leaves. *)
Inductive Call :=
| CallAnalyzeMarket (now : Z) (marketData : list MarketData)
| CallUpdatePosition (now : Z) (sym : string) (action : Action)
    (quantity price : num) (pf : option string).

Definition step (st : State) (c : Call) : State :=
  match c with
  | CallAnalyzeMarket now marketData => snd (analyzeMarket now marketData st)
  | CallUpdatePosition now sym action quantity price pf =>
      updatePosition now sym action quantity price pf st
  end.

Definition run (calls : list Call) (st : State) : State :=
  fold_left step calls st.


(** An opportunity whose yield, fee and lock period are finite numbers,
    and a state all of whose opportunities are such. *)
Definition finite_terms (o : StakingOpportunity) : Prop :=
  is_finite (apy o) && is_finite (fees o) && is_finite (lockPeriod o) = true.

Definition finite_book (st : State) : Prop :=
  Forall (Forall finite_terms) (JsMap.values (opportunities st)).

End SmartStakingBot.

(* ================================================================== *)
(** * Channel-index evaluator ([CCIMarketBot]) *)
(* ================================================================== *)

Module CCIMarketBot.

Inductive CCISignal := OVERBOUGHT | OVERSOLD | NEUTRAL.
Inductive Trend := BULLISH | BEARISH | SIDEWAYS.
Inductive PositionStatus := ACTIVE | CLOSED.

Record CCIData := {
  symbol : string;
  timestamp : Z;
  price : num;
  high : num;
  low : num;
  close : num;
  volume : num;
  cci : num;
  cciMA : num;
  cciSignal : CCISignal;
  trend : Trend;
  strength : num
}.

Record CCIPosition := {
  cp_symbol : string;
  quantity : num;
  entryPrice : num;
  currentPrice : num;
  pnl : num;
  pnlPercentage : num;
  entrySignal : string;
  entryTimestamp : Z;
  stopLoss : num;
  takeProfit : num;
  status : PositionStatus
}.

Record CCIConfig := {
  period : nat;
  overboughtLevel : num;
  oversoldLevel : num;
  extremeOverbought : num;
  extremeOversold : num;
  maPeriod : nat;
  volumeThreshold : num;
  trendConfirmationPeriod : nat
}.

Record State := {
  config : BotConfig;
  cciConfig : CCIConfig;
  positions : JsMap.t CCIPosition;
  performance : BotPerformance;
  priceHistory : JsMap.t (list CCIData);
  lastAnalysis : Z
}.

Definition defaultCCIConfig : CCIConfig :=
  {| period := 20; overboughtLevel := of_Z 100; oversoldLevel := of_Z (-100);
     extremeOverbought := of_Z 200; extremeOversold := of_Z (-200);
     maPeriod := 5; volumeThreshold := dec 12 10;
     trendConfirmationPeriod := 10 |}.

Definition create (cfg : BotConfig) (now : Z) : State :=
  {| config := cfg; cciConfig := defaultCCIConfig; positions := JsMap.empty;
     performance := initial_performance now; priceHistory := JsMap.empty;
     lastAnalysis := 0%Z |}.

(** [history.slice(-n)] for a configured [n]: [slice(-0)] is the whole
    array. *)
Definition slice_last {A} (n : nat) (xs : list A) : list A :=
  match n with
  | O => xs
  | _ => lastn n xs
  end.

Definition updatePriceHistory (c : CCIConfig) (h : JsMap.t (list CCIData))
    (marketData : MarketData) : JsMap.t (list CCIData) :=
  let cciData :=
    {| symbol := md_symbol marketData;
       timestamp := md_timestamp marketData;
       price := md_price marketData;
       high := md_high24h marketData;
       low := md_low24h marketData;
       close := md_price marketData;
       volume := md_volume marketData;
       cci := Fin 0; cciMA := Fin 0; cciSignal := NEUTRAL;
       trend := SIDEWAYS; strength := Fin 0 |} in
  let history :=
    match JsMap.get (md_symbol marketData) h with
    | Some l => l
    | None => []
    end ++ [cciData] in
  let maxHistory := (period c + maPeriod c + 10)%nat in
  JsMap.set (md_symbol marketData)
    (if (maxHistory <? length history)%nat then shift history else history) h.

Definition typicalPrice (data : CCIData) : num :=
  ((high data + low data + close data) / of_Z 3)%num.

Definition computeCCI (c : CCIConfig) (history : list CCIData) : num :=
  let period := period c in
  let recent := slice_last period history in
  let typicalPrices := map typicalPrice recent in
  let smaTP := (sum typicalPrices / of_nat period)%num in
  let meanDeviation :=
    (fold_left (fun acc tp => (acc + num_abs (tp - smaTP))%num)
               typicalPrices (Fin 0)
     / of_nat period)%num in
  let currentTP := nth (length typicalPrices - 1) typicalPrices NaN in
  if num_neqb meanDeviation (of_Z 0)
  then ((currentTP - smaTP) / (dec 15 1000 * meanDeviation))%num
  else Fin 0.

Definition calculateCCIMA (c : CCIConfig) (history : list CCIData) : num :=
  let recent := slice_last (maPeriod c) history in
  let cciValues :=
    filter (fun v => num_neqb v (of_Z 0)) (map cci recent) in
  if (length cciValues =? 0)%nat then Fin 0 else
  (sum cciValues / of_nat (length cciValues))%num.

Definition determineCCISignal (c : CCIConfig) (cci cciMA : num) : CCISignal :=
  if (cci >=? extremeOverbought c)%num then OVERBOUGHT
  else if (cci <=? extremeOversold c)%num then OVERSOLD
  else if (cci >=? overboughtLevel c)%num then OVERBOUGHT
  else if (cci <=? oversoldLevel c)%num then OVERSOLD
  else NEUTRAL.

Definition determineTrend (c : CCIConfig) (history : list CCIData) : Trend :=
  let confirmationPeriod := trendConfirmationPeriod c in
  if (length history <? confirmationPeriod)%nat then SIDEWAYS else
  let recent := slice_last confirmationPeriod history in
  let prices := map close recent in
  let firstPrice := nth 0 prices NaN in
  let lastPrice := nth (length prices - 1) prices NaN in
  let priceChange := ((lastPrice - firstPrice) / firstPrice)%num in
  let cciValues :=
    filter (fun v => num_neqb v (of_Z 0)) (map cci recent) in
  if (length cciValues <? 2)%nat then SIDEWAYS else
  let cciTrend :=
    (nth (length cciValues - 1) cciValues NaN - nth 0 cciValues NaN)%num in
  if (priceChange >? dec 5 100)%num && (cciTrend >? of_Z 0)%num then BULLISH
  else if (priceChange <? dec (-5) 100)%num && (cciTrend <? of_Z 0)%num
       then BEARISH
  else SIDEWAYS.

Definition calculateTrendStrength (c : CCIConfig) (history : list CCIData)
  : num :=
  let confirmationPeriod := trendConfirmationPeriod c in
  if (length history <? confirmationPeriod)%nat then Fin 0 else
  let recent := slice_last confirmationPeriod history in
  let prices := map close recent in
  let n := length prices in
  let x := seq 0 n in
  let sumX := sum (map of_nat x) in
  let sumY := sum prices in
  let sumXY := MomentumTradingBot.sum_xy prices in
  let sumXX := sum (map (fun xi => (of_nat xi * of_nat xi)%num) x) in
  let slope :=
    ((of_nat n * sumXY - sumX * sumY)
     / (of_nat n * sumXX - sumX * sumX))%num in
  let rSquared := MomentumTradingBot.calculateRSquared prices x slope in
  num_max (of_Z 0) (num_min (of_Z 100) (rSquared * of_Z 100)%num).

(** [history] with its last element replaced (the source updates the
    latest [CCIData] in place). *)
Definition set_last {A} (xs : list A) (x : A) : list A :=
  removelast xs ++ [x].

Definition with_analysis (d : CCIData) (cci' cciMA' : num)
    (sig : CCISignal) (tr : Trend) (str : num) : CCIData :=
  {| symbol := symbol d; timestamp := timestamp d; price := price d;
     high := high d; low := low d; close := close d; volume := volume d;
     cci := cci'; cciMA := cciMA'; cciSignal := sig; trend := tr;
     strength := str |}.

(** [calculateCCI]: the latest observation with its indicator fields
    filled in, and the history that now holds it; [None] while fewer
    than [period] observations exist. *)
Definition calculateCCI (c : CCIConfig) (history : list CCIData)
  : option (CCIData * list CCIData) :=
  if (length history <? period c)%nat then None else
  match history with
  | [] => None
  | d0 :: _ =>
      let latest := last history d0 in
      let cci1 := computeCCI c history in
      let l1 :=
        with_analysis latest cci1 (cciMA latest) (cciSignal latest)
                      (trend latest) (strength latest) in
      let cciMA1 := calculateCCIMA c (set_last history l1) in
      let sig1 := determineCCISignal c cci1 cciMA1 in
      let l3 :=
        with_analysis latest cci1 cciMA1 sig1 (trend latest)
                      (strength latest) in
      let trend1 := determineTrend c (set_last history l3) in
      let l4 :=
        with_analysis latest cci1 cciMA1 sig1 trend1 (strength latest) in
      let strength1 := calculateTrendStrength c (set_last history l4) in
      let l5 := with_analysis latest cci1 cciMA1 sig1 trend1 strength1 in
      Some (l5, set_last history l5)
  end.

Definition isVolumeConfirmed (c : CCIConfig) (history : option (list CCIData))
  : bool :=
  match history with
  | None => false
  | Some history =>
      if (length history <? 10)%nat then false else
      let recent := lastn 10 history in
      let avgVolume :=
        (sum (map volume recent) / of_nat (length recent))%num in
      let latestVolume := nth (length recent - 1) (map volume recent) NaN in
      (latestVolume >=? avgVolume * volumeThreshold c)%num
  end.

Definition checkBullishDivergence (history : option (list CCIData)) : bool :=
  match history with
  | None => false
  | Some history =>
      if (length history <? 20)%nat then false else
      let recent := lastn 20 history in
      let prices := map close recent in
      let cciValues := map cci recent in
      let priceLow := min_list (lastn 10 prices) in
      let cciLow := min_list (lastn 10 cciValues) in
      let prevPriceLow := min_list (firstn 10 prices) in
      let prevCCILow := min_list (firstn 10 cciValues) in
      (priceLow <? prevPriceLow)%num && (cciLow >? prevCCILow)%num
  end.

Definition checkBearishDivergence (history : option (list CCIData)) : bool :=
  match history with
  | None => false
  | Some history =>
      if (length history <? 20)%nat then false else
      let recent := lastn 20 history in
      let prices := map close recent in
      let cciValues := map cci recent in
      let priceHigh := max_list (lastn 10 prices) in
      let cciHigh := max_list (lastn 10 cciValues) in
      let prevPriceHigh := max_list (firstn 10 prices) in
      let prevCCIHigh := max_list (firstn 10 cciValues) in
      (priceHigh >? prevPriceHigh)%num && (cciHigh <? prevCCIHigh)%num
  end.

Definition is_oversold (s : CCISignal) : bool :=
  match s with OVERSOLD => true | _ => false end.
Definition is_overbought (s : CCISignal) : bool :=
  match s with OVERBOUGHT => true | _ => false end.
Definition is_bullish (t : Trend) : bool :=
  match t with BULLISH => true | _ => false end.
Definition is_bearish (t : Trend) : bool :=
  match t with BEARISH => true | _ => false end.

Definition generateBuySignal (now : Z) (st : State) (sym : string)
    (cciData : CCIData) : option TradingSignal :=
  let isOversold := is_oversold (cciSignal cciData) in
  let isExtremeOversold :=
    (cci cciData <=? extremeOversold (cciConfig st))%num in
  let isBullishTrend := is_bullish (trend cciData) in
  let hasStrongTrend := (strength cciData >? of_Z 60)%num in
  let hasBullishDivergence :=
    checkBullishDivergence (JsMap.get sym (priceHistory st)) in
  let '(confidence0, riskLevel) :=
    if isExtremeOversold && hasBullishDivergence && hasStrongTrend
    then (of_Z 90, LOW)
    else if isOversold && isBullishTrend && hasStrongTrend
    then (of_Z 80, MEDIUM)
    else if isOversold && hasBullishDivergence then (of_Z 70, MEDIUM)
    else if isOversold then (of_Z 60, HIGH)
    else (of_Z 0, MEDIUM) in
  let confidence :=
    match cfg_riskLevel (config st) with
    | CONSERVATIVE => (confidence0 * dec 8 10)%num
    | AGGRESSIVE => (confidence0 * dec 11 10)%num
    | MODERATE => confidence0
    end in
  if (confidence >=? of_Z 60)%num then
    let allocation :=
      (cfg_allocation (config st) / of_nat (cfg_maxPositions (config st)))%num in
    let quantity := (allocation / price cciData)%num in
    Some {| sig_action := BUY; sig_symbol := sym;
            sig_confidence := num_min (of_Z 95) confidence;
            sig_price := price cciData;
            sig_quantity := Some quantity;
            sig_reason := "CCI oversold";
            sig_timestamp := now; sig_riskLevel := riskLevel |}
  else None.

Definition generateSellSignal (now : Z) (st : State) (sym : string)
    (cciData : CCIData) (position : CCIPosition) : option TradingSignal :=
  let isOverbought := is_overbought (cciSignal cciData) in
  let isExtremeOverbought :=
    (cci cciData >=? extremeOverbought (cciConfig st))%num in
  let isBearishTrend := is_bearish (trend cciData) in
  let hasBearishDivergence :=
    checkBearishDivergence (JsMap.get sym (priceHistory st)) in
  if (pnlPercentage position <=? - cfg_stopLoss (config st))%num then
    Some {| sig_action := SELL; sig_symbol := sym;
            sig_confidence := of_Z 100; sig_price := price cciData;
            sig_quantity := Some (quantity position);
            sig_reason := "Stop-loss triggered";
            sig_timestamp := now; sig_riskLevel := HIGH |}
  else if opt_truthy (cfg_takeProfit (config st))
          && (pnlPercentage position
              >=? opt_num (cfg_takeProfit (config st)))%num then
    Some {| sig_action := SELL; sig_symbol := sym;
            sig_confidence := of_Z 90; sig_price := price cciData;
            sig_quantity := Some (quantity position);
            sig_reason := "Take-profit triggered";
            sig_timestamp := now; sig_riskLevel := LOW |}
  else
    let '(confidence, riskLevel) :=
      if isExtremeOverbought && hasBearishDivergence && isBearishTrend
      then (of_Z 90, LOW)
      else if isOverbought && isBearishTrend then (of_Z 80, MEDIUM)
      else if isOverbought && hasBearishDivergence then (of_Z 75, MEDIUM)
      else if isOverbought then (of_Z 65, HIGH)
      else (of_Z 0, MEDIUM) in
    if (confidence >=? of_Z 65)%num then
      Some {| sig_action := SELL; sig_symbol := sym;
              sig_confidence := num_min (of_Z 95) confidence;
              sig_price := price cciData;
              sig_quantity := Some (quantity position);
              sig_reason := "CCI overbought";
              sig_timestamp := now; sig_riskLevel := riskLevel |}
    else None.

Definition generateCCISignals (now : Z) (st : State) (sym : string)
    (cciData : CCIData) : list TradingSignal :=
  if negb (isVolumeConfirmed (cciConfig st) (JsMap.get sym (priceHistory st)))
  then [] else
  match JsMap.get sym (positions st) with
  | None =>
      match generateBuySignal now st sym cciData with
      | Some s => [s]
      | None => []
      end
  | Some currentPosition =>
      match generateSellSignal now st sym cciData currentPosition with
      | Some s => [s]
      | None => []
      end
  end.

Definition with_history (st : State) (h : JsMap.t (list CCIData)) : State :=
  {| config := config st; cciConfig := cciConfig st;
     positions := positions st; performance := performance st;
     priceHistory := h; lastAnalysis := lastAnalysis st |}.

Definition with_positions (st : State) (ps : JsMap.t CCIPosition) : State :=
  {| config := config st; cciConfig := cciConfig st; positions := ps;
     performance := performance st; priceHistory := priceHistory st;
     lastAnalysis := lastAnalysis st |}.

(** [managePositions] refreshes the price and P&L of every position whose
    symbol is quoted; it never emits a signal. *)
Definition managePositions (marketData : list MarketData)
    (ps : JsMap.t CCIPosition) : list TradingSignal * JsMap.t CCIPosition :=
  ([],
   map (fun '(sym, position) =>
          match find_asset sym marketData with
          | None => (sym, position)
          | Some assetData =>
              (sym,
               {| cp_symbol := cp_symbol position;
                  quantity := quantity position;
                  entryPrice := entryPrice position;
                  currentPrice := md_price assetData;
                  pnl :=
                    ((md_price assetData - entryPrice position)
                     * quantity position)%num;
                  pnlPercentage :=
                    ((md_price assetData - entryPrice position)
                     / entryPrice position * of_Z 100)%num;
                  entrySignal := entrySignal position;
                  entryTimestamp := entryTimestamp position;
                  stopLoss := stopLoss position;
                  takeProfit := takeProfit position;
                  status := status position |})
          end)
       ps).

Definition analyzeMarket (now : Z) (marketData : list MarketData) (st : State)
  : list TradingSignal * State :=
  let st1 :=
    with_history st
      (fold_left (updatePriceHistory (cciConfig st)) marketData
                 (priceHistory st)) in
  let '(signals, st2) :=
    fold_left
      (fun '(signals, s) sym =>
         match JsMap.get sym (priceHistory s) with
         | None => (signals, s)
         | Some history =>
             match calculateCCI (cciConfig s) history with
             | None => (signals, s)
             | Some (cciData, history') =>
                 let s' :=
                   with_history s (JsMap.set sym history' (priceHistory s)) in
                 (signals ++ generateCCISignals now s' sym cciData, s')
             end
         end)
      (cfg_enabledAssets (config st1)) ([], st1) in
  let '(managementSignals, ps) := managePositions marketData (positions st2) in
  (signals ++ managementSignals,
   {| config := config st2; cciConfig := cciConfig st2; positions := ps;
      performance := performance st2; priceHistory := priceHistory st2;
      lastAnalysis := now |}).

Section WithMath.
Variable sqrt : num -> num.

Definition calculateMaxDrawdown (st : State) : num :=
  let '(maxDrawdown, peakValue) :=
    fold_left
      (fun '(maxDrawdown, peakValue) position =>
         let cur := (currentPrice position * quantity position)%num in
         if (cur >? peakValue)%num then (maxDrawdown, cur)
         else
           let drawdown := ((peakValue - cur) / peakValue)%num in
           (num_max maxDrawdown drawdown, peakValue))
      (JsMap.values (positions st)) (Fin 0, Fin 0) in
  (maxDrawdown * of_Z 100)%num.

Definition calculateSharpeRatio (st : State) : num :=
  let returns :=
    map (fun position => (pnlPercentage position / of_Z 100)%num)
        (JsMap.values (positions st)) in
  if (length returns =? 0)%nat then Fin 0 else
  let meanReturn := (sum returns / of_nat (length returns))%num in
  let variance :=
    (sum (map (fun ret => pow2 (ret - meanReturn)) returns)
     / of_nat (length returns))%num in
  let stdDev := sqrt variance in
  let riskFreeRate := (dec 2 100 / of_Z 365)%num in
  if (stdDev >? of_Z 0)%num then ((meanReturn - riskFreeRate) / stdDev)%num
  else Fin 0.

Definition updatePerformance (now : Z) (st : State) : State :=
  let ps := JsMap.values (positions st) in
  let totalPnL := sum (map pnl ps) in
  let totalTrades := length ps in
  let winningTrades :=
    length (filter (fun p => (pnl p >? of_Z 0)%num) ps) in
  {| config := config st; cciConfig := cciConfig st;
     positions := positions st;
     performance :=
       {| perf_totalPnL := totalPnL;
          perf_totalPnLPercentage :=
            if (cfg_allocation (config st) >? of_Z 0)%num
            then (totalPnL / cfg_allocation (config st) * of_Z 100)%num
            else Fin 0;
          perf_winRate :=
            if (0 <? totalTrades)%nat
            then (of_nat winningTrades / of_nat totalTrades * of_Z 100)%num
            else Fin 0;
          perf_totalTrades := totalTrades;
          perf_maxDrawdown := calculateMaxDrawdown st;
          perf_sharpeRatio := calculateSharpeRatio st;
          perf_lastUpdate := now |};
     priceHistory := priceHistory st; lastAnalysis := lastAnalysis st |}.

Definition updatePosition (now : Z) (sym : string) (action : Action)
    (qty prc : num) (st : State) : State :=
  let currentPosition := JsMap.get sym (positions st) in
  let st' :=
    match action with
    | BUY =>
        match currentPosition with
        | Some cur =>
            let totalQuantity := (quantity cur + qty)%num in
            let totalValue :=
              (quantity cur * entryPrice cur + qty * prc)%num in
            let newEntryPrice := (totalValue / totalQuantity)%num in
            with_positions st
              (JsMap.set sym
                 {| cp_symbol := cp_symbol cur;
                    quantity := totalQuantity;
                    entryPrice := newEntryPrice;
                    currentPrice := prc;
                    pnl := ((prc - newEntryPrice) * totalQuantity)%num;
                    pnlPercentage :=
                      ((prc - newEntryPrice) / newEntryPrice * of_Z 100)%num;
                    entrySignal := entrySignal cur;
                    entryTimestamp := entryTimestamp cur;
                    stopLoss := stopLoss cur;
                    takeProfit := takeProfit cur;
                    status := status cur |}
                 (positions st))
        | None =>
            with_positions st
              (JsMap.set sym
                 {| cp_symbol := sym;
                    quantity := qty;
                    entryPrice := prc;
                    currentPrice := prc;
                    pnl := Fin 0;
                    pnlPercentage := Fin 0;
                    entrySignal := "CCI Oversold";
                    entryTimestamp := now;
                    stopLoss :=
                      (prc * (of_Z 1 - cfg_stopLoss (config st) / of_Z 100))%num;
                    takeProfit :=
                      if opt_truthy (cfg_takeProfit (config st))
                      then (prc * (of_Z 1 + opt_num (cfg_takeProfit (config st))
                                              / of_Z 100))%num
                      else Fin 0;
                    status := ACTIVE |}
                 (positions st))
        end
    | SELL =>
        match currentPosition with
        | Some cur =>
            let remainingQuantity := (quantity cur - qty)%num in
            if (remainingQuantity <=? dec 1 1000)%num
            then with_positions st (JsMap.delete sym (positions st))
            else
              with_positions st
                (JsMap.set sym
                   {| cp_symbol := cp_symbol cur;
                      quantity := remainingQuantity;
                      entryPrice := entryPrice cur;
                      currentPrice := prc;
                      pnl := ((prc - entryPrice cur) * remainingQuantity)%num;
                      pnlPercentage :=
                        ((prc - entryPrice cur) / entryPrice cur
                         * of_Z 100)%num;
                      entrySignal := entrySignal cur;
                      entryTimestamp := entryTimestamp cur;
                      stopLoss := stopLoss cur;
                      takeProfit := takeProfit cur;
                      status := status cur |}
                   (positions st))
        | None => st
        end
    | HOLD => st
    end in
  updatePerformance now st'.

End WithMath.


(** The calls a client makes on an evaluator, and the state a sequence
    of them leaves. *)
Inductive Call :=
| CallAnalyzeMarket (now : Z) (marketData : list MarketData)
| CallUpdatePosition (now : Z) (sym : string) (action : Action)
    (qty prc : num).

Definition step (sqrt : num -> num) (st : State) (c : Call) : State :=
  match c with
  | CallAnalyzeMarket now marketData => snd (analyzeMarket now marketData st)
  | CallUpdatePosition now sym action qty prc =>
      updatePosition sqrt now sym action qty prc st
  end.

Definition run (sqrt : num -> num) (calls : list Call) (st : State) : State :=
  fold_left (step sqrt) calls st.

(** Every tracked history holds at most [period + maPeriod + 10]
    observations. *)
Definition history_bounded (st : State) : Prop :=
  Forall
    (fun l : list CCIData =>
       (length l <= period (cciConfig st) + maPeriod (cciConfig st) + 10)%nat)
    (JsMap.values (priceHistory st)).

End CCIMarketBot.

(* ================================================================== *)
(** * Risk manager ([RiskManager]) *)
(* ================================================================== *)

Module RiskManager.

Record RiskMetrics := {
  portfolioValue : num;
  totalExposure : num;
  maxDrawdown : num;
  currentDrawdown : num;
  sharpeRatio : num;
  sortinoRatio : num;
  calmarRatio : num;
  var95 : num;
  cvar95 : num;
  beta : num;
  correlation : num;
  volatility : num;
  lastUpdated : Z
}.

Inductive MarketTrend := BULL | BEAR | SIDEWAYS.
Inductive VolatilityLevel := VolLOW | VolMEDIUM | VolHIGH | VolEXTREME.
Inductive VolumeLevel := VolumeLOW | VolumeNORMAL | VolumeHIGH.
Inductive Sentiment := FEAR | NEUTRAL | GREED.

Record MarketCondition := {
  mc_trend : MarketTrend;
  mc_volatility : VolatilityLevel;
  mc_volume : VolumeLevel;
  mc_sentiment : Sentiment;
  mc_strength : num;
  mc_confidence : num
}.

Record RiskLimits := {
  maxPositionSize : num;
  maxTotalExposure : num;
  maxDrawdownLimit : num;
  maxCorrelation : num;
  maxVolatility : num;
  minLiquidity : num;
  maxLeverage : num;
  emergencyStopLoss : num
}.

(** [Partial<RiskLimits>]: every field may be absent. *)
Record PartialRiskLimits := {
  p_maxPositionSize : option num;
  p_maxTotalExposure : option num;
  p_maxDrawdownLimit : option num;
  p_maxCorrelation : option num;
  p_maxVolatility : option num;
  p_minLiquidity : option num;
  p_maxLeverage : option num;
  p_emergencyStopLoss : option num
}.

(** The names of the fields of [RiskLimits]. *)
Inductive RiskField :=
| FMaxPositionSize | FMaxTotalExposure | FMaxDrawdown | FMaxCorrelation
| FMaxVolatility | FMinLiquidity | FMaxLeverage | FEmergencyStopLoss.

Definition field (f : RiskField) (l : RiskLimits) : num :=
  match f with
  | FMaxPositionSize => maxPositionSize l
  | FMaxTotalExposure => maxTotalExposure l
  | FMaxDrawdown => maxDrawdownLimit l
  | FMaxCorrelation => maxCorrelation l
  | FMaxVolatility => maxVolatility l
  | FMinLiquidity => minLiquidity l
  | FMaxLeverage => maxLeverage l
  | FEmergencyStopLoss => emergencyStopLoss l
  end.

Definition partial_field (f : RiskField) (l : PartialRiskLimits) : option num :=
  match f with
  | FMaxPositionSize => p_maxPositionSize l
  | FMaxTotalExposure => p_maxTotalExposure l
  | FMaxDrawdown => p_maxDrawdownLimit l
  | FMaxCorrelation => p_maxCorrelation l
  | FMaxVolatility => p_maxVolatility l
  | FMinLiquidity => p_minLiquidity l
  | FMaxLeverage => p_maxLeverage l
  | FEmergencyStopLoss => p_emergencyStopLoss l
  end.

Record PerformancePoint := {
  pp_timestamp : Z;
  pp_value : num;
  pp_drawdown : num
}.

Record State := {
  riskLimits : RiskLimits;
  marketHistory : list MarketData;
  performanceHistory : list PerformancePoint
}.

Record Validation := {
  approved : bool;
  adjustedQuantity : option num;
  reason : string;
  v_riskLevel : Risk
}.

Definition create (limits : RiskLimits) : State :=
  {| riskLimits := limits; marketHistory := []; performanceHistory := [] |}.

Definition getRiskLimits (st : State) : RiskLimits := riskLimits st.

(** [{ ...this.riskLimits, ...newLimits }]: a field present in
    [newLimits] overrides the current one. *)
Definition spread (cur : RiskLimits) (newLimits : PartialRiskLimits)
  : RiskLimits :=
  let pick (f : RiskField) :=
    match partial_field f newLimits with
    | Some v => v
    | None => field f cur
    end in
  {| maxPositionSize := pick FMaxPositionSize;
     maxTotalExposure := pick FMaxTotalExposure;
     maxDrawdownLimit := pick FMaxDrawdown;
     maxCorrelation := pick FMaxCorrelation;
     maxVolatility := pick FMaxVolatility;
     minLiquidity := pick FMinLiquidity;
     maxLeverage := pick FMaxLeverage;
     emergencyStopLoss := pick FEmergencyStopLoss |}.

Definition updateRiskLimits (newLimits : PartialRiskLimits) (st : State)
  : State :=
  {| riskLimits := spread (riskLimits st) newLimits;
     marketHistory := marketHistory st;
     performanceHistory := performanceHistory st |}.

Definition updateMarketHistory (marketData : list MarketData) (st : State)
  : State :=
  let h := marketHistory st ++ marketData in
  {| riskLimits := riskLimits st;
     marketHistory := if (1000 <? length h)%nat then lastn 1000 h else h;
     performanceHistory := performanceHistory st |}.

Definition analyzeTrend (marketData : list MarketData) : MarketTrend :=
  if (length marketData <? 10)%nat then SIDEWAYS else
  let prices := map md_price marketData in
  let firstPrice := nth 0 prices NaN in
  let lastPrice := nth (length prices - 1) prices NaN in
  let change := ((lastPrice - firstPrice) / firstPrice)%num in
  if (change >? dec 5 100)%num then BULL
  else if (change <? dec (-5) 100)%num then BEAR
  else SIDEWAYS.

Definition analyzeVolume (marketData : list MarketData) : VolumeLevel :=
  if (length marketData <? 10)%nat then VolumeNORMAL else
  let volumes := map md_volume marketData in
  let avgVolume := (sum volumes / of_nat (length volumes))%num in
  let latestVolume := nth (length volumes - 1) volumes NaN in
  let volumeRatio := (latestVolume / avgVolume)%num in
  if (volumeRatio <? dec 7 10)%num then VolumeLOW
  else if (volumeRatio >? dec 15 10)%num then VolumeHIGH
  else VolumeNORMAL.

(** The root-mean-square dispersion of the 24h changes that the source
    also computes here is never read and is left out. *)
Definition analyzeSentiment (marketData : list MarketData) : Sentiment :=
  if (length marketData <? 10)%nat then NEUTRAL else
  let changes := map md_change24h marketData in
  let avgChange := (sum changes / of_nat (length changes))%num in
  let fearGreedScore := ((avgChange + of_Z 10) * of_Z 5)%num in
  if (fearGreedScore <? of_Z 30)%num then FEAR
  else if (fearGreedScore >? of_Z 70)%num then GREED
  else NEUTRAL.

Definition calculateTrendStrength (marketData : list MarketData) : num :=
  if (length marketData <? 10)%nat then of_Z 50 else
  let prices := map md_price marketData in
  let n := length prices in
  let x := seq 0 n in
  let sumX := sum (map of_nat x) in
  let sumY := sum prices in
  let sumXY := MomentumTradingBot.sum_xy prices in
  let sumXX := sum (map (fun xi => (of_nat xi * of_nat xi)%num) x) in
  let slope :=
    ((of_nat n * sumXY - sumX * sumY)
     / (of_nat n * sumXX - sumX * sumX))%num in
  let rSquared := MomentumTradingBot.calculateRSquared prices x slope in
  num_max (of_Z 0) (num_min (of_Z 100) (rSquared * of_Z 100)%num).

(** [position.value]: [Position] declares no such field, so the read
    yields [undefined] and the sum becomes [NaN]. *)
Definition position_value (position : Position) : num := NaN.

Definition calculatePortfolioValue (positions : list Position)
    (marketData : list MarketData) : num :=
  fold_left
    (fun total position =>
       (total
        + match find_asset (pos_symbol position) marketData with
          | Some assetData => pos_quantity position * md_price assetData
          | None => position_value position
          end)%num)
    positions (Fin 0).

Definition calculateTotalExposure (positions : list Position)
    (marketData : list MarketData) : num :=
  calculatePortfolioValue positions marketData.

Definition calculateMaxDrawdown (st : State) : num :=
  match performanceHistory st with
  | [] | [_] => Fin 0
  | first :: _ =>
      let '(maxDrawdown, peak) :=
        fold_left
          (fun '(maxDrawdown, peak) point =>
             if (pp_value point >? peak)%num then (maxDrawdown, pp_value point)
             else
               let drawdown := ((peak - pp_value point) / peak)%num in
               (num_max maxDrawdown drawdown, peak))
          (performanceHistory st) (Fin 0, pp_value first) in
      (maxDrawdown * of_Z 100)%num
  end.

Definition calculateCurrentDrawdown (st : State) (currentValue : num) : num :=
  if (length (performanceHistory st) <? 2)%nat then Fin 0 else
  let peak := max_list (map pp_value (performanceHistory st)) in
  if (peak >? of_Z 0)%num then ((peak - currentValue) / peak * of_Z 100)%num
  else Fin 0.

(** The step returns of the performance history. *)
Definition performanceReturns (st : State) : list num :=
  MomentumTradingBot.returns_of (map pp_value (performanceHistory st)).

Definition calculateVaR (st : State) (confidence : num) : num :=
  if (length (performanceHistory st) <? 10)%nat then Fin 0 else
  let returns := sort_by num_sub (performanceReturns st) in
  let index :=
    num_floor ((of_Z 1 - confidence) * of_nat (length returns))%num in
  (match to_index index with
   | Some i => nth i returns NaN
   | None => NaN
   end * of_Z 100)%num.

Definition calculateCVaR (st : State) (confidence : num) : num :=
  if (length (performanceHistory st) <? 10)%nat then Fin 0 else
  let returns := sort_by num_sub (performanceReturns st) in
  let varIndex :=
    num_floor ((of_Z 1 - confidence) * of_nat (length returns))%num in
  let tailReturns := slice_to varIndex returns in
  (sum tailReturns / of_nat (length tailReturns) * of_Z 100)%num.

Definition calculateBeta (positions : list Position)
    (marketData : list MarketData) : num := of_Z 1.

Definition calculatePortfolioCorrelation (positions : list Position) : num :=
  if (length positions <? 2)%nat then Fin 0 else dec 3 10.

Definition getMarketConditionAdjustment (marketCondition : MarketCondition)
    (signal : TradingSignal) : Validation :=
  let isBuy := match sig_action signal with BUY => true | _ => false end in
  if match mc_volatility marketCondition with VolEXTREME => true | _ => false end
     && isBuy
  then {| approved := false; adjustedQuantity := None;
          reason := "Buy signals blocked during extreme volatility";
          v_riskLevel := HIGH |}
  else if match mc_sentiment marketCondition with FEAR => true | _ => false end
          && isBuy
  then {| approved := true; adjustedQuantity := None;
          reason := "Buy signal approved despite fear sentiment";
          v_riskLevel := HIGH |}
  else if match mc_trend marketCondition with BEAR => true | _ => false end
          && isBuy
  then {| approved := true; adjustedQuantity := None;
          reason := "Buy signal approved in bear market (potential reversal)";
          v_riskLevel := HIGH |}
  else {| approved := true; adjustedQuantity := None;
          reason := "Signal approved by market condition analysis";
          v_riskLevel := MEDIUM |}.

Definition calculateSignalRiskLevel (signal : TradingSignal)
    (marketCondition : MarketCondition) : Risk :=
  let r1 :=
    if (sig_confidence signal <? of_Z 60)%num then 2%nat
    else if (sig_confidence signal <? of_Z 80)%num then 1%nat
    else 0%nat in
  let r2 :=
    match mc_volatility marketCondition with
    | VolEXTREME => (r1 + 3)%nat
    | VolHIGH => (r1 + 2)%nat
    | VolMEDIUM => (r1 + 1)%nat
    | VolLOW => r1
    end in
  let r3 :=
    match mc_sentiment marketCondition with
    | FEAR => (r2 + 2)%nat
    | GREED => (r2 + 1)%nat
    | NEUTRAL => r2
    end in
  let riskScore :=
    match mc_trend marketCondition with
    | BEAR => (r3 + 2)%nat
    | _ => r3
    end in
  if (4 <=? riskScore)%nat then HIGH
  else if (2 <=? riskScore)%nat then MEDIUM
  else LOW.

Section WithMath.
Variable sqrt : num -> num.
Variable pow : num -> num -> num.

Definition analyzeVolatility (marketData : list MarketData) : VolatilityLevel :=
  if (length marketData <? 10)%nat then VolMEDIUM else
  let returns := MomentumTradingBot.returns_of (map md_price marketData) in
  let volatility :=
    sqrt (sum (map pow2 returns) / of_nat (length returns))%num in
  if (volatility <? dec 2 100)%num then VolLOW
  else if (volatility <? dec 5 100)%num then VolMEDIUM
  else if (volatility <? dec 1 10)%num then VolHIGH
  else VolEXTREME.

Definition calculateConfidence (marketData : list MarketData) : num :=
  let trendStrength := calculateTrendStrength marketData in
  let volume := analyzeVolume marketData in
  let volatility := analyzeVolatility marketData in
  let c1 :=
    match volume with
    | VolumeHIGH => (trendStrength + of_Z 10)%num
    | VolumeLOW => (trendStrength - of_Z 15)%num
    | VolumeNORMAL => trendStrength
    end in
  let c2 :=
    match volatility with
    | VolLOW => (c1 + of_Z 5)%num
    | VolHIGH => (c1 - of_Z 10)%num
    | VolEXTREME => (c1 - of_Z 20)%num
    | VolMEDIUM => c1
    end in
  num_max (of_Z 0) (num_min (of_Z 100) c2).

Definition analyzeMarketConditions (marketData : list MarketData) (st : State)
  : MarketCondition * State :=
  ({| mc_trend := analyzeTrend marketData;
      mc_volatility := analyzeVolatility marketData;
      mc_volume := analyzeVolume marketData;
      mc_sentiment := analyzeSentiment marketData;
      mc_strength := calculateTrendStrength marketData;
      mc_confidence := calculateConfidence marketData |},
   updateMarketHistory marketData st).

Definition calculateSharpeRatio (st : State) : num :=
  if (length (performanceHistory st) <? 10)%nat then Fin 0 else
  let returns := performanceReturns st in
  let meanReturn := (sum returns / of_nat (length returns))%num in
  let variance :=
    (sum (map (fun ret => pow2 (ret - meanReturn)) returns)
     / of_nat (length returns))%num in
  let stdDev := sqrt variance in
  let riskFreeRate := (dec 2 100 / of_Z 365)%num in
  if (stdDev >? of_Z 0)%num then ((meanReturn - riskFreeRate) / stdDev)%num
  else Fin 0.

Definition calculateSortinoRatio (st : State) : num :=
  if (length (performanceHistory st) <? 10)%nat then Fin 0 else
  let returns := performanceReturns st in
  let meanReturn := (sum returns / of_nat (length returns))%num in
  let negativeReturns := filter (fun ret => (ret <? of_Z 0)%num) returns in
  let downsideDeviation :=
    sqrt (sum (map pow2 negativeReturns)
          / of_nat (length negativeReturns))%num in
  let riskFreeRate := (dec 2 100 / of_Z 365)%num in
  if (downsideDeviation >? of_Z 0)%num
  then ((meanReturn - riskFreeRate) / downsideDeviation)%num
  else Fin 0.

Definition calculateAnnualReturn (st : State) : num :=
  match performanceHistory st with
  | [] | [_] => Fin 0
  | first :: _ =>
      let lastPoint := last (performanceHistory st) first in
      let firstValue := pp_value first in
      let lastValue := pp_value lastPoint in
      let days :=
        (of_Z (pp_timestamp lastPoint - pp_timestamp first)
         / of_Z (24 * 60 * 60 * 1000))%num in
      let totalReturn := ((lastValue - firstValue) / firstValue)%num in
      (pow (of_Z 1 + totalReturn) (of_Z 365 / days) - of_Z 1)%num
  end.

Definition calculateCalmarRatio (st : State) : num :=
  let maxDrawdown := calculateMaxDrawdown st in
  if (maxDrawdown =? of_Z 0)%num then Fin 0 else
  let annualReturn := calculateAnnualReturn st in
  (annualReturn / (maxDrawdown / of_Z 100))%num.

Definition calculatePortfolioVolatility (positions : list Position)
    (marketData : list MarketData) : num :=
  if (length positions =? 0)%nat then Fin 0 else
  let returns :=
    map (fun '(prev, cur) =>
           let portfolioValue1 := calculatePortfolioValue positions [prev] in
           let portfolioValue2 := calculatePortfolioValue positions [cur] in
           ((portfolioValue2 - portfolioValue1) / portfolioValue1)%num)
        (adjacent marketData) in
  let meanReturn := (sum returns / of_nat (length returns))%num in
  let variance :=
    (sum (map (fun ret => pow2 (ret - meanReturn)) returns)
     / of_nat (length returns))%num in
  (sqrt variance * of_Z 100)%num.

Definition calculateRiskMetrics (now : Z) (positions : list Position)
    (marketData : list MarketData) (st : State) : RiskMetrics :=
  let pv := calculatePortfolioValue positions marketData in
  {| portfolioValue := pv;
     totalExposure := calculateTotalExposure positions marketData;
     maxDrawdown := calculateMaxDrawdown st;
     currentDrawdown := calculateCurrentDrawdown st pv;
     sharpeRatio := calculateSharpeRatio st;
     sortinoRatio := calculateSortinoRatio st;
     calmarRatio := calculateCalmarRatio st;
     var95 := calculateVaR st (dec 95 100);
     cvar95 := calculateCVaR st (dec 95 100);
     beta := calculateBeta positions marketData;
     correlation := calculatePortfolioCorrelation positions;
     volatility := calculatePortfolioVolatility positions marketData;
     lastUpdated := now |}.

Definition validateSignal (now : Z) (signal : TradingSignal)
    (positions : list Position) (marketData : list MarketData) (st : State)
  : Validation * State :=
  let riskMetrics := calculateRiskMetrics now positions marketData st in
  let '(marketCondition, st1) := analyzeMarketConditions marketData st in
  let limits := riskLimits st1 in
  let positionValue := (opt_num (sig_quantity signal) * sig_price signal)%num in
  let positionSizePercent :=
    (positionValue / portfolioValue riskMetrics * of_Z 100)%num in
  if (positionSizePercent >? maxPositionSize limits)%num then
    let adjusted :=
      (maxPositionSize limits / of_Z 100 * portfolioValue riskMetrics
       / sig_price signal)%num in
    ({| approved := true; adjustedQuantity := Some adjusted;
        reason := "Position size reduced"; v_riskLevel := HIGH |}, st1)
  else
  let newTotalExposure := (totalExposure riskMetrics + positionValue)%num in
  let exposurePercent :=
    (newTotalExposure / portfolioValue riskMetrics * of_Z 100)%num in
  if (exposurePercent >? maxTotalExposure limits)%num then
    ({| approved := false; adjustedQuantity := None;
        reason := "Total exposure would exceed limit";
        v_riskLevel := HIGH |}, st1)
  else if (currentDrawdown riskMetrics >? maxDrawdownLimit limits)%num then
    ({| approved := false; adjustedQuantity := None;
        reason := "Current drawdown exceeds limit";
        v_riskLevel := HIGH |}, st1)
  else if (volatility riskMetrics >? maxVolatility limits)%num then
    ({| approved := false; adjustedQuantity := None;
        reason := "Portfolio volatility exceeds limit";
        v_riskLevel := HIGH |}, st1)
  else if (correlation riskMetrics >? maxCorrelation limits)%num then
    ({| approved := false; adjustedQuantity := None;
        reason := "Portfolio correlation exceeds limit";
        v_riskLevel := MEDIUM |}, st1)
  else
  let marketAdjustment := getMarketConditionAdjustment marketCondition signal in
  if negb (approved marketAdjustment) then (marketAdjustment, st1)
  else
  match find_asset (sig_symbol signal) marketData with
  | Some assetData =>
      if (md_volume assetData <? minLiquidity limits)%num then
        ({| approved := false; adjustedQuantity := None;
            reason := "Insufficient liquidity"; v_riskLevel := HIGH |}, st1)
      else
        ({| approved := true; adjustedQuantity := None;
            reason := "Signal approved by risk management";
            v_riskLevel := calculateSignalRiskLevel signal marketCondition |},
         st1)
  | None =>
      ({| approved := true; adjustedQuantity := None;
          reason := "Signal approved by risk management";
          v_riskLevel := calculateSignalRiskLevel signal marketCondition |},
       st1)
  end.

(** [getPositionCorrelation]: the source returns a fixed placeholder. *)
Definition getPositionCorrelation (symbol : string) (positions : list Position)
  : num := dec 3 10.

(** [Math.ceil(n / 2)] for a length [n]. *)
Definition half_up (n : nat) : nat := Nat.div2 (S n).

(** The three kinds of signal [emergencyRiskManagement] pushes for a
    position. *)
Definition emergencyExit (now : Z) (position : Position) : TradingSignal :=
  {| sig_action := SELL; sig_symbol := pos_symbol position;
     sig_confidence := of_Z 100;
     sig_price := pos_currentPrice position;
     sig_quantity := Some (pos_quantity position);
     sig_reason := "Emergency stop-loss";
     sig_timestamp := now; sig_riskLevel := HIGH |}.

Definition riskReductionSell (now : Z) (position : Position) : TradingSignal :=
  let reductionPercent := dec 5 10 in
  let reduceQuantity := (pos_quantity position * reductionPercent)%num in
  {| sig_action := SELL; sig_symbol := pos_symbol position;
     sig_confidence := of_Z 95;
     sig_price := pos_currentPrice position;
     sig_quantity := Some reduceQuantity;
     sig_reason :=
       "Risk reduction: Extreme market volatility and fear sentiment";
     sig_timestamp := now; sig_riskLevel := HIGH |}.

Definition correlationSell (now : Z) (position : Position) : TradingSignal :=
  {| sig_action := SELL; sig_symbol := pos_symbol position;
     sig_confidence := of_Z 85;
     sig_price := pos_currentPrice position;
     sig_quantity := Some (pos_quantity position * dec 3 10)%num;
     sig_reason := "Correlation reduction: High portfolio correlation";
     sig_timestamp := now; sig_riskLevel := MEDIUM |}.

(** [emergencyRiskManagement] returns its signals; it also sorts the
    caller's [positions] array in place when the correlation rule fires,
    so the array as the call leaves it is part of the result. *)
Definition emergencyRiskManagement (now : Z) (positions : list Position)
    (marketData : list MarketData) (st : State)
  : list TradingSignal * list Position * State :=
  let riskMetrics := calculateRiskMetrics now positions marketData st in
  let '(marketCondition, st1) := analyzeMarketConditions marketData st in
  let limits := riskLimits st1 in
  let stopSignals :=
    if (currentDrawdown riskMetrics >? emergencyStopLoss limits)%num
    then map (emergencyExit now) positions else [] in
  let reductionSignals :=
    if match mc_volatility marketCondition with
       | VolEXTREME => true | _ => false end
       && match mc_sentiment marketCondition with
          | FEAR => true | _ => false end
    then map (riskReductionSell now) positions else [] in
  let '(correlationSignals, positions1) :=
    if (correlation riskMetrics >? maxCorrelation limits * dec 15 10)%num
    then
      let sortedPositions :=
        sort_by
          (fun a b =>
             let correlationA :=
               getPositionCorrelation (pos_symbol a) positions in
             let correlationB :=
               getPositionCorrelation (pos_symbol b) positions in
             (correlationB - correlationA)%num)
          positions in
      let positionsToReduce :=
        firstn (half_up (length sortedPositions)) sortedPositions in
      (map (correlationSell now) positionsToReduce, sortedPositions)
    else ([], positions) in
  (stopSignals ++ reductionSignals ++ correlationSignals, positions1, st1).

End WithMath.

(** ** The parameter optimizer

    [Record<string, any>] is an insertion-ordered map from names to
    numbers or strings; a name that is absent reads as [undefined]. The
    conversion of a string to a number in an arithmetic position is the
    library's and is a section variable. *)
Inductive JsValue :=
| VNum (n : num)
| VStr (s : string).

Definition Params : Type := JsMap.t JsValue.

Record OptimizationResult := {
  or_algorithm : string;
  optimized : bool;
  improvements : list string;
  newParameters : Params;
  expectedImprovement : num;
  riskReduction : num;
  or_confidence : num
}.

Definition is_extreme (v : VolatilityLevel) : bool :=
  match v with VolEXTREME => true | _ => false end.
Definition is_high (v : VolatilityLevel) : bool :=
  match v with VolHIGH => true | _ => false end.
Definition is_low (v : VolatilityLevel) : bool :=
  match v with VolLOW => true | _ => false end.
Definition is_bull (t : MarketTrend) : bool :=
  match t with BULL => true | _ => false end.
Definition is_bear (t : MarketTrend) : bool :=
  match t with BEAR => true | _ => false end.
Definition is_sideways (t : MarketTrend) : bool :=
  match t with SIDEWAYS => true | _ => false end.
Definition is_fear (s : Sentiment) : bool :=
  match s with FEAR => true | _ => false end.
Definition is_low_volume (v : VolumeLevel) : bool :=
  match v with VolumeLOW => true | _ => false end.

(** The result every optimizer starts from. *)
Definition initialResult (algorithm : string) (params : Params)
  : OptimizationResult :=
  {| or_algorithm := algorithm; optimized := false; improvements := [];
     newParameters := params; expectedImprovement := of_Z 0;
     riskReduction := of_Z 0; or_confidence := of_Z 0 |}.

(** [result.newParameters.k = v] *)
Definition setParameter (k : string) (v : JsValue) (r : OptimizationResult)
  : OptimizationResult :=
  {| or_algorithm := or_algorithm r; optimized := optimized r;
     improvements := improvements r;
     newParameters := JsMap.set k v (newParameters r);
     expectedImprovement := expectedImprovement r;
     riskReduction := riskReduction r; or_confidence := or_confidence r |}.

(** [result.improvements.push(text); result.expectedImprovement += e;
    result.riskReduction += d] (each rule adds to one of the two). *)
Definition improve (text : string) (e d : num) (r : OptimizationResult)
  : OptimizationResult :=
  {| or_algorithm := or_algorithm r; optimized := optimized r;
     improvements := improvements r ++ [text];
     newParameters := newParameters r;
     expectedImprovement := (expectedImprovement r + e)%num;
     riskReduction := (riskReduction r + d)%num;
     or_confidence := or_confidence r |}.

(** [result.optimized = result.improvements.length > 0;
    result.confidence = Math.min(cap, base + result.improvements.length * per)] *)
Definition conclude (cap base per : Z) (r : OptimizationResult)
  : OptimizationResult :=
  {| or_algorithm := or_algorithm r;
     optimized := (0 <? length (improvements r))%nat;
     improvements := improvements r;
     newParameters := newParameters r;
     expectedImprovement := expectedImprovement r;
     riskReduction := riskReduction r;
     or_confidence :=
       num_min (of_Z cap)
               (of_Z base + of_nat (length (improvements r)) * of_Z per)%num |}.

Section Optimizer.
Variable toNumber : string -> num.

(** [params.k] in an arithmetic position. *)
Definition param (k : string) (params : Params) : num :=
  match JsMap.get k params with
  | Some (VNum n) => n
  | Some (VStr s) => toNumber s
  | None => NaN
  end.

Definition optimizeMomentumAlgorithm (params : Params)
    (marketCondition : MarketCondition) : OptimizationResult :=
  let r0 := initialResult "momentum" params in
  let r1 :=
    if is_extreme (mc_volatility marketCondition) then
      improve
        "Reduced position count and tighter stop-loss for extreme volatility"
        (of_Z 0) (of_Z 20)
        (setParameter "stopLoss"
           (VNum (num_min (of_Z 5) (param "stopLoss" params * dec 7 10)%num))
           (setParameter "maxPositions"
              (VNum (num_max (of_Z 2)
                       (num_floor (param "maxPositions" params * dec 5 10)%num)))
              r0))
    else r0 in
  let r2 :=
    if is_bear (mc_trend marketCondition) then
      improve
        "Increased rebalance frequency and momentum threshold for bear market"
        (of_Z 0) (of_Z 15)
        (setParameter "momentumThreshold"
           (VNum (num_max (dec 5 100)
                    (param "momentumThreshold" params * dec 12 10)%num))
           (setParameter "rebalanceFrequency"
              (VNum (num_max (of_Z 60)
                       (param "rebalanceFrequency" params * dec 15 10)%num))
              r1))
    else r1 in
  let r3 :=
    if is_fear (mc_sentiment marketCondition) then
      improve "Reduced position size for fear sentiment" (of_Z 0) (of_Z 10)
        (setParameter "maxPositionSize"
           (VNum (num_max (dec 5 100)
                    (param "maxPositionSize" params * dec 8 10)%num))
           r2)
    else r2 in
  let r4 :=
    if is_low (mc_volatility marketCondition)
       && is_bull (mc_trend marketCondition) then
      improve
        "Increased position count and lowered momentum threshold for stable bull market"
        (of_Z 15) (of_Z 0)
        (setParameter "momentumThreshold"
           (VNum (num_max (dec 2 100)
                    (param "momentumThreshold" params * dec 8 10)%num))
           (setParameter "maxPositions"
              (VNum (num_min (of_Z 10)
                       (param "maxPositions" params * dec 12 10)%num))
              r3))
    else r3 in
  conclude 90 60 10 r4.

Definition optimizeDCAAlgorithm (params : Params)
    (marketCondition : MarketCondition) : OptimizationResult :=
  let r0 := initialResult "dca" params in
  let r1 :=
    if is_high (mc_volatility marketCondition)
       || is_extreme (mc_volatility marketCondition) then
      improve "Reduced DCA frequency and amount for high volatility"
        (of_Z 0) (of_Z 25)
        (setParameter "amount"
           (VNum (num_max (param "amount" params * dec 7 10)%num
                          (param "amount" params * dec 5 10)%num))
           (setParameter "frequency" (VStr "WEEKLY") r0))
    else r0 in
  let r2 :=
    if is_bear (mc_trend marketCondition) then
      improve "Reduced DCA amount for bear market" (of_Z 0) (of_Z 15)
        (setParameter "amount"
           (VNum (num_max (param "amount" params * dec 8 10)%num
                          (param "amount" params * dec 6 10)%num))
           r1)
    else r1 in
  let r3 :=
    if is_bull (mc_trend marketCondition)
       && is_low (mc_volatility marketCondition) then
      improve "Increased DCA amount for stable bull market"
        (of_Z 20) (of_Z 0)
        (setParameter "amount"
           (VNum (num_min (param "amount" params * dec 13 10)%num
                          (param "amount" params * dec 15 10)%num))
           r2)
    else r2 in
  conclude 85 70 8 r3.

Definition optimizeStakingAlgorithm (params : Params)
    (marketCondition : MarketCondition) : OptimizationResult :=
  let r0 := initialResult "staking" params in
  let r1 :=
    if is_extreme (mc_volatility marketCondition) then
      improve
        "Reduced staking allocation and increased minimum APY for extreme volatility"
        (of_Z 0) (of_Z 30)
        (setParameter "minAPY"
           (VNum (num_max (of_Z 5) (param "minAPY" params * dec 12 10)%num))
           (setParameter "maxStakePercent"
              (VNum (num_max (dec 1 10)
                       (param "maxStakePercent" params * dec 5 10)%num))
              r0))
    else r0 in
  let r2 :=
    if is_bear (mc_trend marketCondition) then
      improve "Prefer shorter lock periods for bear market"
        (of_Z 0) (of_Z 20)
        (setParameter "lockPeriodPreference" (VStr "SHORT") r1)
    else r1 in
  let r3 :=
    if is_bull (mc_trend marketCondition)
       && is_low (mc_volatility marketCondition) then
      improve "Increased staking allocation for stable bull market"
        (of_Z 25) (of_Z 0)
        (setParameter "maxStakePercent"
           (VNum (num_min (dec 8 10)
                    (param "maxStakePercent" params * dec 12 10)%num))
           r2)
    else r2 in
  conclude 80 65 7 r3.

Definition optimizeCCIAlgorithm (params : Params)
    (marketCondition : MarketCondition) : OptimizationResult :=
  let r0 := initialResult "cci" params in
  let r1 :=
    if is_extreme (mc_volatility marketCondition) then
      improve "Adjusted CCI levels and period for extreme volatility"
        (of_Z 0) (of_Z 20)
        (setParameter "period"
           (VNum (num_max (of_Z 15) (param "period" params * dec 8 10)%num))
           (setParameter "oversoldLevel"
              (VNum (num_max (of_Z (-150))
                       (param "oversoldLevel" params * dec 12 10)%num))
              (setParameter "overboughtLevel"
                 (VNum (num_min (of_Z 150)
                          (param "overboughtLevel" params * dec 12 10)%num))
                 r0)))
    else r0 in
  let r2 :=
    if is_sideways (mc_trend marketCondition) then
      improve "Tightened CCI levels for sideways market" (of_Z 10) (of_Z 0)
        (setParameter "oversoldLevel"
           (VNum (num_max (of_Z (-120))
                    (param "oversoldLevel" params * dec 11 10)%num))
           (setParameter "overboughtLevel"
              (VNum (num_min (of_Z 120)
                       (param "overboughtLevel" params * dec 11 10)%num))
              r1))
    else r1 in
  let r3 :=
    if is_low_volume (mc_volume marketCondition) then
      improve "Increased volume threshold for low volume conditions"
        (of_Z 0) (of_Z 15)
        (setParameter "volumeThreshold"
           (VNum (num_max (dec 15 10)
                    (param "volumeThreshold" params * dec 12 10)%num))
           r2)
    else r2 in
  conclude 85 70 8 r3.

Definition optimizeAlgorithm (algorithm : string) (currentParams : Params)
    (marketCondition : MarketCondition) : OptimizationResult :=
  if String.eqb algorithm "momentum"
  then optimizeMomentumAlgorithm currentParams marketCondition
  else if String.eqb algorithm "dca"
  then optimizeDCAAlgorithm currentParams marketCondition
  else if String.eqb algorithm "staking"
  then optimizeStakingAlgorithm currentParams marketCondition
  else if String.eqb algorithm "cci"
  then optimizeCCIAlgorithm currentParams marketCondition
  else initialResult algorithm currentParams.

End Optimizer.

(** The position-size test of [validateSignal]
    ([positionSizePercent > this.riskLimits.maxPositionSize]) as a
    function of its inputs. *)
Definition sizeBreach (signal : TradingSignal) (positions : list Position)
    (marketData : list MarketData) (st : State) : bool :=
  (opt_num (sig_quantity signal) * sig_price signal
   / calculatePortfolioValue positions marketData * of_Z 100
   >? maxPositionSize (riskLimits st))%num.

Definition updatePerformanceHistory (now : Z) (value : num) (st : State)
  : State :=
  let h :=
    performanceHistory st
    ++ [{| pp_timestamp := now; pp_value := value;
           pp_drawdown := calculateCurrentDrawdown st value |}] in
  {| riskLimits := riskLimits st; marketHistory := marketHistory st;
     performanceHistory :=
       if (1000 <? length h)%nat then lastn 1000 h else h |}.

(** The calls a client makes on a risk manager, and the state a sequence
    of them leaves. *)
Inductive Call :=
| CallValidateSignal (now : Z) (signal : TradingSignal)
    (positions : list Position) (marketData : list MarketData)
| CallAnalyzeMarketConditions (marketData : list MarketData)
| CallEmergencyRiskManagement (now : Z) (positions : list Position)
    (marketData : list MarketData)
| CallUpdatePerformanceHistory (now : Z) (portfolioValue : num)
| CallUpdateRiskLimits (newLimits : PartialRiskLimits).

Definition step (sqrt : num -> num) (pow : num -> num -> num) (st : State)
    (c : Call) : State :=
  match c with
  | CallValidateSignal now signal positions marketData =>
      snd (validateSignal sqrt pow now signal positions marketData st)
  | CallAnalyzeMarketConditions marketData =>
      snd (analyzeMarketConditions sqrt marketData st)
  | CallEmergencyRiskManagement now positions marketData =>
      snd (emergencyRiskManagement sqrt pow now positions marketData st)
  | CallUpdatePerformanceHistory now portfolioValue =>
      updatePerformanceHistory now portfolioValue st
  | CallUpdateRiskLimits newLimits => updateRiskLimits newLimits st
  end.

Definition run (sqrt : num -> num) (pow : num -> num -> num)
    (calls : list Call) (st : State) : State :=
  fold_left (step sqrt pow) calls st.

End RiskManager.

(* ================================================================== *)
(** * Backtest harness ([AlgorithmTester]) *)
(* ================================================================== *)

Module AlgorithmTester.

Record TestScenario := {
  name : string;
  description : string;
  marketData : list MarketData;
  expectedOutcome : string;
  riskLevel : Risk;
  duration : num
}.

Record PerformanceMetrics := {
  totalReturn : num;
  annualizedReturn : num;
  maxDrawdown : num;
  sharpeRatio : num;
  sortinoRatio : num;
  calmarRatio : num;
  winRate : num;
  profitFactor : num;
  averageWin : num;
  averageLoss : num;
  largestWin : num;
  largestLoss : num;
  totalTrades : nat;
  winningTrades : nat;
  losingTrades : nat;
  averageTradeDuration : num;
  volatility : num;
  beta : num;
  alpha : num;
  informationRatio : num;
  treynorRatio : num
}.

(** The accumulators of [evaluateTestResult]; [score] only ever receives
    the integer bonuses. *)
Record Tally := {
  t_score : Z;
  t_issues : list string;
  t_recommendations : list string
}.

Record Evaluation := {
  passed : bool;
  score : Z;
  issues : list string;
  recommendations : list string
}.

(** [if (good) score += pts; else if (bad) { issues.push(issue);
    recommendations.push(advice); }] *)
Definition judge (good bad : bool) (pts : Z) (issue advice : string)
    (t : Tally) : Tally :=
  if good then
    {| t_score := t_score t + pts; t_issues := t_issues t;
       t_recommendations := t_recommendations t |}
  else if bad then
    {| t_score := t_score t; t_issues := t_issues t ++ [issue];
       t_recommendations := t_recommendations t ++ [advice] |}
  else t.

(** The [switch (scenario.name)]: each case raises its issue when the
    expectation is missed and awards 20 points otherwise. *)
Definition scenarioExpectation (scenario : TestScenario)
    (performance : PerformanceMetrics) (t : Tally) : Tally :=
  if String.eqb (name scenario) "Strong Bull Market" then
    judge (negb (totalReturn performance <? of_Z 10)%num) true 20
          "Low returns in bull market"
          "Increase position sizes or reduce stop-losses in bull markets" t
  else if String.eqb (name scenario) "Strong Bear Market" then
    judge (negb (totalReturn performance <? of_Z (-5))%num) true 20
          "Excessive losses in bear market"
          "Improve bear market protection and stop-loss mechanisms" t
  else if String.eqb (name scenario) "Crash Scenario" then
    judge (negb (maxDrawdown performance >? of_Z 20)%num) true 20
          "Excessive drawdown during crash"
          "Implement better emergency stop-loss mechanisms" t
  else t.

(** The tallies when the general and the risk checks are done. *)
Definition tally (scenario : TestScenario) (performance : PerformanceMetrics)
    (riskMetrics : RiskManager.RiskMetrics) : Tally :=
  let t0 := {| t_score := 0; t_issues := []; t_recommendations := [] |} in
  let t1 := scenarioExpectation scenario performance t0 in
  let t2 :=
    judge (sharpeRatio performance >? dec 15 10)%num
          (sharpeRatio performance <? dec 5 10)%num 15
          "Low Sharpe ratio indicates poor risk-adjusted returns"
          "Optimize risk management and position sizing" t1 in
  let t3 :=
    judge (winRate performance >? of_Z 60)%num
          (winRate performance <? of_Z 40)%num 15
          "Low win rate"
          "Improve signal quality and entry timing" t2 in
  let t4 :=
    judge (maxDrawdown performance <? of_Z 10)%num
          (maxDrawdown performance >? of_Z 25)%num 15
          "High maximum drawdown"
          "Implement better risk management and position sizing" t3 in
  let t5 :=
    judge (profitFactor performance >? dec 15 10)%num
          (profitFactor performance <? of_Z 1)%num 15
          "Profit factor below 1.0 indicates losing strategy"
          "Review and improve trading logic" t4 in
  let t6 :=
    judge (RiskManager.volatility riskMetrics <? of_Z 15)%num
          (RiskManager.volatility riskMetrics >? of_Z 30)%num 10
          "High portfolio volatility"
          "Reduce position sizes and improve diversification" t5 in
  judge (RiskManager.correlation riskMetrics <? dec 5 10)%num
        (RiskManager.correlation riskMetrics >? dec 8 10)%num 10
        "High portfolio correlation"
        "Improve diversification across uncorrelated assets" t6.

Definition evaluateTestResult (algorithm : string) (scenario : TestScenario)
    (performance : PerformanceMetrics)
    (riskMetrics : RiskManager.RiskMetrics) : Evaluation :=
  let t := tally scenario performance riskMetrics in
  let passed :=
    (60 <=? t_score t)%Z && (length (t_issues t) <=? 2)%nat in
  {| passed := passed;
     score := Z.min 100 (t_score t);
     issues := t_issues t;
     recommendations := t_recommendations t |}.

(** The configuration [createBotInstance] gives every evaluator. *)
Definition testConfig (algorithm : BotType) : BotConfig :=
  {| cfg_id := "test-bot"; cfg_name := "Test Bot"; cfg_type := algorithm;
     cfg_allocation := of_Z 10000; cfg_stopLoss := of_Z 5;
     cfg_takeProfit := Some (of_Z 15); cfg_timeframe := "1h";
     cfg_maxPositions := 5; cfg_riskLevel := MODERATE;
     cfg_enabledAssets := ["BTC"; "ETH"; "SOL"; "ADA"; "DOT"]%string |}.

Definition testSchedule (now : Z) : DCATradingBot.DCASchedule :=
  {| DCATradingBot.frequency := DCATradingBot.DAILY;
     DCATradingBot.interval := of_Z 24;
     DCATradingBot.amount := of_Z 100;
     DCATradingBot.startDate := now;
     DCATradingBot.endDate := None;
     DCATradingBot.maxPurchases := None |}.

Definition generateZeroVolumeData (now : Z) : list MarketData :=
  [{| md_symbol := "BTC"; md_price := of_Z 100; md_volume := of_Z 0;
      md_timestamp := now; md_change24h := of_Z 0; md_change1h := of_Z 0;
      md_high24h := of_Z 100; md_low24h := of_Z 100;
      md_marketCap := Some (of_Z (100 * 19000000)) |}].

(** An entry of [TestResult['trades']]. *)
Record Trade := {
  tr_timestamp : Z;
  tr_action : Action;
  tr_symbol : string;
  tr_price : num;
  tr_quantity : num;
  tr_pnl : num;
  tr_reason : string
}.

Definition is_sell (t : Trade) : bool :=
  match tr_action t with SELL => true | _ => false end.

(** The drawdown of the cash balance the trades leave, from 10000. *)
Definition calculateMaxDrawdown (trades : list Trade) : num :=
  let '(maxDrawdown, peak, currentValue) :=
    fold_left
      (fun '(maxDrawdown, peak, currentValue) trade =>
         let currentValue1 :=
           match tr_action trade with
           | BUY => (currentValue - tr_price trade * tr_quantity trade)%num
           | _ => (currentValue + tr_price trade * tr_quantity trade)%num
           end in
         if (currentValue1 >? peak)%num
         then (maxDrawdown, currentValue1, currentValue1)
         else
           let drawdown := ((peak - currentValue1) / peak)%num in
           (num_max maxDrawdown drawdown, peak, currentValue1))
      trades (Fin 0, Fin 0, of_Z 10000) in
  (maxDrawdown * of_Z 100)%num.

Section WithMath.
Variable sqrt : num -> num.
Variable pow : num -> num -> num.

Definition calculatePerformanceMetrics (trades : list Trade)
    (finalValue initialValue : num) : PerformanceMetrics :=
  let totalReturn :=
    ((finalValue - initialValue) / initialValue * of_Z 100)%num in
  let annualizedReturn :=
    (pow (of_Z 1 + totalReturn / of_Z 100) (of_Z 365 / of_Z 30)
     - of_Z 1)%num in
  let sellTrades := filter is_sell trades in
  let winningTrades :=
    filter (fun t => (tr_pnl t >? of_Z 0)%num) sellTrades in
  let losingTrades :=
    filter (fun t => (tr_pnl t <? of_Z 0)%num) sellTrades in
  let winRate :=
    if (0 <? length sellTrades)%nat
    then (of_nat (length winningTrades) / of_nat (length sellTrades)
          * of_Z 100)%num
    else Fin 0 in
  let averageWin :=
    if (0 <? length winningTrades)%nat
    then (sum (map tr_pnl winningTrades)
          / of_nat (length winningTrades))%num
    else Fin 0 in
  let averageLoss :=
    if (0 <? length losingTrades)%nat
    then (sum (map tr_pnl losingTrades)
          / of_nat (length losingTrades))%num
    else Fin 0 in
  let largestWin :=
    if (0 <? length winningTrades)%nat
    then max_list (map tr_pnl winningTrades) else Fin 0 in
  let largestLoss :=
    if (0 <? length losingTrades)%nat
    then min_list (map tr_pnl losingTrades) else Fin 0 in
  let profitFactor :=
    if (num_abs averageLoss >? of_Z 0)%num
    then num_abs (averageWin / averageLoss)%num else Fin 0 in
  let returns := MomentumTradingBot.returns_of (map tr_price trades) in
  let volatility :=
    if (0 <? length returns)%nat
    then (sqrt (sum (map (fun ret => ret * ret) returns)
                / of_nat (length returns))
          * of_Z 100)%num
    else Fin 0 in
  let meanReturn := (sum returns / of_nat (length returns))%num in
  let sharpeRatio :=
    if (volatility >? of_Z 0)%num
    then ((meanReturn - dec 2 100 / of_Z 365)
          / (volatility / of_Z 100))%num
    else Fin 0 in
  {| totalReturn := totalReturn;
     annualizedReturn := (annualizedReturn * of_Z 100)%num;
     maxDrawdown := calculateMaxDrawdown trades;
     sharpeRatio := sharpeRatio;
     sortinoRatio := of_Z 0;
     calmarRatio := of_Z 0;
     winRate := winRate;
     profitFactor := profitFactor;
     averageWin := averageWin;
     averageLoss := averageLoss;
     largestWin := largestWin;
     largestLoss := largestLoss;
     totalTrades := length trades;
     winningTrades := length winningTrades;
     losingTrades := length losingTrades;
     averageTradeDuration := of_Z 24;
     volatility := volatility;
     beta := of_Z 1;
     alpha := of_Z 0;
     informationRatio := of_Z 0;
     treynorRatio := of_Z 0 |}.

End WithMath.

End AlgorithmTester.

(* ================================================================== *)
(** * Concrete inputs *)
(* ================================================================== *)

Module Inputs.

(** Stand-ins for [Math.sqrt] and [Math.pow] to run the model on concrete
    inputs: the square root rounded down to six decimals, and the power
    for integer exponents. *)
Definition sqrt_floor (x : num) : num :=
  match x with
  | Fin q =>
      if Qltb q 0 then NaN
      else Fin (Z.sqrt (Qnum q * 10 ^ 12 / Zpos (Qden q)) # 10 ^ 6)
  | PInf => PInf
  | _ => NaN
  end.

Definition pow_int (x y : num) : num :=
  match x, y with
  | Fin a, Fin b =>
      if Qeq_bool b (inject_Z (Qfloor b)) then Fin (Qpower a (Qfloor b))
      else NaN
  | _, _ => NaN
  end.

(** A clock reading for the runs below. *)
Definition t0 : Z := 1700000000000.

Definition quote (sym : string) (price volume : Z) (time : Z) : MarketData :=
  {| md_symbol := sym; md_price := of_Z price; md_volume := of_Z volume;
     md_timestamp := time; md_change24h := of_Z 0; md_change1h := of_Z 0;
     md_high24h := of_Z price; md_low24h := of_Z price;
     md_marketCap := None |}.

(** Ten hourly quotes of one symbol rising from 100 to 109 on steady
    volume. *)
Definition risingPrices : list MarketData :=
  map (fun i => quote "BTC" (100 + i) 1000000 (t0 + i * 3600000))
      [0; 1; 2; 3; 4; 5; 6; 7; 8; 9]%Z.

(** A momentum evaluator that rebalanced at [t0], bought 2 BTC at 100 and
    sold 1 BTC at 90: its position now shows a loss of 10%. *)
Definition losingMomentumBot : MomentumTradingBot.State :=
  MomentumTradingBot.updatePosition (t0 + 2000) "BTC" SELL (of_Z 1) (of_Z 90)
    (MomentumTradingBot.updatePosition (t0 + 1000) "BTC" BUY (of_Z 2) (of_Z 100)
       (snd (MomentumTradingBot.analyzeMarket sqrt_floor t0
               [quote "BTC" 100 1000000 t0]
               (MomentumTradingBot.create
                  (AlgorithmTester.testConfig momentum) t0)))).

(** A performance history of ten points of equal value. *)
Definition flatPerformance : RiskManager.State :=
  {| RiskManager.riskLimits :=
       {| RiskManager.maxPositionSize := of_Z 20;
          RiskManager.maxTotalExposure := of_Z 80;
          RiskManager.maxDrawdownLimit := of_Z 15;
          RiskManager.maxCorrelation := dec 8 10;
          RiskManager.maxVolatility := of_Z 30;
          RiskManager.minLiquidity := of_Z 1000;
          RiskManager.maxLeverage := of_Z 1;
          RiskManager.emergencyStopLoss := of_Z 25 |};
     RiskManager.marketHistory := [];
     RiskManager.performanceHistory :=
       map (fun i =>
              {| RiskManager.pp_timestamp := t0 + i * 3600000;
                 RiskManager.pp_value := of_Z 10000;
                 RiskManager.pp_drawdown := of_Z 0 |})
           [0; 1; 2; 3; 4; 5; 6; 7; 8; 9]%Z |}.


Definition stakingConfig : BotConfig :=
  {| cfg_id := "staking-bot"; cfg_name := "Staking Bot"; cfg_type := staking;
     cfg_allocation := of_Z 1000; cfg_stopLoss := of_Z 5;
     cfg_takeProfit := None; cfg_timeframe := "1h";
     cfg_maxPositions := 5; cfg_riskLevel := MODERATE;
     cfg_enabledAssets := ["SOL"; "ETH"]%string |}.


(** A staking evaluator after one look at quotes of SOL and ETH. *)
Definition stakingQuotes : list MarketData :=
  [quote "SOL" 150 1000000 t0; quote "ETH" 2000 1000000 t0].

Definition stakingBot : SmartStakingBot.State :=
  snd (SmartStakingBot.analyzeMarket t0 stakingQuotes
         (SmartStakingBot.create stakingConfig t0)).

(** A buy of 10 BTC at 100 against a portfolio of 1 BTC. *)
Definition bigBuy : TradingSignal :=
  {| sig_action := BUY; sig_symbol := "BTC"; sig_confidence := of_Z 80;
     sig_price := of_Z 100; sig_quantity := Some (of_Z 10);
     sig_reason := "test"; sig_timestamp := t0; sig_riskLevel := MEDIUM |}.



(** The latest channel-index observation of an oversold symbol. *)
Definition oversoldData : CCIMarketBot.CCIData :=
  {| CCIMarketBot.symbol := "BTC"; CCIMarketBot.timestamp := t0;
     CCIMarketBot.price := of_Z 80; CCIMarketBot.high := of_Z 82;
     CCIMarketBot.low := of_Z 79; CCIMarketBot.close := of_Z 80;
     CCIMarketBot.volume := of_Z 1000000; CCIMarketBot.cci := of_Z (-150);
     CCIMarketBot.cciMA := of_Z (-120);
     CCIMarketBot.cciSignal := CCIMarketBot.OVERSOLD;
     CCIMarketBot.trend := CCIMarketBot.SIDEWAYS;
     CCIMarketBot.strength := of_Z 10 |}.

(** A momentum evaluator that bought 2 BTC at 100 and sold 1 BTC at 110:
    its position shows a gain of 10%. *)
Definition gainingMomentumBot : MomentumTradingBot.State :=
  MomentumTradingBot.updatePosition (t0 + 2000) "BTC" SELL (of_Z 1) (of_Z 110)
    (MomentumTradingBot.updatePosition (t0 + 1000) "BTC" BUY (of_Z 2)
       (of_Z 100)
       (MomentumTradingBot.create (AlgorithmTester.testConfig momentum) t0)).


(** A DCA evaluator after a first purchase of 1 BTC at 100, and one whose
    schedule starts a day after [t0]. *)
Definition dcaBot : DCATradingBot.State :=
  DCATradingBot.create (AlgorithmTester.testConfig dca)
    (AlgorithmTester.testSchedule t0) t0.


Definition lateDCABot : DCATradingBot.State :=
  DCATradingBot.create (AlgorithmTester.testConfig dca)
    (AlgorithmTester.testSchedule (t0 + 86400000)) t0.

(** A channel-index position of 1 BTC bought at 100, now down 10%. *)
Definition losingCCIPosition : CCIMarketBot.CCIPosition :=
  {| CCIMarketBot.cp_symbol := "BTC"; CCIMarketBot.quantity := of_Z 1;
     CCIMarketBot.entryPrice := of_Z 100;
     CCIMarketBot.currentPrice := of_Z 90;
     CCIMarketBot.pnl := of_Z (-10);
     CCIMarketBot.pnlPercentage := of_Z (-10);
     CCIMarketBot.entrySignal := "CCI Oversold";
     CCIMarketBot.entryTimestamp := t0;
     CCIMarketBot.stopLoss := of_Z 95;
     CCIMarketBot.takeProfit := of_Z 115;
     CCIMarketBot.status := CCIMarketBot.ACTIVE |}.

(** A risk manager with the limits of [flatPerformance] and no history,
    a position in a symbol that the quotes do not list, and a performance
    history that falls from 10000 to 9000 and recovers to 9500. *)
Definition freshRiskManager : RiskManager.State :=
  RiskManager.create (RiskManager.riskLimits flatPerformance).

Definition oneDOGE : list Position :=
  [{| pos_symbol := "DOGE"; pos_quantity := of_Z 1000;
      pos_entryPrice := dec 1 10; pos_currentPrice := dec 1 10;
      pos_pnl := of_Z 0; pos_pnlPercentage := of_Z 0; pos_timestamp := t0 |}].


(** DCA parameters as the optimizer receives them, and a volatile bear
    market. *)
Definition dcaParams : RiskManager.Params :=
  [("amount"%string, RiskManager.VNum (of_Z 100));
   ("frequency"%string, RiskManager.VStr "DAILY")].

Definition volatileBearMarket : RiskManager.MarketCondition :=
  {| RiskManager.mc_trend := RiskManager.BEAR;
     RiskManager.mc_volatility := RiskManager.VolHIGH;
     RiskManager.mc_volume := RiskManager.VolumeNORMAL;
     RiskManager.mc_sentiment := RiskManager.NEUTRAL;
     RiskManager.mc_strength := of_Z 50;
     RiskManager.mc_confidence := of_Z 50 |}.

(** Two executed purchases, as the harness records them. *)
Definition twoPurchases : list AlgorithmTester.Trade :=
  [{| AlgorithmTester.tr_timestamp := t0; AlgorithmTester.tr_action := BUY;
      AlgorithmTester.tr_symbol := "BTC";
      AlgorithmTester.tr_price := of_Z 100;
      AlgorithmTester.tr_quantity := of_Z 1;
      AlgorithmTester.tr_pnl := of_Z 0;
      AlgorithmTester.tr_reason := "DCA purchase" |};
   {| AlgorithmTester.tr_timestamp := t0 + 86400000;
      AlgorithmTester.tr_action := BUY;
      AlgorithmTester.tr_symbol := "BTC";
      AlgorithmTester.tr_price := of_Z 110;
      AlgorithmTester.tr_quantity := of_Z 1;
      AlgorithmTester.tr_pnl := of_Z 0;
      AlgorithmTester.tr_reason := "DCA purchase" |}].

End Inputs.

(* ================================================================== *)
(** * Proofs: numbers, arrays and maps *)
(* ================================================================== *)

Lemma Qltb_lt (a b : Q) : Qltb a b = true <-> a < b.
Proof.
  unfold Qltb. rewrite negb_true_iff. split; intro H.
  - apply Qnot_le_lt. intro Hle. apply Qle_bool_iff in Hle. congruence.
  - destruct (Qle_bool b a) eqn:E; auto.
    apply Qle_bool_iff in E. exfalso. apply (Qlt_not_le _ _ H E).
Qed.

Lemma Qltb_ge (a b : Q) : Qltb a b = false <-> b <= a.
Proof.
  unfold Qltb. rewrite negb_false_iff. apply Qle_bool_iff.
Qed.

Lemma Qsign_Lt (q : Q) : Qsign q = Lt <-> 0 < q.
Proof. unfold Qsign. rewrite <- Qlt_alt. tauto. Qed.

Lemma Qsign_Gt (q : Q) : Qsign q = Gt <-> q < 0.
Proof. unfold Qsign. rewrite <- Qgt_alt. tauto. Qed.

Lemma Qsign_Eq (q : Q) : Qsign q = Eq <-> q == 0.
Proof.
  unfold Qsign. rewrite <- Qeq_alt. split; intro H; symmetry; exact H.
Qed.


Lemma Qleb_le (a b : Q) : Qltb a b || Qeq_bool a b = true <-> a <= b.
Proof.
  rewrite orb_true_iff, Qltb_lt, Qeq_bool_iff. split.
  - intros [H | H]; [apply Qlt_le_weak; exact H | rewrite H; apply Qle_refl].
  - intros H. destruct (Qlt_le_dec a b) as [L | G]; [now left|].
    right. apply Qle_antisym; assumption.
Qed.

Lemma Qleb_gt (a b : Q) : Qltb a b || Qeq_bool a b = false <-> b < a.
Proof.
  split.
  - intros H. apply Qnot_le_lt. intros L. apply Qleb_le in L. congruence.
  - intros H. destruct (Qltb a b || Qeq_bool a b) eqn:E; auto.
    apply Qleb_le in E. exfalso. apply (Qlt_not_le _ _ H E).
Qed.

(** Turn the boolean tests of a hypothesis into order facts. *)
Ltac turn H L :=
  let H' := fresh in
  pose proof (proj1 L H) as H'; clear H; rename H' into H.

Ltac qprop :=
  repeat match goal with
  | H : Qltb ?a ?b || Qeq_bool ?a ?b = true |- _ => turn H (Qleb_le a b)
  | H : Qltb ?a ?b || Qeq_bool ?a ?b = false |- _ => turn H (Qleb_gt a b)
  | H : Qltb ?a ?b = true |- _ => turn H (Qltb_lt a b)
  | H : Qltb ?a ?b = false |- _ => turn H (Qltb_ge a b)
  | H : Qeq_bool ?a ?b = true |- _ => turn H (Qeq_bool_iff a b)
  | H : Qeq_bool ?a ?b = false |- _ => apply Qeq_bool_neq in H
  | H : Qle_bool ?a ?b = true |- _ => turn H (Qle_bool_iff a b)
  | H : Qsign ?a = Lt |- _ => turn H (Qsign_Lt a)
  | H : Qsign ?a = Gt |- _ => turn H (Qsign_Gt a)
  | H : Qsign ?a = Eq |- _ => turn H (Qsign_Eq a)
  | H : (_ || _)%bool = true |- _ => apply orb_true_iff in H; destruct H
  | H : (_ || _)%bool = false |- _ => apply orb_false_iff in H; destruct H
  | H : (_ && _)%bool = true |- _ => apply andb_true_iff in H; destruct H
  | H : negb _ = true |- _ => apply negb_true_iff in H
  | H : negb _ = false |- _ => apply negb_false_iff in H
  end.

Ltac qgoal :=
  match goal with
  | |- Qltb ?a ?b || Qeq_bool ?a ?b = true => apply Qleb_le
  | |- Qltb ?a ?b || Qeq_bool ?a ?b = false => apply Qleb_gt
  | |- Qltb _ _ = true => apply Qltb_lt
  | |- Qltb _ _ = false => apply Qltb_ge
  | |- Qeq_bool _ _ = true => apply Qeq_bool_iff
  | |- Qle_bool _ _ = true => apply Qle_bool_iff
  end.

Ltac split_ifs :=
  repeat match goal with
  | H : context [if ?b then _ else _] |- _ =>
      destruct b eqn:?; try discriminate
  | H : context [match Qsign ?x with _ => _ end] |- _ =>
      destruct (Qsign x) eqn:?; try discriminate
  | |- context [if ?b then _ else _] => destruct b eqn:?; try discriminate
  | |- context [match Qsign ?x with _ => _ end] =>
      destruct (Qsign x) eqn:?; try discriminate
  end.

(** Case analysis on numbers down to facts about rationals. *)
Ltac num_crush :=
  repeat (split_ifs; simpl in *; try discriminate);
  qprop; try qgoal; try reflexivity; try assumption;
  try lra; try (exfalso; lra).



Lemma lastn_length {A} (n : nat) (xs : list A) :
  (n <= length xs)%nat -> length (lastn n xs) = n.
Proof. intros H. unfold lastn. rewrite length_skipn. lia. Qed.


Lemma insert_by_In {A} (cmp : A -> A -> num) (x y : A) (l : list A) :
  In y (insert_by cmp x l) <-> y = x \/ In y l.
Proof.
  induction l as [|z l IH].
  - simpl. intuition congruence.
  - cbn [insert_by]. destruct (num_gtb (cmp x z) (Fin 0)).
    + cbn [In]. rewrite IH. intuition congruence.
    + simpl. intuition congruence.
Qed.

Lemma sort_by_In {A} (cmp : A -> A -> num) (y : A) (l : list A) :
  In y (sort_by cmp l) <-> In y l.
Proof.
  induction l as [|x l IH].
  - simpl. tauto.
  - change (sort_by cmp (x :: l)) with (insert_by cmp x (sort_by cmp l)).
    rewrite insert_by_In, IH. simpl. intuition congruence.
Qed.

Lemma insert_by_length {A} (cmp : A -> A -> num) (x : A) (l : list A) :
  length (insert_by cmp x l) = S (length l).
Proof.
  induction l as [|z l IH]; cbn [insert_by]; auto.
  destruct (num_gtb (cmp x z) (Fin 0)); cbn [length]; auto.
Qed.

Lemma sort_by_length {A} (cmp : A -> A -> num) (l : list A) :
  length (sort_by cmp l) = length l.
Proof.
  induction l as [|x l IH]; auto.
  change (sort_by cmp (x :: l)) with (insert_by cmp x (sort_by cmp l)).
  rewrite insert_by_length. cbn [length]. now f_equal.
Qed.

Lemma adjacent_length {A} (l : list A) :
  length (adjacent l) = (length l - 1)%nat.
Proof.
  unfold adjacent. rewrite length_combine.
  destruct l; cbn [length tl]; lia.
Qed.

Lemma JsMap_get_set_same {V} (k : string) (v : V) (m : JsMap.t V) :
  JsMap.get k (JsMap.set k v m) = Some v.
Proof.
  induction m as [|[k' v'] m IH]; simpl.
  - now rewrite String.eqb_refl.
  - destruct (String.eqb k k') eqn:E; simpl.
    + now rewrite String.eqb_refl.
    + now rewrite E.
Qed.

Lemma JsMap_delete_set_fresh {V} (k : string) (v : V) (m : JsMap.t V) :
  JsMap.get k m = None -> JsMap.delete k (JsMap.set k v m) = m.
Proof.
  induction m as [|[k' v'] m IH]; simpl; intros H.
  - now rewrite String.eqb_refl.
  - destruct (String.eqb k k') eqn:E; [discriminate|].
    simpl. rewrite E. now rewrite IH.
Qed.

(* ================================================================== *)
(** * Proofs: risk manager *)
(* ================================================================== *)





Lemma getMarketConditionAdjustment_keeps_quantity mc s :
  RiskManager.adjustedQuantity
    (RiskManager.getMarketConditionAdjustment mc s) = None.
Proof.
  unfold RiskManager.getMarketConditionAdjustment.
  repeat match goal with
         | |- context [if ?b then _ else _] => destruct b
         end; reflexivity.
Qed.

Section ValidateSignal.
Variable sqrt : num -> num.
Variable pow : num -> num -> num.

Lemma validateSignal_resized now signal positions marketData st :
  RiskManager.sizeBreach signal positions marketData st = true ->
  fst (RiskManager.validateSignal sqrt pow now signal positions marketData st)
  = {| RiskManager.approved := true;
       RiskManager.adjustedQuantity :=
         Some (RiskManager.maxPositionSize (RiskManager.riskLimits st)
               / of_Z 100
               * RiskManager.calculatePortfolioValue positions marketData
               / sig_price signal)%num;
       RiskManager.reason := "Position size reduced";
       RiskManager.v_riskLevel := HIGH |}.
Proof.
  unfold RiskManager.sizeBreach, RiskManager.validateSignal. simpl.
  intros H. rewrite H. reflexivity.
Qed.

Lemma validateSignal_not_resized now signal positions marketData st :
  RiskManager.sizeBreach signal positions marketData st = false ->
  RiskManager.adjustedQuantity
    (fst (RiskManager.validateSignal sqrt pow now signal positions
            marketData st)) = None.
Proof.
  unfold RiskManager.sizeBreach, RiskManager.validateSignal. simpl.
  intros H. rewrite H.
  repeat match goal with
         | |- context [if ?b then _ else _] => destruct b; simpl; auto
         | |- context [match ?o with Some _ => _ | None => _ end] =>
             destruct o; simpl; auto
         end.
  all: apply getMarketConditionAdjustment_keeps_quantity.
Qed.


End ValidateSignal.


(** C10. [updateRiskLimits] with a partial [RiskLimits] changes exactly
    the fields present in its argument: read back through
    [getRiskLimits], every field the update names holds the new value and
    every other field holds the value it had; the two histories the risk
    checks read are untouched. *)
Theorem updateRiskLimits_changes_exactly_named
    (newLimits : RiskManager.PartialRiskLimits) (st : RiskManager.State) :
  (forall f : RiskManager.RiskField,
      RiskManager.field f
        (RiskManager.getRiskLimits (RiskManager.updateRiskLimits newLimits st))
      = match RiskManager.partial_field f newLimits with
        | Some v => v
        | None => RiskManager.field f (RiskManager.getRiskLimits st)
        end)
  /\ RiskManager.marketHistory (RiskManager.updateRiskLimits newLimits st)
     = RiskManager.marketHistory st
  /\ RiskManager.performanceHistory (RiskManager.updateRiskLimits newLimits st)
     = RiskManager.performanceHistory st.
Proof.
  split; [|split; reflexivity].
  intros f. destruct f; reflexivity.
Qed.

Lemma performanceReturns_length (st : RiskManager.State) :
  length (RiskManager.performanceReturns st)
  = (length (RiskManager.performanceHistory st) - 1)%nat.
Proof.
  unfold RiskManager.performanceReturns, MomentumTradingBot.returns_of.
  rewrite length_map, adjacent_length, length_map. reflexivity.
Qed.

(** With 9 to 19 returns the 5% tail index is 0. *)
Lemma tail_index_zero (n : nat) :
  (9 <= n <= 19)%nat ->
  num_floor ((of_Z 1 - dec 95 100) * of_nat n)%num = Fin 0.
Proof.
  intros H.
  do 20 (destruct n as [|n];
         [first [exfalso; lia | vm_compute; reflexivity]|]).
  exfalso; lia.
Qed.

(** C5 (the code's behaviour). For every performance history of 10 to 20
    points [calculateCVaR(0.95)] is [NaN]: the tail [returns.slice(0,
    varIndex)] is empty, and the mean of no returns is [0 / 0]. *)
Theorem calculateCVaR_short_history_is_NaN (st : RiskManager.State) :
  (10 <= length (RiskManager.performanceHistory st) <= 20)%nat ->
  RiskManager.calculateCVaR st (dec 95 100) = NaN.
Proof.
  intros H. unfold RiskManager.calculateCVaR.
  destruct (length (RiskManager.performanceHistory st) <? 10)%nat eqn:E.
  - apply Nat.ltb_lt in E. lia.
  - rewrite sort_by_length, performanceReturns_length.
    rewrite tail_index_zero by lia.
    reflexivity.
Qed.

(** Ten points of equal value: CVaR95 is [NaN]. *)
Lemma calculateCVaR_short_history_is_NaN_witness :
  (10 <= length (RiskManager.performanceHistory Inputs.flatPerformance) <= 20)%nat
  /\ RiskManager.calculateCVaR Inputs.flatPerformance (dec 95 100) = NaN.
Proof.
  split.
  - simpl. lia.
  - apply (calculateCVaR_short_history_is_NaN Inputs.flatPerformance).
    simpl. lia.
Defined.

(* ================================================================== *)
(** * Proofs: backtest harness *)
(* ================================================================== *)

Lemma judge_score (good bad : bool) (pts : Z) (issue advice : string)
    (t : AlgorithmTester.Tally) :
  (0 <= pts)%Z ->
  (AlgorithmTester.t_score t
   <= AlgorithmTester.t_score (AlgorithmTester.judge good bad pts issue advice t)
   <= AlgorithmTester.t_score t + pts)%Z.
Proof.
  intros H. unfold AlgorithmTester.judge.
  destruct good, bad; simpl; lia.
Qed.

Lemma scenarioExpectation_score scenario performance t :
  (AlgorithmTester.t_score t
   <= AlgorithmTester.t_score
        (AlgorithmTester.scenarioExpectation scenario performance t)
   <= AlgorithmTester.t_score t + 20)%Z.
Proof.
  unfold AlgorithmTester.scenarioExpectation.
  repeat match goal with
         | |- context [if String.eqb ?a ?b then _ else _] =>
             destruct (String.eqb a b)
         end;
    try (apply judge_score; lia); lia.
Qed.

Lemma tally_score_range scenario performance riskMetrics :
  (0 <= AlgorithmTester.t_score
          (AlgorithmTester.tally scenario performance riskMetrics) <= 100)%Z.
Proof.
  unfold AlgorithmTester.tally. cbv zeta.
  pose proof (scenarioExpectation_score scenario performance
                {| AlgorithmTester.t_score := 0;
                   AlgorithmTester.t_issues := [];
                   AlgorithmTester.t_recommendations := [] |}) as S.
  cbn [AlgorithmTester.t_score] in S.
  set (t1 := AlgorithmTester.scenarioExpectation _ _ _) in *.
  repeat match goal with
         | |- context [AlgorithmTester.judge ?g ?b ?pts ?i ?a ?t] =>
             is_var t;
             let H := fresh "J" in
             pose proof (judge_score g b pts i a t ltac:(lia)) as H;
             set (AlgorithmTester.judge g b pts i a t) in *
         end.
  lia.
Qed.

(** C9. For every backtest evaluation, [passed] holds if and only if the
    computed score is at least 60 and at most 2 issues were recorded; the
    reported score is the computed one capped at 100 (and the cap is
    never reached: the bonuses add up to 100 at most). *)
Theorem evaluateTestResult_passed_iff
    (algorithm : string) (scenario : AlgorithmTester.TestScenario)
    (performance : AlgorithmTester.PerformanceMetrics)
    (riskMetrics : RiskManager.RiskMetrics) :
  let r :=
    AlgorithmTester.evaluateTestResult algorithm scenario performance
      riskMetrics in
  let computed :=
    AlgorithmTester.t_score
      (AlgorithmTester.tally scenario performance riskMetrics) in
  (AlgorithmTester.passed r = true
   <-> (60 <= computed)%Z /\ (length (AlgorithmTester.issues r) <= 2)%nat)
  /\ AlgorithmTester.score r = Z.min 100 computed
  /\ (AlgorithmTester.score r <= 100)%Z
  /\ AlgorithmTester.score r = computed.
Proof.
  intros r computed. subst r computed.
  pose proof (tally_score_range scenario performance riskMetrics) as R.
  unfold AlgorithmTester.evaluateTestResult. cbn [AlgorithmTester.passed
    AlgorithmTester.score AlgorithmTester.issues].
  split; [|split; [reflexivity | split; lia]].
  rewrite andb_true_iff, Z.leb_le, Nat.leb_le. tauto.
Qed.

(* ================================================================== *)
(** * Proofs: position ledgers *)
(* ================================================================== *)

Lemma closes_on_equal_sell (q : Q) :
  (Fin q - Fin q <=? dec 1 1000)%num = true.
Proof.
  unfold num_leb, dec. simpl. apply orb_true_iff. left.
  apply Qltb_lt. lra.
Qed.

Section Ledgers.
Variable sqrt : num -> num.

Lemma momentum_positions_updatePerformance now st :
  MomentumTradingBot.positions (MomentumTradingBot.updatePerformance now st)
  = MomentumTradingBot.positions st.
Proof. reflexivity. Qed.

Lemma dca_positions_updatePerformance now st :
  DCATradingBot.positions (DCATradingBot.updatePerformance sqrt now st)
  = DCATradingBot.positions st.
Proof. reflexivity. Qed.

Lemma cci_positions_updatePerformance now st :
  CCIMarketBot.positions (CCIMarketBot.updatePerformance sqrt now st)
  = CCIMarketBot.positions st.
Proof. reflexivity. Qed.

Lemma momentum_round_trip now1 now2 sym (q p : num) st :
  (q - q <=? dec 1 1000)%num = true ->
  JsMap.get sym (MomentumTradingBot.positions st) = None ->
  MomentumTradingBot.positions
    (MomentumTradingBot.updatePosition now2 sym SELL q p
       (MomentumTradingBot.updatePosition now1 sym BUY q p st))
  = MomentumTradingBot.positions st.
Proof.
  intros Hq H.
  unfold MomentumTradingBot.updatePosition at 2. rewrite H.
  unfold MomentumTradingBot.updatePosition.
  rewrite !momentum_positions_updatePerformance.
  cbn [MomentumTradingBot.with_positions MomentumTradingBot.positions].
  rewrite JsMap_get_set_same. cbn [pos_quantity]. rewrite Hq.
  cbn [MomentumTradingBot.with_positions MomentumTradingBot.positions].
  apply JsMap_delete_set_fresh. exact H.
Qed.

Lemma dca_round_trip now1 now2 sym (q p : num) st :
  JsMap.get sym (DCATradingBot.positions st) = None ->
  DCATradingBot.positions
    (DCATradingBot.updatePosition sqrt now2 sym SELL q p
       (DCATradingBot.updatePosition sqrt now1 sym BUY q p st))
  = DCATradingBot.positions st.
Proof.
  intros H.
  unfold DCATradingBot.updatePosition at 2. rewrite H.
  unfold DCATradingBot.updatePosition.
  rewrite !dca_positions_updatePerformance.
  cbn [DCATradingBot.with_positions DCATradingBot.positions].
  rewrite JsMap_get_set_same.
  cbn [DCATradingBot.with_positions DCATradingBot.positions].
  apply JsMap_delete_set_fresh. exact H.
Qed.

Lemma cci_round_trip now1 now2 sym (q p : num) st :
  (q - q <=? dec 1 1000)%num = true ->
  JsMap.get sym (CCIMarketBot.positions st) = None ->
  CCIMarketBot.positions
    (CCIMarketBot.updatePosition sqrt now2 sym SELL q p
       (CCIMarketBot.updatePosition sqrt now1 sym BUY q p st))
  = CCIMarketBot.positions st.
Proof.
  intros Hq H.
  unfold CCIMarketBot.updatePosition at 2. rewrite H.
  unfold CCIMarketBot.updatePosition.
  rewrite !cci_positions_updatePerformance.
  cbn [CCIMarketBot.with_positions CCIMarketBot.positions].
  rewrite JsMap_get_set_same. cbn [CCIMarketBot.quantity]. rewrite Hq.
  cbn [CCIMarketBot.with_positions CCIMarketBot.positions].
  apply JsMap_delete_set_fresh. exact H.
Qed.

(** C7. In each of the momentum, DCA and channel-index ledgers, an
    executed BUY of quantity [q] at price [p] followed by an executed SELL
    of the same quantity at the same price ([q > 0], [p > 0]), starting
    with no position for the symbol, leaves no position for the symbol
    (and the ledger holds the positions it held before). *)
Theorem buy_then_sell_closes_position
    (now1 now2 : Z) (sym : string) (q p : Q)
    (m : MomentumTradingBot.State) (d : DCATradingBot.State)
    (c : CCIMarketBot.State) :
  0 < q -> 0 < p ->
  JsMap.get sym (MomentumTradingBot.positions m) = None ->
  JsMap.get sym (DCATradingBot.positions d) = None ->
  JsMap.get sym (CCIMarketBot.positions c) = None ->
  let m' :=
    MomentumTradingBot.updatePosition now2 sym SELL (Fin q) (Fin p)
      (MomentumTradingBot.updatePosition now1 sym BUY (Fin q) (Fin p) m) in
  let d' :=
    DCATradingBot.updatePosition sqrt now2 sym SELL (Fin q) (Fin p)
      (DCATradingBot.updatePosition sqrt now1 sym BUY (Fin q) (Fin p) d) in
  let c' :=
    CCIMarketBot.updatePosition sqrt now2 sym SELL (Fin q) (Fin p)
      (CCIMarketBot.updatePosition sqrt now1 sym BUY (Fin q) (Fin p) c) in
  (JsMap.get sym (MomentumTradingBot.positions m') = None
   /\ MomentumTradingBot.positions m' = MomentumTradingBot.positions m)
  /\ (JsMap.get sym (DCATradingBot.positions d') = None
      /\ DCATradingBot.positions d' = DCATradingBot.positions d)
  /\ (JsMap.get sym (CCIMarketBot.positions c') = None
      /\ CCIMarketBot.positions c' = CCIMarketBot.positions c).
Proof.
  intros Hq Hp Hm Hd Hc m' d' c'. subst m' d' c'.
  rewrite (momentum_round_trip _ _ _ _ _ _ (closes_on_equal_sell q) Hm).
  rewrite (dca_round_trip _ _ _ _ _ _ Hd).
  rewrite (cci_round_trip _ _ _ _ _ _ (closes_on_equal_sell q) Hc).
  repeat split; assumption.
Qed.

End Ledgers.

(** Buying and selling 2 BTC at 100 in three fresh ledgers. *)
Lemma buy_then_sell_closes_position_witness :
  JsMap.get "BTC"
    (MomentumTradingBot.positions
       (MomentumTradingBot.updatePosition (Inputs.t0 + 1) "BTC" SELL
          (Fin 2) (Fin 100)
          (MomentumTradingBot.updatePosition Inputs.t0 "BTC" BUY
             (Fin 2) (Fin 100)
             (MomentumTradingBot.create
                (AlgorithmTester.testConfig momentum) Inputs.t0)))) = None
  /\ JsMap.get "BTC"
       (DCATradingBot.positions
          (DCATradingBot.updatePosition Inputs.sqrt_floor (Inputs.t0 + 1)
             "BTC" SELL (Fin 2) (Fin 100)
             (DCATradingBot.updatePosition Inputs.sqrt_floor Inputs.t0
                "BTC" BUY (Fin 2) (Fin 100)
                (DCATradingBot.create (AlgorithmTester.testConfig dca)
                   (AlgorithmTester.testSchedule Inputs.t0) Inputs.t0))))
     = None
  /\ JsMap.get "BTC"
       (CCIMarketBot.positions
          (CCIMarketBot.updatePosition Inputs.sqrt_floor (Inputs.t0 + 1)
             "BTC" SELL (Fin 2) (Fin 100)
             (CCIMarketBot.updatePosition Inputs.sqrt_floor Inputs.t0
                "BTC" BUY (Fin 2) (Fin 100)
                (CCIMarketBot.create (AlgorithmTester.testConfig cci)
                   Inputs.t0)))) = None.
Proof.
  pose proof
    (buy_then_sell_closes_position Inputs.sqrt_floor Inputs.t0
       (Inputs.t0 + 1) "BTC" 2 100
       (MomentumTradingBot.create (AlgorithmTester.testConfig momentum)
          Inputs.t0)
       (DCATradingBot.create (AlgorithmTester.testConfig dca)
          (AlgorithmTester.testSchedule Inputs.t0) Inputs.t0)
       (CCIMarketBot.create (AlgorithmTester.testConfig cci) Inputs.t0)
       eq_refl eq_refl eq_refl eq_refl eq_refl) as H.
  cbv zeta in H. destruct H as [[Hm _] [[Hd _] [Hc _]]].
  repeat split; assumption.
Defined.

(* ================================================================== *)
(** * Proofs: channel-index oscillator *)
(* ================================================================== *)








(* ================================================================== *)
(** * Proofs: greedy staking allocation *)
(* ================================================================== *)

Section GreedyAllocation.
Import SmartStakingBot.





Lemma num_leb_trans (x y z : num) :
  (x <=? y)%num = true -> (y <=? z)%num = true -> (x <=? z)%num = true.
Proof.
  unfold num_leb.
  destruct x as [x| | |], y as [y| | |], z as [z| | |];
    simpl; intros H1 H2; try discriminate; try reflexivity.
  num_crush.
Qed.









End GreedyAllocation.



(* ================================================================== *)
(** * Proofs: the evaluators on concrete market data *)
(* ================================================================== *)

(** C1 (the code's behaviour). On ten valid observations of one symbol,
    prices rising from 100 to 109 on steady volume, the momentum
    evaluator emits five BUY signals at positive prices whose confidence
    [min(95, 60 + score)] lies below -5000: the trend-strength sub-score
    [slope * rSquared * 100] is hugely negative and the confidence has no
    lower clamp. *)
Theorem momentum_confidence_below_zero (sqrt : num -> num) :
  let signals :=
    fst (MomentumTradingBot.analyzeMarket sqrt Inputs.t0 Inputs.risingPrices
           (MomentumTradingBot.create (AlgorithmTester.testConfig momentum)
              Inputs.t0)) in
  length signals = 5%nat
  /\ Forall (fun s =>
               sig_action s = BUY
               /\ (sig_price s >? of_Z 0)%num = true
               /\ (sig_confidence s <? of_Z (-5000))%num = true)
            signals.
Proof.
  cbv zeta. split.
  - vm_compute. reflexivity.
  - vm_compute. repeat constructor.
Qed.

(** C2 (the code's behaviour). A call to the momentum evaluator's
    [analyzeMarket] made less than 15 minutes after the previous
    rebalance returns no signal at all, whatever the positions: the
    stop-loss and take-profit checks sit behind the early return. *)
Theorem momentum_gated_call_emits_nothing
    (sqrt : num -> num) (now : Z) (marketData : list MarketData)
    (st : MomentumTradingBot.State) :
  (now - MomentumTradingBot.lastRebalance st < 15 * 60 * 1000)%Z ->
  fst (MomentumTradingBot.analyzeMarket sqrt now marketData st) = [].
Proof.
  intros H. unfold MomentumTradingBot.analyzeMarket.
  cbn [MomentumTradingBot.lastRebalance].
  apply Z.ltb_lt in H. rewrite H. reflexivity.
Qed.

(** One minute after its rebalance the evaluator holds a BTC position
    showing a 10% loss against a 5% stop-loss; [checkStopLossTriggers]
    would sell it, yet [analyzeMarket] returns nothing. *)
Lemma momentum_gated_call_emits_nothing_witness :
  (Inputs.t0 + 60000
   - MomentumTradingBot.lastRebalance Inputs.losingMomentumBot
   < 15 * 60 * 1000)%Z
  /\ map (fun s => (sig_action s, sig_symbol s))
         (MomentumTradingBot.checkStopLossTriggers (Inputs.t0 + 60000)
            Inputs.losingMomentumBot) = [(SELL, "BTC"%string)]
  /\ fst (MomentumTradingBot.analyzeMarket Inputs.sqrt_floor
            (Inputs.t0 + 60000)
            [Inputs.quote "BTC" 90 1000000 (Inputs.t0 + 60000)]
            Inputs.losingMomentumBot) = [].
Proof.
  split; [vm_compute; reflexivity|]. split; [vm_compute; reflexivity|].
  apply (momentum_gated_call_emits_nothing Inputs.sqrt_floor
           (Inputs.t0 + 60000)
           [Inputs.quote "BTC" 90 1000000 (Inputs.t0 + 60000)]
           Inputs.losingMomentumBot).
  vm_compute. reflexivity.
Defined.

(** C6 (the code's behaviour). On the harness's zero-volume observation
    and configuration, the momentum evaluator returns one BUY signal, the
    DCA evaluator one BUY signal and the staking evaluator three BUY
    signals; only the channel-index evaluator returns none. *)
Theorem zero_volume_still_yields_signals (sqrt : num -> num) :
  map sig_action
    (fst (MomentumTradingBot.analyzeMarket sqrt Inputs.t0
            (AlgorithmTester.generateZeroVolumeData Inputs.t0)
            (MomentumTradingBot.create (AlgorithmTester.testConfig momentum)
               Inputs.t0))) = [BUY]
  /\ map sig_action
       (fst (DCATradingBot.analyzeMarket sqrt Inputs.t0
               (AlgorithmTester.generateZeroVolumeData Inputs.t0)
               (DCATradingBot.create (AlgorithmTester.testConfig dca)
                  (AlgorithmTester.testSchedule Inputs.t0) Inputs.t0)))
     = [BUY]
  /\ map sig_action
       (fst (SmartStakingBot.analyzeMarket Inputs.t0
               (AlgorithmTester.generateZeroVolumeData Inputs.t0)
               (SmartStakingBot.create (AlgorithmTester.testConfig staking)
                  Inputs.t0))) = [BUY; BUY; BUY]
  /\ fst (CCIMarketBot.analyzeMarket Inputs.t0
            (AlgorithmTester.generateZeroVolumeData Inputs.t0)
            (CCIMarketBot.create (AlgorithmTester.testConfig cci) Inputs.t0))
     = [].
Proof.
  repeat split; vm_compute; reflexivity.
Qed.

(* ================================================================== *)
(** * Proofs: confidence of the DCA and channel-index evaluators *)
(* ================================================================== *)

(** X1. The confidence of every DCA purchase signal lies within [30, 95]:
    [calculateDCAConfidence] clamps on both sides. *)
Theorem calculateDCAConfidence_range
    (st : DCATradingBot.State) (assetData : MarketData)
    (position : option DCATradingBot.DCAPosition) :
  let c := DCATradingBot.calculateDCAConfidence st assetData position in
  (of_Z 30 <=? c)%num = true /\ (c <=? of_Z 95)%num = true.
Proof.
  cbv zeta. unfold DCATradingBot.calculateDCAConfidence.
  destruct position as [p|];
    repeat match goal with
           | |- context [if ?b then _ else _] => destruct b
           end;
    vm_compute; split; reflexivity.
Qed.

(** X2. Every signal [generateBuySignal] emits is a BUY whose confidence
    lies within [60, 95]. *)
Theorem generateBuySignal_confidence_range
    (now : Z) (st : CCIMarketBot.State) (sym : string)
    (cciData : CCIMarketBot.CCIData) (s : TradingSignal) :
  CCIMarketBot.generateBuySignal now st sym cciData = Some s ->
  sig_action s = BUY
  /\ (of_Z 60 <=? sig_confidence s)%num = true
  /\ (sig_confidence s <=? of_Z 95)%num = true.
Proof.
  unfold CCIMarketBot.generateBuySignal.
  destruct (cfg_riskLevel (CCIMarketBot.config st));
    repeat match goal with
           | |- context [if ?b then _ else _] =>
               lazymatch b with
               | context [num_geb] => fail
               | _ => destruct b
               end
           end;
    cbv beta iota zeta;
    match goal with
    | |- context [if ?b then _ else _] =>
        let v := eval vm_compute in b in
        change b with v; cbv iota
    end;
    intros H; try discriminate; injection H as <-;
    cbn [sig_action sig_confidence]; vm_compute; repeat split.
Qed.

(** An oversold symbol under the moderate profile: a BUY at confidence
    60. *)
Lemma generateBuySignal_confidence_range_witness :
  exists s,
    CCIMarketBot.generateBuySignal Inputs.t0
      (CCIMarketBot.create (AlgorithmTester.testConfig cci) Inputs.t0)
      "BTC" Inputs.oversoldData = Some s
    /\ sig_action s = BUY
    /\ (of_Z 60 <=? sig_confidence s)%num = true
    /\ (sig_confidence s <=? of_Z 95)%num = true.
Proof.
  eexists. split.
  - vm_compute. reflexivity.
  - apply (generateBuySignal_confidence_range Inputs.t0
             (CCIMarketBot.create (AlgorithmTester.testConfig cci) Inputs.t0)
             "BTC" Inputs.oversoldData).
    vm_compute. reflexivity.
Defined.

(* ================================================================== *)
(** * Proofs: bounded histories *)
(* ================================================================== *)

Lemma JsMap_get_Forall {V} (P : V -> Prop) (k : string) (m : JsMap.t V)
    (v : V) :
  Forall P (JsMap.values m) -> JsMap.get k m = Some v -> P v.
Proof.
  induction m as [|[k' v'] m IH]; simpl; intros HF H; [discriminate|].
  inversion HF; subst.
  destruct (String.eqb k k'); [now injection H as <- | auto].
Qed.

Lemma JsMap_set_Forall {V} (P : V -> Prop) (k : string) (v : V)
    (m : JsMap.t V) :
  Forall P (JsMap.values m) -> P v ->
  Forall P (JsMap.values (JsMap.set k v m)).
Proof.
  unfold JsMap.values.
  induction m as [|[k' v'] m IH]; simpl; intros HF Hv.
  - constructor; auto.
  - inversion HF; subst. destruct (String.eqb k k'); simpl; constructor; auto.
Qed.


Lemma JsMap_get_set_other {V} (k k' : string) (v : V) (m : JsMap.t V) :
  String.eqb k k' = false ->
  JsMap.get k (JsMap.set k' v m) = JsMap.get k m.
Proof.
  intros H. induction m as [|[k0 v0] m IH]; simpl.
  - now rewrite H.
  - destruct (String.eqb k' k0) eqn:E; simpl.
    + apply String.eqb_eq in E. subst k0. now rewrite H.
    + now rewrite IH.
Qed.

Lemma fold_left_invariant {A B} (I : A -> Prop) (f : A -> B -> A)
    (l : list B) (a : A) :
  (forall a b, I a -> I (f a b)) -> I a -> I (fold_left f l a).
Proof.
  intros Hf. revert a. induction l as [|b l IH]; simpl; auto.
Qed.

Lemma Forall_flat_map {A B} (P : B -> Prop) (f : A -> list B) (l : list A) :
  (forall a, In a l -> Forall P (f a)) -> Forall P (flat_map f l).
Proof.
  intros H. apply Forall_forall. intros b Hb. apply in_flat_map in Hb.
  destruct Hb as [a [Ha Hb]]. specialize (H a Ha).
  rewrite Forall_forall in H. auto.
Qed.

Lemma firstn_incl {A} (n : nat) (l : list A) (x : A) :
  In x (firstn n l) -> In x l.
Proof.
  intros H. rewrite <- (firstn_skipn n l). apply in_or_app. now left.
Qed.

Lemma Qeq_bool_pos_false (x : Q) : 0 < x -> Qeq_bool x 0 = false.
Proof.
  intros H. destruct (Qeq_bool x 0) eqn:E; auto.
  apply Qeq_bool_iff in E. lra.
Qed.

(** Case analysis on a key looked up in the literal tables. *)
Ltac by_table :=
  repeat match goal with
         | |- context [String.eqb ?a ?b] => destruct (String.eqb a b)
         end.

(** The ledgers never touch the histories. *)
Ltac ledger_frame H :=
  repeat match goal with
         | |- context [match ?x with _ => _ end] => destruct x
         end;
  exact H.

Lemma momentum_recordObservation_bound h data :
  Forall (fun l : list MarketData => (length l <= 1000)%nat)
         (JsMap.values h) ->
  Forall (fun l : list MarketData => (length l <= 1000)%nat)
         (JsMap.values (MomentumTradingBot.recordObservation h data)).
Proof.
  intros HF. unfold MomentumTradingBot.recordObservation.
  apply JsMap_set_Forall; auto.
  assert (Hold : (length match JsMap.get (md_symbol data) h with
                         | Some l => l | None => [] end <= 1000)%nat).
  { destruct (JsMap.get (md_symbol data) h) eqn:E; simpl; [|lia].
    apply (JsMap_get_Forall _ _ _ _ HF E). }
  cbv zeta.
  set (old := match JsMap.get (md_symbol data) h with
              | Some l => l | None => [] end) in *.
  destruct (Nat.ltb_spec 1000 (length (old ++ [data]))) as [L|L]; [|exact L].
  unfold shift. rewrite length_app in L. simpl in L.
  destruct old as [|x old]; simpl in *; [lia|].
  rewrite length_app. simpl. lia.
Qed.

Lemma momentum_step_history sqrt st c :
  Forall (fun l : list MarketData => (length l <= 1000)%nat)
         (JsMap.values (MomentumTradingBot.priceHistory st)) ->
  Forall (fun l : list MarketData => (length l <= 1000)%nat)
         (JsMap.values
            (MomentumTradingBot.priceHistory
               (MomentumTradingBot.step sqrt st c))).
Proof.
  intros H. destruct c as [now md | now sym action q p]; simpl.
  - unfold MomentumTradingBot.analyzeMarket. cbv zeta.
    cbn [MomentumTradingBot.lastRebalance MomentumTradingBot.priceHistory].
    destruct (_ <? _)%Z; cbn [snd MomentumTradingBot.priceHistory];
      apply fold_left_invariant; auto using momentum_recordObservation_bound.
  - unfold MomentumTradingBot.updatePosition. ledger_frame H.
Qed.

Lemma dca_recordObservation_bound h data :
  Forall (fun l : list MarketData => (length l <= 1200)%nat)
         (JsMap.values h) ->
  Forall (fun l : list MarketData => (length l <= 1200)%nat)
         (JsMap.values (DCATradingBot.recordObservation h data)).
Proof.
  intros HF. unfold DCATradingBot.recordObservation.
  apply JsMap_set_Forall; auto.
  assert (Hold : (length match JsMap.get (md_symbol data) h with
                         | Some l => l | None => [] end <= 1200)%nat).
  { destruct (JsMap.get (md_symbol data) h) eqn:E; simpl; [|lia].
    apply (JsMap_get_Forall _ _ _ _ HF E). }
  cbv zeta.
  set (old := match JsMap.get (md_symbol data) h with
              | Some l => l | None => [] end) in *.
  unfold DCATradingBot.MAX_HISTORY, DCATradingBot.PRUNE_CHUNK.
  destruct (Nat.ltb_spec (1000 + 200) (length (old ++ [data]))) as [L|L].
  - rewrite length_skipn. lia.
  - exact L.
Qed.

Lemma dca_step_history sqrt st c :
  Forall (fun l : list MarketData => (length l <= 1200)%nat)
         (JsMap.values (DCATradingBot.marketData st)) ->
  Forall (fun l : list MarketData => (length l <= 1200)%nat)
         (JsMap.values
            (DCATradingBot.marketData (DCATradingBot.step sqrt st c))).
Proof.
  intros H. destruct c as [now md | now sym action q p]; simpl.
  - apply fold_left_invariant; auto using dca_recordObservation_bound.
  - unfold DCATradingBot.updatePosition. ledger_frame H.
Qed.

Lemma cci_updatePriceHistory_bound c h data :
  Forall (fun l : list CCIMarketBot.CCIData =>
            (length l <= CCIMarketBot.period c + CCIMarketBot.maPeriod c
                         + 10)%nat)
         (JsMap.values h) ->
  Forall (fun l : list CCIMarketBot.CCIData =>
            (length l <= CCIMarketBot.period c + CCIMarketBot.maPeriod c
                         + 10)%nat)
         (JsMap.values (CCIMarketBot.updatePriceHistory c h data)).
Proof.
  intros HF. unfold CCIMarketBot.updatePriceHistory.
  apply JsMap_set_Forall; auto.
  cbv zeta.
  match goal with
  | |- context [?o ++ [?d]] => set (old := o) in *; set (x := d)
  end.
  assert (Hold : (length old <= CCIMarketBot.period c
                                + CCIMarketBot.maPeriod c + 10)%nat).
  { subst old. destruct (JsMap.get (md_symbol data) h) eqn:E; simpl; [|lia].
    apply (JsMap_get_Forall _ _ _ _ HF E). }
  destruct (Nat.ltb_spec
              (CCIMarketBot.period c + CCIMarketBot.maPeriod c + 10)
              (length (old ++ [x]))) as [L|L]; [|exact L].
  unfold shift. rewrite length_app in L. simpl in L.
  destruct old as [|y old]; simpl in *; [lia|].
  rewrite length_app. simpl. lia.
Qed.

Lemma set_last_length {A} (xs : list A) (x : A) :
  xs <> [] -> length (CCIMarketBot.set_last xs x) = length xs.
Proof.
  intros H. unfold CCIMarketBot.set_last. rewrite length_app. simpl.
  destruct (exists_last H) as [l [a ->]].
  rewrite removelast_last, length_app. simpl. reflexivity.
Qed.

Lemma calculateCCI_length c history d h' :
  CCIMarketBot.calculateCCI c history = Some (d, h') ->
  length h' = length history.
Proof.
  unfold CCIMarketBot.calculateCCI. destruct (_ <? _)%nat; [discriminate|].
  destruct history as [|d0 l]; [discriminate|].
  cbv zeta. intros H. injection H as _ <-.
  apply set_last_length. discriminate.
Qed.

(** The per-symbol loop of the channel-index [analyzeMarket] keeps an
    invariant [I] of the evaluator state that survives replacing one
    history by one of the same length. *)
Lemma cci_analyze_loop now (I : CCIMarketBot.State -> Prop)
    (assets : list string) :
  (forall s sym history d h',
      I s -> JsMap.get sym (CCIMarketBot.priceHistory s) = Some history ->
      CCIMarketBot.calculateCCI (CCIMarketBot.cciConfig s) history
      = Some (d, h') ->
      I (CCIMarketBot.with_history s
           (JsMap.set sym h' (CCIMarketBot.priceHistory s)))) ->
  forall (acc : list TradingSignal) st,
  I st ->
  I (snd (fold_left
      (fun '(signals, s) sym =>
         match JsMap.get sym (CCIMarketBot.priceHistory s) with
         | None => (signals, s)
         | Some history =>
             match CCIMarketBot.calculateCCI (CCIMarketBot.cciConfig s)
                     history with
             | None => (signals, s)
             | Some (cciData, history') =>
                 let s' :=
                   CCIMarketBot.with_history s
                     (JsMap.set sym history' (CCIMarketBot.priceHistory s)) in
                 (signals ++ CCIMarketBot.generateCCISignals now s' sym cciData,
                  s')
             end
         end) assets (acc, st))).
Proof.
  intros Hstep.
  induction assets as [|sym assets IH]; intros acc st H; simpl; auto.
  destruct (JsMap.get sym (CCIMarketBot.priceHistory st)) as [history|] eqn:E;
    [|apply IH; auto].
  destruct (CCIMarketBot.calculateCCI (CCIMarketBot.cciConfig st) history)
    as [[d h']|] eqn:E2; [|apply IH; auto].
  apply IH. eapply Hstep; eauto.
Qed.

Lemma cci_step_invariant sqrt st c :
  CCIMarketBot.history_bounded st
  /\ CCIMarketBot.cciConfig st = CCIMarketBot.defaultCCIConfig ->
  CCIMarketBot.history_bounded (CCIMarketBot.step sqrt st c)
  /\ CCIMarketBot.cciConfig (CCIMarketBot.step sqrt st c)
     = CCIMarketBot.defaultCCIConfig.
Proof.
  intros H. destruct c as [now md | now sym action q p]; simpl.
  - unfold CCIMarketBot.analyzeMarket. cbv zeta.
    match goal with
    | |- context [fold_left ?f ?l (?a, ?s)] =>
        pose proof
          (cci_analyze_loop now
             (fun st => CCIMarketBot.history_bounded st
                        /\ CCIMarketBot.cciConfig st
                           = CCIMarketBot.defaultCCIConfig) l) as HL;
        specialize (fun Hs => HL Hs a s);
        destruct (fold_left f l (a, s)) as [signals st2] eqn:EF
    end.
    cbn [snd] in HL. unfold CCIMarketBot.managePositions. cbn [snd].
    unfold CCIMarketBot.history_bounded in *.
    cbn [CCIMarketBot.cciConfig CCIMarketBot.priceHistory]. apply HL.
    + intros s sym history d h' [Hb Hc] Hget Hcci.
      cbn [CCIMarketBot.with_history CCIMarketBot.cciConfig
           CCIMarketBot.priceHistory].
      split; [|exact Hc].
      apply JsMap_set_Forall; auto.
      rewrite (calculateCCI_length _ _ _ _ Hcci).
      apply (JsMap_get_Forall _ _ _ _ Hb Hget).
    + destruct H as [Hb Hc].
      cbn [CCIMarketBot.with_history CCIMarketBot.cciConfig
           CCIMarketBot.priceHistory].
      split; [|exact Hc].
      apply fold_left_invariant; auto using cci_updatePriceHistory_bound.
  - unfold CCIMarketBot.updatePosition. ledger_frame H.
Qed.

(** X3. Whatever sequence of [analyzeMarket] and [updatePosition] calls
    an evaluator receives after its construction, its per-symbol
    histories stay bounded: at most 1000 observations in the momentum
    evaluator, 1200 in the DCA evaluator (which prunes in chunks) and,
    for a channel-index evaluator constructed without a configuration
    override (period 20, maPeriod 5), 35 ([period + maPeriod + 10]). *)
Theorem evaluator_histories_bounded
    (sqrt : num -> num) (cfg : BotConfig) (sch : DCATradingBot.DCASchedule)
    (now0 : Z) (momentumCalls : list MomentumTradingBot.Call)
    (dcaCalls : list DCATradingBot.Call)
    (cciCalls : list CCIMarketBot.Call) :
  Forall (fun l : list MarketData => (length l <= 1000)%nat)
    (JsMap.values
       (MomentumTradingBot.priceHistory
          (MomentumTradingBot.run sqrt momentumCalls
             (MomentumTradingBot.create cfg now0))))
  /\ Forall (fun l : list MarketData => (length l <= 1200)%nat)
       (JsMap.values
          (DCATradingBot.marketData
             (DCATradingBot.run sqrt dcaCalls
                (DCATradingBot.create cfg sch now0))))
  /\ Forall (fun l : list CCIMarketBot.CCIData => (length l <= 35)%nat)
       (JsMap.values
          (CCIMarketBot.priceHistory
             (CCIMarketBot.run sqrt cciCalls
                (CCIMarketBot.create cfg now0)))).
Proof.
  split; [|split].
  - unfold MomentumTradingBot.run. apply fold_left_invariant.
    + intros a b. apply momentum_step_history.
    + constructor.
  - unfold DCATradingBot.run. apply fold_left_invariant.
    + intros a b. apply dca_step_history.
    + constructor.
  - assert (H : CCIMarketBot.history_bounded
                  (CCIMarketBot.run sqrt cciCalls
                     (CCIMarketBot.create cfg now0))
                /\ CCIMarketBot.cciConfig
                     (CCIMarketBot.run sqrt cciCalls
                        (CCIMarketBot.create cfg now0))
                   = CCIMarketBot.defaultCCIConfig).
    { unfold CCIMarketBot.run.
      apply (fold_left_invariant
               (fun st => CCIMarketBot.history_bounded st
                          /\ CCIMarketBot.cciConfig st
                             = CCIMarketBot.defaultCCIConfig)).
      - intros a b. apply cci_step_invariant.
      - split; [constructor | reflexivity]. }
    destruct H as [H1 H2]. unfold CCIMarketBot.history_bounded in H1.
    rewrite H2 in H1. exact H1.
Qed.

Lemma validateSignal_state sqrt pow now signal positions marketData st :
  snd (RiskManager.validateSignal sqrt pow now signal positions marketData st)
  = RiskManager.updateMarketHistory marketData st.
Proof.
  unfold RiskManager.validateSignal, RiskManager.analyzeMarketConditions.
  cbv zeta.
  repeat match goal with
         | |- context [if ?b then _ else _] => destruct b; cbn [snd]; auto
         | |- context [match ?o with Some _ => _ | None => _ end] =>
             destruct o; cbn [snd]; auto
         end.
Qed.

Lemma emergencyRiskManagement_state sqrt pow now positions marketData st :
  snd (RiskManager.emergencyRiskManagement sqrt pow now positions
         marketData st)
  = RiskManager.updateMarketHistory marketData st.
Proof.
  unfold RiskManager.emergencyRiskManagement,
    RiskManager.analyzeMarketConditions.
  cbv zeta. destruct (_ >? _)%num; reflexivity.
Qed.

Lemma trimmed_length {A} (h : list A) :
  (length (if (1000 <? length h)%nat then lastn 1000 h else h) <= 1000)%nat.
Proof.
  destruct (Nat.ltb_spec 1000 (length h)) as [L|L]; [|exact L].
  rewrite lastn_length; lia.
Qed.

Lemma risk_step_bounded sqrt pow st c :
  (length (RiskManager.marketHistory st) <= 1000)%nat
  /\ (length (RiskManager.performanceHistory st) <= 1000)%nat ->
  (length (RiskManager.marketHistory (RiskManager.step sqrt pow st c))
   <= 1000)%nat
  /\ (length (RiskManager.performanceHistory
                (RiskManager.step sqrt pow st c)) <= 1000)%nat.
Proof.
  intros [Hm Hp]. destruct c; cbn [RiskManager.step].
  - rewrite validateSignal_state.
    cbn [RiskManager.updateMarketHistory RiskManager.marketHistory
         RiskManager.performanceHistory].
    split; [apply trimmed_length | exact Hp].
  - cbn [RiskManager.analyzeMarketConditions snd
         RiskManager.updateMarketHistory RiskManager.marketHistory
         RiskManager.performanceHistory].
    split; [apply trimmed_length | exact Hp].
  - rewrite emergencyRiskManagement_state.
    cbn [RiskManager.updateMarketHistory RiskManager.marketHistory
         RiskManager.performanceHistory].
    split; [apply trimmed_length | exact Hp].
  - cbn [RiskManager.updatePerformanceHistory RiskManager.marketHistory
         RiskManager.performanceHistory].
    split; [exact Hm | apply trimmed_length].
  - cbn [RiskManager.updateRiskLimits RiskManager.marketHistory
         RiskManager.performanceHistory]. auto.
Qed.

(** X4. Whatever sequence of calls a risk manager receives after its
    construction ([validateSignal], [analyzeMarketConditions],
    [emergencyRiskManagement], [updatePerformanceHistory],
    [updateRiskLimits]), its market history and its performance history
    each hold at most 1000 entries. *)
Theorem risk_histories_bounded
    (sqrt : num -> num) (pow : num -> num -> num)
    (limits : RiskManager.RiskLimits) (calls : list RiskManager.Call) :
  let st := RiskManager.run sqrt pow calls (RiskManager.create limits) in
  (length (RiskManager.marketHistory st) <= 1000)%nat
  /\ (length (RiskManager.performanceHistory st) <= 1000)%nat.
Proof.
  cbv zeta. unfold RiskManager.run.
  apply (fold_left_invariant
           (fun st =>
              (length (RiskManager.marketHistory st) <= 1000)%nat
              /\ (length (RiskManager.performanceHistory st) <= 1000)%nat)).
  - intros a b. apply risk_step_bounded.
  - simpl. lia.
Qed.

(* ================================================================== *)
(** * Proofs: the momentum evaluator *)
(* ================================================================== *)

Lemma calculateMomentumScores_In sqrt st md a :
  In a (MomentumTradingBot.calculateMomentumScores sqrt st md) ->
  In (MomentumTradingBot.sc_data a) md
  /\ MomentumTradingBot.sc_symbol a
     = md_symbol (MomentumTradingBot.sc_data a).
Proof.
  unfold MomentumTradingBot.calculateMomentumScores. rewrite in_map_iff.
  intros [d [<- Hd]]. simpl. auto.
Qed.

(** X5. With no open position, a call to the momentum evaluator's
    [analyzeMarket] returns at most [maxPositions] signals; each is a
    BUY of an enabled symbol quoted in the call, at the quoted price, for
    the quantity [allocation / maxPositions / price]. *)
Theorem momentum_empty_book_buys_top_assets
    (sqrt : num -> num) (now : Z) (marketData : list MarketData)
    (st : MomentumTradingBot.State) :
  MomentumTradingBot.positions st = [] ->
  let signals :=
    fst (MomentumTradingBot.analyzeMarket sqrt now marketData st) in
  (length signals <= cfg_maxPositions (MomentumTradingBot.config st))%nat
  /\ Forall
       (fun s =>
          sig_action s = BUY
          /\ includes (sig_symbol s)
               (cfg_enabledAssets (MomentumTradingBot.config st)) = true
          /\ exists d,
               In d marketData /\ md_symbol d = sig_symbol s
               /\ sig_price s = md_price d
               /\ sig_quantity s
                  = Some (cfg_allocation (MomentumTradingBot.config st)
                          / of_nat (cfg_maxPositions
                                      (MomentumTradingBot.config st))
                          / md_price d)%num)
       signals.
Proof.
  intros Hp. cbv zeta. unfold MomentumTradingBot.analyzeMarket. cbv zeta.
  cbn [MomentumTradingBot.lastRebalance MomentumTradingBot.config
       MomentumTradingBot.positions MomentumTradingBot.priceHistory].
  destruct (_ <? _)%Z; cbn [fst]; [split; [simpl; lia | constructor]|].
  unfold MomentumTradingBot.generateRebalancingSignals,
    MomentumTradingBot.checkStopLossTriggers,
    MomentumTradingBot.checkTakeProfitTriggers.
  cbv zeta.
  cbn [MomentumTradingBot.lastRebalance MomentumTradingBot.config
       MomentumTradingBot.positions MomentumTradingBot.priceHistory].
  rewrite Hp. cbn [JsMap.keys map flat_map app JsMap.get].
  replace (if opt_truthy (cfg_takeProfit (MomentumTradingBot.config st))
           then if negb (opt_truthy
                           (cfg_takeProfit (MomentumTradingBot.config st)))
                then [] else []
           else []) with (@nil TradingSignal)
    by (destruct (opt_truthy _); reflexivity).
  rewrite !app_nil_r.
  match goal with
  | |- context [flat_map ?f ?l] => set (g := f); set (top := l)
  end.
  assert (E : flat_map g top
              = map (fun a => hd {| sig_action := HOLD; sig_symbol := "";
                                    sig_confidence := NaN; sig_price := NaN;
                                    sig_quantity := None; sig_reason := "";
                                    sig_timestamp := 0;
                                    sig_riskLevel := LOW |} (g a)) top).
  { induction top as [|a top IH]; simpl; [reflexivity|]. now rewrite IH. }
  rewrite E. split.
  - rewrite length_map. subst top. rewrite length_firstn. lia.
  - apply Forall_forall. intros s Hs. apply in_map_iff in Hs.
    destruct Hs as [a [<- Ha]]. subst g.
    cbn [hd sig_action sig_symbol sig_price sig_quantity].
    subst top. apply firstn_incl in Ha. apply filter_In in Ha.
    destruct Ha as [Ha Hen].
    apply sort_by_In in Ha. apply calculateMomentumScores_In in Ha.
    destruct Ha as [Hd Hs]. cbn [MomentumTradingBot.config] in Hen.
    split; [reflexivity|]. split; [exact Hen|].
    exists (MomentumTradingBot.sc_data a). repeat split; auto.
Qed.

(** A fresh evaluator shown one BTC quote. *)
Lemma momentum_empty_book_buys_top_assets_witness :
  let signals :=
    fst (MomentumTradingBot.analyzeMarket Inputs.sqrt_floor Inputs.t0
           [Inputs.quote "BTC" 100 1000000 Inputs.t0]
           (MomentumTradingBot.create (AlgorithmTester.testConfig momentum)
              Inputs.t0)) in
  length signals = 1%nat
  /\ (length signals <= 5)%nat
  /\ Forall (fun s => sig_action s = BUY) signals.
Proof.
  cbv zeta. split; [vm_compute; reflexivity|].
  destruct (momentum_empty_book_buys_top_assets Inputs.sqrt_floor Inputs.t0
              [Inputs.quote "BTC" 100 1000000 Inputs.t0]
              (MomentumTradingBot.create (AlgorithmTester.testConfig momentum)
                 Inputs.t0) eq_refl) as [Hlen Hall].
  split; [exact Hlen|].
  eapply Forall_impl; [|exact Hall]. intros s Hs. exact (proj1 Hs).
Defined.

Lemma num_abs_ge (x s : num) :
  (x >=? s)%num = true \/ (x <=? - s)%num = true ->
  (num_abs x >=? s)%num = true.
Proof.
  unfold num_geb, num_leb.
  destruct x as [x| | |], s as [s| | |]; simpl; intros [H|H];
    try discriminate; try reflexivity.
  - qprop; qgoal; pose proof (Qle_Qabs x); lra.
  - qprop; qgoal. pose proof (Qle_Qabs (- x)) as Ha.
    rewrite Qabs_opp in Ha. lra.
Qed.

(** X6. The momentum evaluator's stop-loss looks at the size of the
    move, not at its direction: on a call that passes the rebalance
    gate, a position whose P&L percentage is at least [+stopLoss] is
    sold in full with the reason "Stop-loss triggered" and confidence
    100, exactly like one at or below [-stopLoss]. *)
Theorem momentum_stop_loss_ignores_direction
    (sqrt : num -> num) (now : Z) (marketData : list MarketData)
    (st : MomentumTradingBot.State) (symbol : string) (position : Position) :
  (now - MomentumTradingBot.lastRebalance st <? 15 * 60 * 1000)%Z = false ->
  In (symbol, position) (MomentumTradingBot.positions st) ->
  (pos_pnlPercentage position
   >=? cfg_stopLoss (MomentumTradingBot.config st))%num = true
  \/ (pos_pnlPercentage position
      <=? - cfg_stopLoss (MomentumTradingBot.config st))%num = true ->
  In {| sig_action := SELL; sig_symbol := symbol;
        sig_confidence := of_Z 100;
        sig_price := pos_currentPrice position;
        sig_quantity := Some (pos_quantity position);
        sig_reason := "Stop-loss triggered";
        sig_timestamp := now; sig_riskLevel := HIGH |}
     (fst (MomentumTradingBot.analyzeMarket sqrt now marketData st)).
Proof.
  intros Hgate Hin H. unfold MomentumTradingBot.analyzeMarket. cbv zeta.
  cbn [MomentumTradingBot.lastRebalance]. rewrite Hgate. cbn [fst].
  apply in_or_app. right. apply in_or_app. left.
  unfold MomentumTradingBot.checkStopLossTriggers.
  cbn [MomentumTradingBot.positions MomentumTradingBot.config].
  apply in_flat_map. exists (symbol, position). split; [exact Hin|].
  cbv beta iota zeta. rewrite (num_abs_ge _ _ H). left. reflexivity.
Qed.

(** A position bought at 100 and quoted at 110 (a gain of 10% against a
    stop-loss of 5%) is stopped out. *)
Lemma momentum_stop_loss_ignores_direction_witness :
  exists s,
    In s (fst (MomentumTradingBot.analyzeMarket Inputs.sqrt_floor
                 (Inputs.t0 + 3600000)
                 [Inputs.quote "BTC" 110 1000000 (Inputs.t0 + 3600000)]
                 Inputs.gainingMomentumBot))
    /\ sig_action s = SELL /\ sig_symbol s = "BTC"%string
    /\ sig_reason s = "Stop-loss triggered"%string
    /\ sig_price s = of_Z 110.
Proof.
  eexists. split.
  - eapply (momentum_stop_loss_ignores_direction Inputs.sqrt_floor
              (Inputs.t0 + 3600000)
              [Inputs.quote "BTC" 110 1000000 (Inputs.t0 + 3600000)]
              Inputs.gainingMomentumBot "BTC").
    + vm_compute. reflexivity.
    + left. reflexivity.
    + left. vm_compute. reflexivity.
  - repeat split.
Defined.




(* ================================================================== *)
(** * Proofs: the DCA evaluator *)
(* ================================================================== *)

Lemma clamp_between (b m : Q) :
  0 <= b ->
  exists r, num_max (Fin b * dec 5 10)%num
                    (num_min (Fin b * of_Z 2)%num (Fin b * Fin m)%num)
            = Fin r
            /\ b * (5 # 10) <= r /\ r <= b * 2.
Proof.
  intros Hb. unfold dec, of_Z, inject_Z. simpl.
  num_crush; eexists; (split; [reflexivity|]); split; try lra.
Qed.

(** X8. For a base amount [b >= 0], the amount [applyDynamicSizing]
    returns is a finite number between [0.5 * b] and [2 * b], whatever
    the volatility, the price move, the volume ratio and the risk
    profile. *)
Theorem applyDynamicSizing_range
    (sqrt : num -> num) (st : DCATradingBot.State) (b : Q)
    (assetData : MarketData) (position : option DCATradingBot.DCAPosition) :
  0 <= b ->
  exists r,
    DCATradingBot.applyDynamicSizing sqrt st (Fin b) assetData position
    = Fin r
    /\ b * (5 # 10) <= r /\ r <= b * 2.
Proof.
  intros Hb. unfold DCATradingBot.applyDynamicSizing. cbv zeta.
  destruct position as [p|];
    destruct (cfg_riskLevel (DCATradingBot.config st));
    repeat match goal with
           | |- context [if ?c then _ else _] => destruct c
           end;
    match goal with
    | |- context [num_min _ (num_mul (Fin b) ?M)] =>
        let v := eval vm_compute in M in change M with v
    end;
    apply clamp_between; exact Hb.
Qed.

(** A first purchase of 100 on a fresh evaluator. *)
Lemma applyDynamicSizing_range_witness :
  exists r,
    DCATradingBot.applyDynamicSizing Inputs.sqrt_floor Inputs.dcaBot
      (Fin 100) (Inputs.quote "BTC" 100 1000000 Inputs.t0) None
    = Fin r
    /\ 100 * (5 # 10) <= r /\ r <= 100 * 2.
Proof.
  apply (applyDynamicSizing_range Inputs.sqrt_floor Inputs.dcaBot 100
           (Inputs.quote "BTC" 100 1000000 Inputs.t0) None).
  unfold Qle. simpl. lia.
Defined.

(** X9. Outside its schedule (before [startDate], or after a non-zero
    [endDate]) the DCA evaluator never buys: every signal of
    [analyzeMarket] is a SELL (an emergency stop-loss or a
    take-profit). *)
Theorem dca_outside_schedule_never_buys
    (sqrt : num -> num) (now : Z) (data : list MarketData)
    (st : DCATradingBot.State) :
  (now < DCATradingBot.startDate (DCATradingBot.schedule st))%Z
  \/ (exists e,
        DCATradingBot.endDate (DCATradingBot.schedule st) = Some e
        /\ e <> 0%Z /\ (e < now)%Z) ->
  Forall (fun s => sig_action s = SELL)
         (fst (DCATradingBot.analyzeMarket sqrt now data st)).
Proof.
  intros H. unfold DCATradingBot.analyzeMarket. cbv zeta. cbn [fst].
  apply Forall_flat_map. intros sym _.
  cbn [DCATradingBot.config DCATradingBot.positions].
  destruct (find_asset sym data) as [assetData|]; [|constructor].
  assert (E : forall pos,
            DCATradingBot.shouldMakePurchase
              {| DCATradingBot.config := DCATradingBot.config st;
                 DCATradingBot.schedule := DCATradingBot.schedule st;
                 DCATradingBot.positions := DCATradingBot.positions st;
                 DCATradingBot.performance := DCATradingBot.performance st;
                 DCATradingBot.marketData :=
                   fold_left DCATradingBot.recordObservation data
                     (DCATradingBot.marketData st) |}
              pos now = false).
  { intros pos. unfold DCATradingBot.shouldMakePurchase. cbv zeta.
    cbn [DCATradingBot.schedule].
    destruct H as [H | [e [He [Hne Hlt]]]].
    - apply Z.ltb_lt in H. now rewrite H.
    - destruct (_ <? _)%Z; [reflexivity|]. rewrite He.
      apply Z.eqb_neq in Hne. apply Z.ltb_lt in Hlt. now rewrite Hne, Hlt. }
  rewrite E. cbn [app].
  apply Forall_app. split.
  - destruct (JsMap.get sym (DCATradingBot.positions st)) as [p|];
      [|constructor].
    destruct (_ >? _)%num; [|constructor].
    unfold DCATradingBot.checkEmergencyStopLoss.
    destruct (_ <=? _)%num; simpl; repeat constructor.
  - destruct (JsMap.get sym (DCATradingBot.positions st)) as [p|];
      [|constructor].
    destruct (_ && _); repeat constructor.
Qed.

(** An evaluator whose schedule starts a day later is shown a quote. *)
Lemma dca_outside_schedule_never_buys_witness :
  (Inputs.t0
   < DCATradingBot.startDate (DCATradingBot.schedule Inputs.lateDCABot))%Z
  /\ Forall (fun s => sig_action s = SELL)
       (fst (DCATradingBot.analyzeMarket Inputs.sqrt_floor Inputs.t0
               [Inputs.quote "BTC" 100 1000000 Inputs.t0]
               Inputs.lateDCABot)).
Proof.
  split; [vm_compute; reflexivity|].
  apply (dca_outside_schedule_never_buys Inputs.sqrt_floor Inputs.t0
           [Inputs.quote "BTC" 100 1000000 Inputs.t0] Inputs.lateDCABot).
  left. vm_compute. reflexivity.
Defined.



(* ================================================================== *)
(** * Proofs: the staking evaluator *)
(* ================================================================== *)


Lemma self_relative_change (x s : num) :
  (s <=? of_Z 0)%num = false ->
  ((x - x) / x * of_Z 100 <=? - s)%num = false.
Proof.
  unfold num_leb, num_sub, of_Z, inject_Z.
  destruct x as [x| | |], s as [s| | |]; simpl; intros H;
    try discriminate; try reflexivity.
  - destruct (Qeq_bool x 0) eqn:E.
    + assert (Z0 : Qsign (x + - x) = Eq) by (apply Qsign_Eq; ring).
      rewrite Z0. reflexivity.
    + simpl. qprop. apply orb_false_iff.
      assert (E0 : (x + - x) / x * (100 # 1) == 0) by (field; auto).
      split.
      * qgoal. lra.
      * destruct (Qeq_bool _ _) eqn:E2; auto. qprop. lra.
  - destruct (Qeq_bool x 0) eqn:E.
    + assert (Z0 : Qsign (x + - x) = Eq) by (apply Qsign_Eq; ring).
      rewrite Z0. reflexivity.
    + reflexivity.
  - destruct (Qeq_bool x 0) eqn:E.
    + assert (Z0 : Qsign (x + - x) = Eq) by (apply Qsign_Eq; ring).
      rewrite Z0. reflexivity.
    + reflexivity.
Qed.

(** X12. [checkEmergencyUnstaking] never emits a signal: it computes the
    invested amount from the current price, as it does the current
    value, so the P&L percentage it compares with [-stopLoss] is 0 (or
    [NaN]) for every position, and a positive stop-loss is never
    reached. *)
Theorem checkEmergencyUnstaking_never_fires
    (now : Z) (st : SmartStakingBot.State) (marketData : list MarketData) :
  SmartStakingBot.checkEmergencyUnstaking now st marketData = [].
Proof.
  unfold SmartStakingBot.checkEmergencyUnstaking.
  destruct (_ <=? _)%num eqn:E; [reflexivity|].
  induction (SmartStakingBot.positions st) as [|[key position] ps IH];
    [reflexivity|].
  cbn [flat_map]. rewrite IH, app_nil_r.
  destruct (negb _); [reflexivity|].
  destruct (find_asset _ _) as [assetData|]; [|reflexivity].
  cbv zeta. rewrite self_relative_change by exact E. reflexivity.
Qed.

Lemma manageExistingPositions_acc now md
    (ps : JsMap.t SmartStakingBot.StakingPosition)
    (acc : list TradingSignal)
    (done : JsMap.t SmartStakingBot.StakingPosition) :
  fold_left
    (fun '(signals, done) '(key, position) =>
       let '(s, position1) :=
         SmartStakingBot.managePosition now md position in
       (signals ++ s, done ++ [(key, position1)]))
    ps (acc, done)
  = (acc ++ flat_map
              (fun kp => fst (SmartStakingBot.managePosition now md (snd kp)))
              ps,
     done ++ map
               (fun kp =>
                  (fst kp,
                   snd (SmartStakingBot.managePosition now md (snd kp))))
               ps).
Proof.
  revert acc done. induction ps as [|[key p] ps IH]; intros acc done; simpl.
  - now rewrite !app_nil_r.
  - destruct (SmartStakingBot.managePosition now md p) as [s p1] eqn:E.
    rewrite IH. simpl. now rewrite <- !app_assoc.
Qed.

Lemma manageExistingPositions_spec now md ps :
  SmartStakingBot.manageExistingPositions now md ps
  = (flat_map
       (fun kp => fst (SmartStakingBot.managePosition now md (snd kp))) ps,
     map (fun kp =>
            (fst kp, snd (SmartStakingBot.managePosition now md (snd kp))))
         ps).
Proof.
  unfold SmartStakingBot.manageExistingPositions.
  apply manageExistingPositions_acc.
Qed.

Lemma staking_positions_updatePerformance now st :
  SmartStakingBot.positions (SmartStakingBot.updatePerformance now st)
  = SmartStakingBot.positions st.
Proof. reflexivity. Qed.



(** X14. In the staking ledger a BUY followed by a SELL under the same
    key, starting with no position under that key, leaves the positions
    as they were: the SELL closes the whole position whatever its
    quantity and price, and a BUY for a symbol without a known
    opportunity had recorded nothing in the first place. *)
Theorem staking_buy_then_sell_restores_ledger
    (now1 now2 : Z) (sym : string) (q p q' p' : num) (pf : option string)
    (st : SmartStakingBot.State) :
  JsMap.get (SmartStakingBot.ledger_key sym pf)
            (SmartStakingBot.positions st) = None ->
  SmartStakingBot.positions
    (SmartStakingBot.updatePosition now2 sym SELL q' p' pf
       (SmartStakingBot.updatePosition now1 sym BUY q p pf st))
  = SmartStakingBot.positions st.
Proof.
  intros Hnone. unfold SmartStakingBot.updatePosition at 2. cbv zeta.
  rewrite Hnone.
  destruct (SmartStakingBot.findBestOpportunity st sym) as [o|].
  - unfold SmartStakingBot.updatePosition. cbv zeta.
    rewrite !staking_positions_updatePerformance.
    cbn [SmartStakingBot.with_positions SmartStakingBot.positions].
    rewrite JsMap_get_set_same.
    cbn [SmartStakingBot.with_positions SmartStakingBot.positions].
    apply JsMap_delete_set_fresh. exact Hnone.
  - unfold SmartStakingBot.updatePosition. cbv zeta. rewrite Hnone.
    apply staking_positions_updatePerformance.
Qed.

(** One ETH staked on Lido and sold again. *)
Lemma staking_buy_then_sell_restores_ledger_witness :
  SmartStakingBot.positions
    (SmartStakingBot.updatePosition (Inputs.t0 + 1000) "ETH" SELL
       (of_Z 1) (of_Z 2100) (Some "Lido"%string)
       (SmartStakingBot.updatePosition Inputs.t0 "ETH" BUY
          (of_Z 1) (of_Z 2000) (Some "Lido"%string) Inputs.stakingBot))
  = [].
Proof.
  apply (staking_buy_then_sell_restores_ledger Inputs.t0 (Inputs.t0 + 1000)
           "ETH" (of_Z 1) (of_Z 2000) (of_Z 1) (of_Z 2100) (Some "Lido"%string)
           Inputs.stakingBot).
  reflexivity.
Defined.

(** X29. A BUY reported to the staking ledger for a symbol for which no
    opportunity is known (the symbol was never quoted, or its list is
    empty) is dropped: the state stays exactly as it was, positions and
    performance record included, because the call returns before
    [updatePerformance] runs. *)
Theorem staking_buy_without_opportunity_is_ignored
    (now : Z) (sym : string) (q p : num) (pf : option string)
    (st : SmartStakingBot.State) :
  JsMap.get sym (SmartStakingBot.opportunities st) = None
  \/ JsMap.get sym (SmartStakingBot.opportunities st) = Some [] ->
  SmartStakingBot.findBestOpportunity st sym = None
  /\ SmartStakingBot.updatePosition now sym BUY q p pf st = st.
Proof.
  intros H.
  unfold SmartStakingBot.updatePosition, SmartStakingBot.findBestOpportunity.
  cbv zeta. destruct H as [-> | ->]; split; reflexivity.
Qed.

(** A BUY of ETH reported to an evaluator that has not seen a quote
    yet. *)
Lemma staking_buy_without_opportunity_is_ignored_witness :
  SmartStakingBot.updatePosition (Inputs.t0 + 1000) "ETH" BUY (of_Z 1)
    (of_Z 2000) None (SmartStakingBot.create Inputs.stakingConfig Inputs.t0)
  = SmartStakingBot.create Inputs.stakingConfig Inputs.t0.
Proof.
  apply (staking_buy_without_opportunity_is_ignored (Inputs.t0 + 1000) "ETH"
           (of_Z 1) (of_Z 2000) None
           (SmartStakingBot.create Inputs.stakingConfig Inputs.t0)).
  left. reflexivity.
Defined.

Lemma num_gtb_false_le (x y : num) :
  is_nan x = false -> is_nan y = false ->
  (x >? y)%num = false -> (x <=? y)%num = true.
Proof.
  unfold num_gtb, num_leb.
  destruct x as [x| | |], y as [y| | |]; simpl; intros Hx Hy H;
    try discriminate; try reflexivity.
  qprop. qgoal. exact H.
Qed.

Lemma num_gtb_le (x y : num) : (x >? y)%num = true -> (y <=? x)%num = true.
Proof. unfold num_gtb, num_leb. intros ->. reflexivity. Qed.

Lemma num_leb_refl (x : num) : is_nan x = false -> (x <=? x)%num = true.
Proof.
  unfold num_leb. destruct x as [x| | |]; simpl; intros H;
    try discriminate; try reflexivity.
  qgoal. lra.
Qed.

Lemma best_fold (score : SmartStakingBot.StakingOpportunity -> num)
    rest first :
  (forall o, In o (first :: rest) -> is_nan (score o) = false) ->
  let best :=
    fold_left (fun best current =>
                 if (score current >? score best)%num then current else best)
              rest first in
  In best (first :: rest)
  /\ forall o, In o (first :: rest) -> (score o <=? score best)%num = true.
Proof.
  revert first. induction rest as [|c rest IH]; intros first Hn; cbv zeta.
  - simpl. split; [now left|]. intros o [<-|[]].
    apply num_leb_refl. apply Hn. now left.
  - cbn [fold_left].
    destruct (score c >? score first)%num eqn:E.
    + destruct (IH c) as [Hin Hmax].
      { intros o Ho. apply Hn. right. exact Ho. }
      cbv zeta in Hin, Hmax. split.
      * right. exact Hin.
      * intros o [<-|Ho]; [|apply Hmax; exact Ho].
        apply num_leb_trans with (y := score c).
        -- apply num_gtb_le. exact E.
        -- apply Hmax. now left.
    + destruct (IH first) as [Hin Hmax].
      { intros o [<-|Ho]; apply Hn; [now left | right; now right]. }
      cbv zeta in Hin, Hmax. split.
      * destruct Hin as [<-|Hin]; [now left | right; now right].
      * intros o [<-|[<-|Ho]].
        -- apply Hmax. now left.
        -- apply num_leb_trans with (y := score first).
           ++ apply num_gtb_false_le; auto; apply Hn;
                [right; now left | now left].
           ++ apply Hmax. now left.
        -- apply Hmax. now right.
Qed.

(** X15. For a symbol with a non-empty list of opportunities, none of
    which scores [NaN], [findBestOpportunity] returns a member of the
    list whose score (computed, as the source does, without market data)
    no other member exceeds. *)
Theorem findBestOpportunity_is_best
    (st : SmartStakingBot.State) (sym : string)
    (opps : list SmartStakingBot.StakingOpportunity) :
  JsMap.get sym (SmartStakingBot.opportunities st) = Some opps ->
  opps <> [] ->
  (forall o, In o opps ->
             is_nan (SmartStakingBot.calculateStakingScore o []) = false) ->
  exists best,
    SmartStakingBot.findBestOpportunity st sym = Some best
    /\ In best opps
    /\ forall o, In o opps ->
         (SmartStakingBot.calculateStakingScore o []
          <=? SmartStakingBot.calculateStakingScore best [])%num = true.
Proof.
  intros Hget Hne Hn. unfold SmartStakingBot.findBestOpportunity.
  rewrite Hget.
  destruct opps as [|first rest]; [contradiction|].
  eexists. split; [reflexivity|].
  apply (best_fold (fun o => SmartStakingBot.calculateStakingScore o [])
           rest first Hn).
Qed.

(** The three SOL opportunities of [Inputs.stakingBot]. *)
Lemma findBestOpportunity_is_best_witness :
  exists best,
    SmartStakingBot.findBestOpportunity Inputs.stakingBot "SOL" = Some best
    /\ SmartStakingBot.symbol best = "SOL"%string.
Proof.
  destruct (JsMap.get "SOL" (SmartStakingBot.opportunities Inputs.stakingBot))
    as [opps|] eqn:E; [|discriminate E].
  destruct (findBestOpportunity_is_best Inputs.stakingBot "SOL" opps E)
    as [best [H1 [H2 _]]].
  - vm_compute in E. injection E as <-. discriminate.
  - vm_compute in E. injection E as <-.
    intros o Ho. simpl in Ho.
    repeat destruct Ho as [<-|Ho]; try (vm_compute; reflexivity).
    destruct Ho.
  - exists best. split; [exact H1|].
    vm_compute in E. injection E as <-. simpl in H2.
    repeat destruct H2 as [<-|H2]; try reflexivity. destruct H2.
Defined.

Lemma generated_finite_terms now asset pf :
  SmartStakingBot.finite_terms
    (SmartStakingBot.generateStakingOpportunity now asset pf).
Proof.
  unfold SmartStakingBot.finite_terms,
    SmartStakingBot.generateStakingOpportunity.
  cbv zeta.
  cbn [SmartStakingBot.apy SmartStakingBot.fees SmartStakingBot.lockPeriod].
  apply andb_true_iff. split; [apply andb_true_iff; split|].
  - unfold SmartStakingBot.getBaseAPY, SmartStakingBot.getPlatformMultiplier,
      SmartStakingBot.getRiskAdjustment, SmartStakingBot.lookup.
    cbn [JsMap.get]. by_table; vm_compute; reflexivity.
  - unfold SmartStakingBot.getFees, SmartStakingBot.lookup.
    cbn [JsMap.get]. by_table; vm_compute; reflexivity.
  - unfold SmartStakingBot.getLockPeriod, SmartStakingBot.lookup2,
      SmartStakingBot.lookup.
    cbn [JsMap.get]. by_table; cbn [JsMap.get]; by_table;
      vm_compute; reflexivity.
Qed.

Lemma is_finite_mul (a b : num) :
  is_finite a = true -> is_finite b = true -> is_finite (a * b)%num = true.
Proof. destruct a, b; simpl; intros; try discriminate; auto. Qed.

Lemma is_finite_sub (a b : num) :
  is_finite a = true -> is_finite b = true -> is_finite (a - b)%num = true.
Proof. destruct a, b; simpl; intros; try discriminate; auto. Qed.

Lemma is_finite_div_pos (a : num) (z : Z) :
  is_finite a = true -> (0 < z)%Z -> is_finite (a / of_Z z)%num = true.
Proof.
  destruct a as [a| | |]; simpl; intros H Hz; try discriminate.
  assert (E : Qeq_bool (inject_Z z) 0 = false).
  { destruct (Qeq_bool (inject_Z z) 0) eqn:E; auto. apply Qeq_bool_iff in E.
    unfold Qeq, inject_Z in E. simpl in E. lia. }
  rewrite E. reflexivity.
Qed.

Lemma is_finite_max (a b : num) :
  is_finite a = true -> is_finite b = true -> is_finite (num_max a b) = true.
Proof.
  destruct a, b; simpl; intros; try discriminate; auto.
  all: destruct (Qltb _ _); auto.
Qed.

Lemma num_max_zero (x : num) :
  is_finite x = true -> exists s, num_max (of_Z 0) x = Fin s /\ 0 <= s.
Proof.
  destruct x as [x| | |]; try discriminate. intros _.
  unfold of_Z, inject_Z. simpl. destruct (Qltb (0 # 1) x) eqn:E.
  - exists x. split; [reflexivity|]. qprop. lra.
  - exists (0 # 1). split; [reflexivity|]. lra.
Qed.

Ltac finite :=
  repeat first
    [ assumption
    | reflexivity
    | apply is_finite_mul
    | apply is_finite_sub
    | apply is_finite_max
    | apply is_finite_div_pos; [|lia] ].

Lemma score_finite (o : SmartStakingBot.StakingOpportunity)
    (md : list MarketData) :
  SmartStakingBot.finite_terms o ->
  exists s, SmartStakingBot.calculateStakingScore o md = Fin s /\ 0 <= s.
Proof.
  unfold SmartStakingBot.finite_terms. intros H.
  apply andb_true_iff in H. destruct H as [H Hl].
  apply andb_true_iff in H. destruct H as [Ha Hf].
  unfold SmartStakingBot.calculateStakingScore. cbv zeta.
  apply num_max_zero.
  destruct (SmartStakingBot.riskLevel o), (SmartStakingBot.liquidity o),
    (SmartStakingBot.compoundFrequency o);
    destruct (find_asset (SmartStakingBot.symbol o) md) as [d|];
    repeat match goal with
           | |- context [if ?c then _ else _] => destruct c
           end;
    finite.
Qed.

Lemma allocation_origin (T : num)
    (opps : list SmartStakingBot.ScoredOpportunity) :
  forall allocs r a,
    In a (fst (fold_left (SmartStakingBot.allocateOne T) opps (allocs, r))) ->
    In a allocs
    \/ exists o, In o opps
                 /\ SmartStakingBot.al_priority a
                    = num_round (SmartStakingBot.so_score o).
Proof.
  induction opps as [|o opps IH]; intros allocs r a Ha; [now left|].
  cbn [fold_left] in Ha. unfold SmartStakingBot.allocateOne at 2 in Ha.
  destruct (r <=? of_Z 0)%num.
  { destruct (IH _ _ _ Ha) as [?|[o' [? ?]]]; [now left|].
    right. exists o'. split; [now right | assumption]. }
  cbv zeta in Ha.
  destruct (_ >=? _)%num.
  - destruct (IH _ _ _ Ha) as [Hin|[o' [? ?]]].
    + apply in_app_or in Hin. destruct Hin as [?|[<-|[]]]; [now left|].
      right. exists o. split; [now left | reflexivity].
    + right. exists o'. split; [now right | assumption].
  - destruct (IH _ _ _ Ha) as [?|[o' [? ?]]]; [now left|].
    right. exists o'. split; [now right | assumption].
Qed.

Lemma confidence_from_priority
    (allocation : SmartStakingBot.StakingAllocation) (s : Q) :
  SmartStakingBot.al_priority allocation = num_round (Fin s) ->
  0 <= s ->
  let c := SmartStakingBot.calculateStakingConfidence allocation in
  (of_Z 70 <=? c)%num = true /\ (c <=? of_Z 100)%num = true.
Proof.
  intros Hp Hs. cbv zeta. unfold SmartStakingBot.calculateStakingConfidence.
  cbv zeta. rewrite Hp. cbn [num_round].
  assert (Hz : (0 <= Qfloor (s + (1 # 2)))%Z).
  { apply Qfloor_resp_le with (x := 0) in Hs.
    change (Qfloor 0) with 0%Z in Hs.
    assert (H : s <= s + (1 # 2)) by lra.
    apply Qfloor_resp_le in H. lia. }
  set (z := Qfloor (s + (1 # 2))) in *.
  assert (Hq : 0 <= inject_Z z).
  { unfold Qle, inject_Z. simpl. lia. }
  change (of_Z z) with (Fin (inject_Z z)).
  set (zq := inject_Z z) in *. clearbody zq. clear Hz z.
  repeat match goal with
         | |- context [if ?c then _ else _] => destruct c
         end;
    unfold num_leb, of_Z, inject_Z; simpl; split; num_crush.
Qed.

Lemma updateStakingOpportunities_finite now md opps :
  Forall (Forall SmartStakingBot.finite_terms) (JsMap.values opps) ->
  Forall (Forall SmartStakingBot.finite_terms)
         (JsMap.values
            (SmartStakingBot.updateStakingOpportunities now md opps)).
Proof.
  intros H. unfold SmartStakingBot.updateStakingOpportunities.
  apply fold_left_invariant; [|exact H].
  intros m asset Hm. apply JsMap_set_Forall; [exact Hm|].
  apply Forall_forall. intros o Ho. apply firstn_incl in Ho.
  apply in_map_iff in Ho. destruct Ho as [pf [<- _]].
  apply generated_finite_terms.
Qed.

Lemma staking_step_finite st c :
  SmartStakingBot.finite_book st ->
  SmartStakingBot.finite_book (SmartStakingBot.step st c).
Proof.
  unfold SmartStakingBot.finite_book. intros H.
  destruct c as [now md | now sym action q p pf]; simpl.
  - unfold SmartStakingBot.analyzeMarket. cbv zeta.
    destruct (SmartStakingBot.manageExistingPositions _ _ _) as [ms ps].
    cbn [snd SmartStakingBot.opportunities].
    apply updateStakingOpportunities_finite. exact H.
  - unfold SmartStakingBot.updatePosition. cbv zeta. ledger_frame H.
Qed.

Lemma staking_signals_range now md st :
  SmartStakingBot.finite_book st ->
  Forall (fun s => (of_Z 70 <=? sig_confidence s)%num = true
                   /\ (sig_confidence s <=? of_Z 100)%num = true)
         (fst (SmartStakingBot.analyzeMarket now md st)).
Proof.
  intros H. unfold SmartStakingBot.analyzeMarket. cbv zeta.
  rewrite manageExistingPositions_spec.
  cbn [fst SmartStakingBot.positions SmartStakingBot.config].
  apply Forall_app. split; [|apply Forall_app; split].
  - destruct (_ <? _)%Z; [|constructor].
    unfold SmartStakingBot.optimizeStakingAllocation.
    apply Forall_flat_map. intros a Ha.
    assert (Hc : (of_Z 70 <=? SmartStakingBot.calculateStakingConfidence a)%num
                 = true
                 /\ (SmartStakingBot.calculateStakingConfidence a
                     <=? of_Z 100)%num = true).
    { unfold SmartStakingBot.calculateOptimalAllocations in Ha.
      cbv zeta in Ha.
      apply allocation_origin in Ha. destruct Ha as [[]|[o [Ho Hp]]].
      apply sort_by_In in Ho.
      unfold SmartStakingBot.scoreOpportunities in Ho.
      apply in_flat_map in Ho. destruct Ho as [l [Hl Ho]].
      apply in_flat_map in Ho. destruct Ho as [o' [Ho' Ho]].
      destruct (includes _ _); [|destruct Ho].
      destruct Ho as [<-|[]].
      cbn [SmartStakingBot.so_opp SmartStakingBot.so_score
           SmartStakingBot.opportunities] in *.
      pose proof (updateStakingOpportunities_finite now md _ H) as HF.
      rewrite Forall_forall in HF. specialize (HF l Hl).
      rewrite Forall_forall in HF. specialize (HF _ Ho').
      destruct (score_finite o' md HF) as [sc [Esc Hsc]].
      rewrite Esc in Hp. apply (confidence_from_priority a sc Hp Hsc). }
    cbn [SmartStakingBot.positions].
    destruct (JsMap.get _ _) as [cur|].
    + destruct (_ >? _)%num; repeat constructor.
    + repeat constructor; apply Hc.
  - apply Forall_flat_map. intros [key p] _. cbn [snd].
    unfold SmartStakingBot.managePosition. cbv zeta. cbn [fst].
    apply Forall_app. split.
    + destruct (_ && _); repeat constructor.
    + destruct (_ && _); repeat constructor.
  - unfold SmartStakingBot.checkEmergencyUnstaking.
    destruct (_ <=? _)%num; [constructor|].
    apply Forall_flat_map. intros [key p] _.
    destruct (negb _); [constructor|].
    destruct (find_asset _ _); [|constructor].
    cbv zeta. destruct (_ <=? _)%num; repeat constructor.
Qed.

(** X16. Whatever sequence of [analyzeMarket] and [updatePosition] calls
    a staking evaluator received after its construction, every signal
    its next [analyzeMarket] returns has a confidence within [70, 100]:
    the opportunities it scores are the ones it generated, their scores
    are finite and non-negative, and the allocation confidence is
    capped at 95. *)
Theorem staking_signal_confidence_range
    (cfg : BotConfig) (now0 : Z) (calls : list SmartStakingBot.Call)
    (now : Z) (marketData : list MarketData) :
  Forall (fun s => (of_Z 70 <=? sig_confidence s)%num = true
                   /\ (sig_confidence s <=? of_Z 100)%num = true)
    (fst (SmartStakingBot.analyzeMarket now marketData
            (SmartStakingBot.run calls (SmartStakingBot.create cfg now0)))).
Proof.
  apply staking_signals_range. unfold SmartStakingBot.run.
  apply fold_left_invariant.
  - intros a b. apply staking_step_finite.
  - constructor.
Qed.

(* ================================================================== *)
(** * Proofs: channel-index signals *)
(* ================================================================== *)

(** X17. Every signal [generateSellSignal] emits for a position is a
    SELL of the whole position at the latest price, with a confidence
    within [65, 100]. *)
Theorem generateSellSignal_sells_whole_position
    (now : Z) (st : CCIMarketBot.State) (sym : string)
    (cciData : CCIMarketBot.CCIData) (position : CCIMarketBot.CCIPosition)
    (s : TradingSignal) :
  CCIMarketBot.generateSellSignal now st sym cciData position = Some s ->
  sig_action s = SELL /\ sig_symbol s = sym
  /\ sig_price s = CCIMarketBot.price cciData
  /\ sig_quantity s = Some (CCIMarketBot.quantity position)
  /\ (of_Z 65 <=? sig_confidence s)%num = true
  /\ (sig_confidence s <=? of_Z 100)%num = true.
Proof.
  unfold CCIMarketBot.generateSellSignal. cbv zeta.
  destruct (CCIMarketBot.pnlPercentage position
            <=? - cfg_stopLoss (CCIMarketBot.config st))%num.
  { intros H. injection H as <-. cbn. repeat split. }
  destruct (opt_truthy (cfg_takeProfit (CCIMarketBot.config st))
            && (CCIMarketBot.pnlPercentage position
                >=? opt_num (cfg_takeProfit (CCIMarketBot.config st)))%num).
  { intros H. injection H as <-. cbn. repeat split. }
  destruct (CCIMarketBot.cci cciData
            >=? CCIMarketBot.extremeOverbought (CCIMarketBot.cciConfig st))%num;
  repeat match goal with
         | |- context [if ?b then _ else _] =>
             lazymatch b with
             | context [num_geb] => fail
             | _ => destruct b
             end
         end;
    cbv beta iota zeta;
    match goal with
    | |- context [if ?b then _ else _] =>
        let v := eval vm_compute in b in
        change b with v; cbv iota
    end;
    intros H; try discriminate; injection H as <-;
    cbn [sig_action sig_confidence sig_symbol sig_price sig_quantity];
    repeat split; vm_compute; reflexivity.
Qed.

(** A position down 10% against a stop-loss of 5%. *)
Lemma generateSellSignal_sells_whole_position_witness :
  exists s,
    CCIMarketBot.generateSellSignal Inputs.t0
      (CCIMarketBot.create (AlgorithmTester.testConfig cci) Inputs.t0)
      "BTC" Inputs.oversoldData Inputs.losingCCIPosition = Some s
    /\ sig_action s = SELL
    /\ sig_quantity s = Some (of_Z 1)
    /\ (of_Z 65 <=? sig_confidence s)%num = true
    /\ (sig_confidence s <=? of_Z 100)%num = true.
Proof.
  eexists. split; [vm_compute; reflexivity|].
  match goal with
  | |- sig_action ?s = _ /\ _ =>
      destruct (generateSellSignal_sells_whole_position Inputs.t0
                  (CCIMarketBot.create (AlgorithmTester.testConfig cci)
                     Inputs.t0)
                  "BTC" Inputs.oversoldData Inputs.losingCCIPosition s)
        as [H1 [_ [_ [H4 [H5 H6]]]]]
  end.
  - vm_compute. reflexivity.
  - split; [exact H1|]. split; [exact H4|]. split; [exact H5 | exact H6].
Defined.

(** X18. When the configured levels are ordered
    ([extremeOversold <= oversoldLevel < overboughtLevel
    <= extremeOverbought]), [determineCCISignal] is decided by the two
    inner levels alone: OVERBOUGHT exactly when the index is at or above
    [overboughtLevel], OVERSOLD exactly when it is at or below
    [oversoldLevel], NEUTRAL otherwise (in particular for [NaN]). *)
Theorem determineCCISignal_thresholds
    (c : CCIMarketBot.CCIConfig) (x ma : num) :
  (CCIMarketBot.overboughtLevel c <=? CCIMarketBot.extremeOverbought c)%num
  = true ->
  (CCIMarketBot.extremeOversold c <=? CCIMarketBot.oversoldLevel c)%num
  = true ->
  (CCIMarketBot.oversoldLevel c <? CCIMarketBot.overboughtLevel c)%num
  = true ->
  (CCIMarketBot.determineCCISignal c x ma = CCIMarketBot.OVERBOUGHT
   <-> (x >=? CCIMarketBot.overboughtLevel c)%num = true)
  /\ (CCIMarketBot.determineCCISignal c x ma = CCIMarketBot.OVERSOLD
      <-> (x <=? CCIMarketBot.oversoldLevel c)%num = true)
  /\ (CCIMarketBot.determineCCISignal c x ma = CCIMarketBot.NEUTRAL
      <-> (x >=? CCIMarketBot.overboughtLevel c)%num = false
          /\ (x <=? CCIMarketBot.oversoldLevel c)%num = false).
Proof.
  unfold CCIMarketBot.determineCCISignal, num_geb, num_leb.
  destruct (CCIMarketBot.overboughtLevel c) as [ob| | |],
    (CCIMarketBot.extremeOverbought c) as [eob| | |],
    (CCIMarketBot.extremeOversold c) as [eos| | |],
    (CCIMarketBot.oversoldLevel c) as [os| | |],
    x as [x| | |]; simpl; intros H1 H2 H3; try discriminate.
  all: repeat match goal with
       | |- context [if ?b then _ else _] => destruct b eqn:?
       end.
  all: qprop.
  all: repeat split; intros; try discriminate; try reflexivity;
       try (qgoal; lra); try (exfalso; lra);
       try match goal with
           | H : _ /\ _ |- _ => destruct H
           end; try discriminate;
       qprop; try lra; try (exfalso; lra).
Qed.

(** The default levels (-200, -100, 100, 200) at an index of -150. *)
Lemma determineCCISignal_thresholds_witness :
  CCIMarketBot.determineCCISignal CCIMarketBot.defaultCCIConfig
    (of_Z (-150)) (of_Z 0) = CCIMarketBot.OVERSOLD
  <-> (of_Z (-150)
       <=? CCIMarketBot.oversoldLevel CCIMarketBot.defaultCCIConfig)%num
      = true.
Proof.
  apply (determineCCISignal_thresholds CCIMarketBot.defaultCCIConfig
           (of_Z (-150)) (of_Z 0)); vm_compute; reflexivity.
Defined.

Lemma cci_updatePriceHistory_grows c (n : nat) h data :
  Forall (fun l : list CCIMarketBot.CCIData => (length l <= n)%nat)
         (JsMap.values h) ->
  Forall (fun l : list CCIMarketBot.CCIData => (length l <= S n)%nat)
         (JsMap.values (CCIMarketBot.updatePriceHistory c h data)).
Proof.
  intros HF. unfold CCIMarketBot.updatePriceHistory. cbv zeta.
  apply JsMap_set_Forall.
  - eapply Forall_impl; [|exact HF]. simpl. intros; lia.
  - match goal with
    | |- context [?o ++ [?d]] => set (old := o) in *; set (x := d)
    end.
    assert (Hold : (length old <= n)%nat).
    { subst old. destruct (JsMap.get (md_symbol data) h) eqn:E; simpl; [|lia].
      apply (JsMap_get_Forall _ _ _ _ HF E). }
    assert (L : (length (old ++ [x]) <= S n)%nat)
      by (rewrite length_app; simpl; lia).
    destruct (_ <? _)%nat; [|exact L].
    unfold shift. destruct (old ++ [x]); simpl in *; lia.
Qed.

Lemma cci_record_all_grows c (md : list MarketData) :
  forall (n : nat) h,
    Forall (fun l : list CCIMarketBot.CCIData => (length l <= n)%nat)
           (JsMap.values h) ->
    Forall (fun l : list CCIMarketBot.CCIData =>
              (length l <= n + length md)%nat)
           (JsMap.values
              (fold_left (CCIMarketBot.updatePriceHistory c) md h)).
Proof.
  induction md as [|d md IH]; intros n h H; simpl.
  - eapply Forall_impl; [|exact H]. simpl. intros; lia.
  - replace (n + S (length md))%nat with (S n + length md)%nat by lia.
    apply IH. apply cci_updatePriceHistory_grows. exact H.
Qed.

Lemma cci_loop_short now (assets : list string) (acc : list TradingSignal)
    st :
  Forall (fun l : list CCIMarketBot.CCIData =>
            (length l < CCIMarketBot.period (CCIMarketBot.cciConfig st))%nat)
         (JsMap.values (CCIMarketBot.priceHistory st)) ->
  fold_left
      (fun '(signals, s) sym =>
         match JsMap.get sym (CCIMarketBot.priceHistory s) with
         | None => (signals, s)
         | Some history =>
             match CCIMarketBot.calculateCCI (CCIMarketBot.cciConfig s)
                     history with
             | None => (signals, s)
             | Some (cciData, history') =>
                 let s' :=
                   CCIMarketBot.with_history s
                     (JsMap.set sym history' (CCIMarketBot.priceHistory s)) in
                 (signals ++ CCIMarketBot.generateCCISignals now s' sym cciData,
                  s')
             end
         end) assets (acc, st) = (acc, st).
Proof.
  intros H. induction assets as [|sym assets IH]; simpl; auto.
  destruct (JsMap.get sym (CCIMarketBot.priceHistory st)) as [history|] eqn:E;
    [|exact IH].
  pose proof (JsMap_get_Forall _ _ _ _ H E) as Hl. simpl in Hl.
  unfold CCIMarketBot.calculateCCI. apply Nat.ltb_lt in Hl. rewrite Hl.
  exact IH.
Qed.

(** X19. The channel-index evaluator needs [period] observations of a
    symbol before it says anything: if every tracked history holds at
    most [n] observations and the call brings so few quotes that
    [n + length marketData < period], [analyzeMarket] returns no
    signal. *)
Theorem cci_warm_up_emits_nothing
    (now : Z) (marketData : list MarketData) (st : CCIMarketBot.State)
    (n : nat) :
  Forall (fun l : list CCIMarketBot.CCIData => (length l <= n)%nat)
         (JsMap.values (CCIMarketBot.priceHistory st)) ->
  (n + length marketData
   < CCIMarketBot.period (CCIMarketBot.cciConfig st))%nat ->
  fst (CCIMarketBot.analyzeMarket now marketData st) = [].
Proof.
  intros H Hn. unfold CCIMarketBot.analyzeMarket. cbv zeta.
  rewrite cci_loop_short.
  - reflexivity.
  - cbn [CCIMarketBot.with_history CCIMarketBot.cciConfig
         CCIMarketBot.priceHistory].
    eapply Forall_impl;
      [|apply (cci_record_all_grows _ marketData n _ H)].
    simpl. intros; lia.
Qed.

(** A fresh evaluator (period 20) shown ten quotes at once. *)
Lemma cci_warm_up_emits_nothing_witness :
  fst (CCIMarketBot.analyzeMarket Inputs.t0 Inputs.risingPrices
         (CCIMarketBot.create (AlgorithmTester.testConfig cci) Inputs.t0))
  = [].
Proof.
  apply (cci_warm_up_emits_nothing Inputs.t0 Inputs.risingPrices
           (CCIMarketBot.create (AlgorithmTester.testConfig cci) Inputs.t0)
           0%nat).
  - constructor.
  - vm_compute. lia.
Defined.

(* ================================================================== *)
(** * Proofs: further properties of the risk manager *)
(* ================================================================== *)

(** The market-condition adjustment rejects a signal in one situation
    only: a BUY while the volatility is EXTREME. *)
Lemma getMarketConditionAdjustment_rejects
    (marketCondition : RiskManager.MarketCondition) (signal : TradingSignal) :
  RiskManager.approved
    (RiskManager.getMarketConditionAdjustment marketCondition signal) = false ->
  RiskManager.mc_volatility marketCondition = RiskManager.VolEXTREME
  /\ sig_action signal = BUY
  /\ RiskManager.getMarketConditionAdjustment marketCondition signal
     = {| RiskManager.approved := false;
          RiskManager.adjustedQuantity := None;
          RiskManager.reason :=
            "Buy signals blocked during extreme volatility";
          RiskManager.v_riskLevel := HIGH |}.
Proof.
  unfold RiskManager.getMarketConditionAdjustment.
  destruct (RiskManager.mc_volatility marketCondition), (sig_action signal),
    (RiskManager.mc_sentiment marketCondition),
    (RiskManager.mc_trend marketCondition);
    simpl; intros H; try discriminate; auto.
Qed.

(** With fewer than ten quotes the volatility is rated MEDIUM. *)
Lemma analyzeVolatility_extreme sqrt marketData :
  RiskManager.analyzeVolatility sqrt marketData = RiskManager.VolEXTREME ->
  (10 <= length marketData)%nat.
Proof.
  unfold RiskManager.analyzeVolatility.
  destruct (Nat.ltb_spec (length marketData) 10) as [L|L];
    [discriminate | intros _; exact L].
Qed.

(** X20. Every way [validateSignal] can reject a signal. A rejection
    never carries an adjusted quantity, and its reason is one of six: the
    exposure, drawdown, volatility or correlation limit, insufficient
    liquidity, or "Buy signals blocked during extreme volatility". The
    last one is given only to a BUY while the quotes of this call rate
    the volatility EXTREME, which takes at least ten quotes: a SELL or a
    HOLD is never blocked by the market conditions, and neither fear nor
    a bear market blocks a BUY. *)
Theorem validateSignal_rejection_reasons
    (sqrt : num -> num) (pow : num -> num -> num) (now : Z)
    (signal : TradingSignal) (positions : list Position)
    (marketData : list MarketData) (st : RiskManager.State) :
  let v :=
    fst (RiskManager.validateSignal sqrt pow now signal positions marketData
           st) in
  RiskManager.approved v = true
  \/ (RiskManager.adjustedQuantity v = None
      /\ (RiskManager.reason v = "Total exposure would exceed limit"%string
          \/ RiskManager.reason v = "Current drawdown exceeds limit"%string
          \/ RiskManager.reason v
             = "Portfolio volatility exceeds limit"%string
          \/ RiskManager.reason v
             = "Portfolio correlation exceeds limit"%string
          \/ RiskManager.reason v = "Insufficient liquidity"%string
          \/ (RiskManager.reason v
              = "Buy signals blocked during extreme volatility"%string
              /\ sig_action signal = BUY
              /\ RiskManager.analyzeVolatility sqrt marketData
                 = RiskManager.VolEXTREME
              /\ (10 <= length marketData)%nat))).
Proof.
  cbv zeta. unfold RiskManager.validateSignal,
    RiskManager.analyzeMarketConditions.
  cbv beta iota zeta.
  repeat match goal with
         | |- context [if ?b then _ else _] =>
             lazymatch b with
             | context [RiskManager.getMarketConditionAdjustment] => fail
             | _ => destruct b; cbn [fst RiskManager.approved
                                      RiskManager.adjustedQuantity
                                      RiskManager.reason];
                    auto 10
             end
         end.
  all: match goal with
       | |- context [negb (RiskManager.approved ?a)] =>
           destruct (RiskManager.approved a) eqn:E; cbn [negb]
       end.
  all: try (apply getMarketConditionAdjustment_rejects in E;
            destruct E as [Ev [Ea Er]]; cbn [RiskManager.mc_volatility] in Ev;
            rewrite Er;
            cbn [fst RiskManager.approved RiskManager.adjustedQuantity
                 RiskManager.reason];
            right; split; [reflexivity|];
            do 5 right;
            split; [reflexivity|];
            split; [exact Ea|];
            split; [exact Ev|];
            apply analyzeVolatility_extreme with sqrt; exact Ev).
  destruct (find_asset (sig_symbol signal) marketData) as [assetData|];
    [destruct (md_volume assetData <? _)%num|];
    cbn [fst RiskManager.approved RiskManager.adjustedQuantity
         RiskManager.reason]; auto 10.
Qed.

Lemma fold_add_nan {A} (f : A -> num) (l : list A) :
  fold_left (fun total x => (total + f x)%num) l NaN = NaN.
Proof. induction l; simpl; auto. Qed.

Lemma num_add_nan_r (a : num) : (a + NaN)%num = NaN.
Proof. destruct a; reflexivity. Qed.

Lemma nan_ratio_gtb (x l : num) :
  ((x / NaN * of_Z 100)%num >? l)%num = false.
Proof. destruct x, l; reflexivity. Qed.

(** X21. One held position whose symbol the quotes do not list makes the
    portfolio value [NaN] (the fallback [position.value] does not
    exist), and with it the position-size and exposure tests of
    [validateSignal] are switched off: the result never carries an
    adjusted quantity and is never the rejection "Total exposure would
    exceed limit", whatever the signal and the limits. *)
Theorem unquoted_position_makes_portfolio_value_NaN
    (sqrt : num -> num) (pow : num -> num -> num) (now : Z)
    (signal : TradingSignal) (positions : list Position)
    (marketData : list MarketData) (st : RiskManager.State)
    (position : Position) :
  In position positions ->
  find_asset (pos_symbol position) marketData = None ->
  RiskManager.calculatePortfolioValue positions marketData = NaN
  /\ RiskManager.adjustedQuantity
       (fst (RiskManager.validateSignal sqrt pow now signal positions
               marketData st))
     = None
  /\ RiskManager.reason
       (fst (RiskManager.validateSignal sqrt pow now signal positions
               marketData st))
     <> "Total exposure would exceed limit"%string.
Proof.
  intros Hin Hnone.
  assert (E : RiskManager.calculatePortfolioValue positions marketData = NaN).
  { unfold RiskManager.calculatePortfolioValue.
    apply in_split in Hin. destruct Hin as [l1 [l2 ->]].
    rewrite fold_left_app. cbn [fold_left]. rewrite Hnone.
    unfold RiskManager.position_value. rewrite num_add_nan_r.
    apply (fold_add_nan
             (fun p => match find_asset (pos_symbol p) marketData with
                       | Some assetData =>
                           (pos_quantity p * md_price assetData)%num
                       | None => RiskManager.position_value p
                       end)). }
  split; [exact E|]. split.
  - apply validateSignal_not_resized. unfold RiskManager.sizeBreach.
    rewrite E. apply nan_ratio_gtb.
  - unfold RiskManager.validateSignal, RiskManager.analyzeMarketConditions.
    cbv beta iota zeta.
    unfold RiskManager.calculateRiskMetrics.
    cbn [RiskManager.portfolioValue RiskManager.totalExposure].
    unfold RiskManager.calculateTotalExposure. rewrite E.
    assert (N2 : forall x, (NaN + x)%num = NaN) by reflexivity.
    rewrite N2. rewrite !nan_ratio_gtb.
    repeat match goal with
         | |- context [if ?b then _ else _] =>
             destruct b eqn:?; cbn [fst RiskManager.reason];
             try discriminate
         | |- context [match ?o with Some _ => _ | None => _ end] =>
             destruct o; cbn [fst RiskManager.reason]; try discriminate
         end.
    all: unfold RiskManager.getMarketConditionAdjustment;
      repeat match goal with
         | |- context [if ?b then _ else _] =>
             destruct b; cbn [RiskManager.reason]; try discriminate
         end.
Qed.

(** A DOGE position validated against quotes of BTC only. *)
Lemma unquoted_position_makes_portfolio_value_NaN_witness :
  RiskManager.calculatePortfolioValue Inputs.oneDOGE
    [Inputs.quote "BTC" 100 1000000 Inputs.t0] = NaN
  /\ RiskManager.adjustedQuantity
       (fst (RiskManager.validateSignal Inputs.sqrt_floor Inputs.pow_int
               Inputs.t0 Inputs.bigBuy Inputs.oneDOGE
               [Inputs.quote "BTC" 100 1000000 Inputs.t0]
               Inputs.freshRiskManager))
     = None.
Proof.
  destruct (unquoted_position_makes_portfolio_value_NaN Inputs.sqrt_floor
              Inputs.pow_int Inputs.t0 Inputs.bigBuy Inputs.oneDOGE
              [Inputs.quote "BTC" 100 1000000 Inputs.t0]
              Inputs.freshRiskManager
              {| pos_symbol := "DOGE"; pos_quantity := of_Z 1000;
                 pos_entryPrice := dec 1 10; pos_currentPrice := dec 1 10;
                 pos_pnl := of_Z 0; pos_pnlPercentage := of_Z 0;
                 pos_timestamp := Inputs.t0 |})
    as [H1 [H2 _]].
  - left. reflexivity.
  - reflexivity.
  - split; [exact H1 | exact H2].
Defined.

(** X22. With no position held the portfolio value is 0, so every signal
    of positive value breaches the position-size limit: under a finite
    limit [validateSignal] approves it with the reason "Position size
    reduced" and an adjusted quantity of 0. *)
Theorem empty_portfolio_resizes_to_zero
    (sqrt : num -> num) (pow : num -> num -> num) (now : Z)
    (signal : TradingSignal) (marketData : list MarketData)
    (st : RiskManager.State) (q p m : Q) :
  sig_quantity signal = Some (Fin q) -> sig_price signal = Fin p ->
  0 < q -> 0 < p ->
  RiskManager.maxPositionSize (RiskManager.riskLimits st) = Fin m ->
  let v :=
    fst (RiskManager.validateSignal sqrt pow now signal [] marketData st) in
  RiskManager.approved v = true
  /\ RiskManager.reason v = "Position size reduced"%string
  /\ exists a, RiskManager.adjustedQuantity v = Some (Fin a) /\ a == 0.
Proof.
  intros Hq Hp H0 H1 Hm. cbv zeta.
  rewrite validateSignal_resized.
  - cbn [RiskManager.approved RiskManager.reason RiskManager.adjustedQuantity].
    split; [reflexivity|]. split; [reflexivity|].
    rewrite Hm, Hp. unfold RiskManager.calculatePortfolioValue.
    cbn [fold_left].
    unfold of_Z, inject_Z. cbn [num_div num_mul].
    change (Qeq_bool (100 # 1) 0) with false. cbv iota.
    cbn [num_mul num_div].
    rewrite (Qeq_bool_pos_false p H1).
    eexists. split; [reflexivity|]. field. lra.
  - unfold RiskManager.sizeBreach. rewrite Hq, Hp, Hm.
    unfold RiskManager.calculatePortfolioValue. cbn [fold_left opt_num].
    unfold of_Z, inject_Z. cbn [num_mul num_div].
    change (Qeq_bool 0 0) with true. cbv iota.
    assert (E : Qsign (q * p) = Lt) by (apply Qsign_Lt; nra).
    rewrite E. reflexivity.
Qed.

(** A first purchase of 10 BTC at 100 under a 20% limit. *)
Lemma empty_portfolio_resizes_to_zero_witness :
  let v :=
    fst (RiskManager.validateSignal Inputs.sqrt_floor Inputs.pow_int
           Inputs.t0 Inputs.bigBuy []
           [Inputs.quote "BTC" 100 1000000 Inputs.t0]
           Inputs.freshRiskManager) in
  RiskManager.approved v = true
  /\ RiskManager.reason v = "Position size reduced"%string
  /\ exists a, RiskManager.adjustedQuantity v = Some (Fin a) /\ a == 0.
Proof.
  apply (empty_portfolio_resizes_to_zero Inputs.sqrt_floor Inputs.pow_int
           Inputs.t0 Inputs.bigBuy
           [Inputs.quote "BTC" 100 1000000 Inputs.t0]
           Inputs.freshRiskManager 10 100 20);
    reflexivity.
Defined.




Lemma insert_by_tie {A} (cmp : A -> A -> num) (x : A) (l : list A) :
  (forall a b, (cmp a b >? Fin 0)%num = false) ->
  insert_by cmp x l = x :: l.
Proof. intros H. destruct l; cbn [insert_by]; auto. now rewrite H. Qed.

Lemma sort_by_tie {A} (cmp : A -> A -> num) (l : list A) :
  (forall a b, (cmp a b >? Fin 0)%num = false) -> sort_by cmp l = l.
Proof.
  intros H. induction l as [|x l IH]; auto.
  change (sort_by cmp (x :: l)) with (insert_by cmp x (sort_by cmp l)).
  rewrite IH. apply insert_by_tie. exact H.
Qed.

Lemma div2_le (n : nat) : (Nat.div2 n <= n)%nat.
Proof.
  induction n as [n IH] using lt_wf_ind.
  destruct n as [|[|n]]; simpl; auto.
  assert (H : (n < S (S n))%nat) by lia. specialize (IH n H). lia.
Qed.

Lemma half_up_le (n : nat) : (RiskManager.half_up n <= n)%nat.
Proof.
  unfold RiskManager.half_up. destruct n; [simpl; lia|].
  change (Nat.div2 (S (S n))) with (S (Nat.div2 n)).
  pose proof (div2_le n). lia.
Qed.

Lemma length_if_map {A B} (b : bool) (f : A -> B) (l : list A) :
  (length (if b then map f l else []) <= length l)%nat.
Proof. destruct b; [rewrite length_map | simpl]; lia. Qed.

(** X24. [emergencyRiskManagement] only ever sells what is held: each of
    its signals is a SELL of a position of the list it was given, at that
    position's current price, for the whole, half or three tenths of the
    position's quantity; it returns at most
    [2 * n + ceil(n / 2)] signals for [n] positions; and the in-place
    sort of the caller's array leaves the array in its order, since the
    per-position correlation is a constant. *)
Theorem emergencyRiskManagement_only_sells_holdings
    (sqrt : num -> num) (pow : num -> num -> num) (now : Z)
    (positions : list Position) (marketData : list MarketData)
    (st : RiskManager.State) :
  let '(signals, positions1, st1) :=
    RiskManager.emergencyRiskManagement sqrt pow now positions marketData
      st in
  positions1 = positions
  /\ (length signals
      <= 2 * length positions + RiskManager.half_up (length positions))%nat
  /\ Forall
       (fun s =>
          sig_action s = SELL
          /\ exists position,
               In position positions
               /\ sig_symbol s = pos_symbol position
               /\ sig_price s = pos_currentPrice position
               /\ (sig_quantity s = Some (pos_quantity position)
                   \/ sig_quantity s
                      = Some (pos_quantity position * dec 5 10)%num
                   \/ sig_quantity s
                      = Some (pos_quantity position * dec 3 10)%num))
       signals.
Proof.
  unfold RiskManager.emergencyRiskManagement,
    RiskManager.analyzeMarketConditions.
  cbv beta iota zeta.
  rewrite sort_by_tie by (intros a b; reflexivity).
  assert (Hsell : forall (f : Position -> TradingSignal) (l : list Position),
            (forall p, In p l -> In p positions) ->
            (forall p, sig_action (f p) = SELL
                       /\ sig_symbol (f p) = pos_symbol p
                       /\ sig_price (f p) = pos_currentPrice p
                       /\ (sig_quantity (f p) = Some (pos_quantity p)
                           \/ sig_quantity (f p)
                              = Some (pos_quantity p * dec 5 10)%num
                           \/ sig_quantity (f p)
                              = Some (pos_quantity p * dec 3 10)%num)) ->
            Forall
              (fun s =>
                 sig_action s = SELL
                 /\ exists position,
                      In position positions
                      /\ sig_symbol s = pos_symbol position
                      /\ sig_price s = pos_currentPrice position
                      /\ (sig_quantity s = Some (pos_quantity position)
                          \/ sig_quantity s
                             = Some (pos_quantity position * dec 5 10)%num
                          \/ sig_quantity s
                             = Some (pos_quantity position * dec 3 10)%num))
              (map f l)).
  { intros f l Hl Hf. apply Forall_forall. intros s Hs.
    apply in_map_iff in Hs. destruct Hs as [p [<- Hp]].
    destruct (Hf p) as [Ha [Hs [Hpr Hq]]]. split; [exact Ha|].
    exists p. auto. }
  assert (H1 : forall p, In p positions -> In p positions) by auto.
  assert (H2 : forall n p, In p (firstn n positions) -> In p positions)
    by (intros n p; apply firstn_incl).
  match goal with
  | |- context [if ?c
                then (map (RiskManager.correlationSell now) ?l, positions)
                else _] =>
      destruct c
  end.
  - split; [reflexivity|]. split.
    + rewrite !length_app, length_map, length_firstn.
      pose proof (half_up_le (length positions)).
      match goal with
      | |- (length (if ?b then _ else _)
            + (length (if ?c then _ else _) + _) <= _)%nat =>
          pose proof (length_if_map b (RiskManager.emergencyExit now)
                        positions);
          pose proof (length_if_map c (RiskManager.riskReductionSell now)
                        positions)
      end.
      lia.
    + apply Forall_app. split; [|apply Forall_app; split].
      * destruct (_ >? _)%num; [|constructor].
        apply Hsell; [exact H1 | intros p; cbn; auto 8].
      * destruct (_ && _); [|constructor].
        apply Hsell; [exact H1 | intros p; cbn; auto 8].
      * apply Hsell; [apply H2 | intros p; cbn; auto 8].
  - split; [reflexivity|]. rewrite app_nil_r. split.
    + rewrite !length_app.
      match goal with
      | |- (length (if ?b then _ else _)
            + length (if ?c then _ else _) <= _)%nat =>
          pose proof (length_if_map b (RiskManager.emergencyExit now)
                        positions);
          pose proof (length_if_map c (RiskManager.riskReductionSell now)
                        positions)
      end.
      lia.
    + apply Forall_app. split.
      * destruct (_ >? _)%num; [|constructor].
        apply Hsell; [exact H1 | intros p; cbn; auto 8].
      * destruct (_ && _); [|constructor].
        apply Hsell; [exact H1 | intros p; cbn; auto 8].
Qed.

(* ================================================================== *)
(** * Proofs: the parameter optimizer *)
(* ================================================================== *)

Ltac optimizer_cases :=
  cbv zeta;
  repeat match goal with
         | |- context [if ?c then _ else _] => destruct c
         end;
  cbn [RiskManager.conclude RiskManager.improve RiskManager.setParameter
       RiskManager.initialResult RiskManager.or_algorithm
       RiskManager.optimized RiskManager.improvements
       RiskManager.newParameters RiskManager.expectedImprovement
       RiskManager.riskReduction RiskManager.or_confidence length app];
  (split; [reflexivity|]); (split; [vm_compute; reflexivity|]);
  first [ left; repeat split; reflexivity
        | right; split; [reflexivity|];
          split; [discriminate | vm_compute; reflexivity] ].

(** X25. [optimizeAlgorithm] reports the algorithm it was asked about
    and a confidence of at most 90. Either no rule applied: then
    [optimized] is false, no improvement is listed, the parameters are
    returned unchanged and both expected improvement and risk reduction
    are 0 (so it is for an unknown algorithm name); or at least one rule
    applied: then [optimized] is true, the improvements are listed and
    the confidence is at least 70. *)
Theorem optimizeAlgorithm_outcome
    (toNumber : string -> num) (algorithm : string)
    (currentParams : RiskManager.Params)
    (marketCondition : RiskManager.MarketCondition) :
  let r :=
    RiskManager.optimizeAlgorithm toNumber algorithm currentParams
      marketCondition in
  RiskManager.or_algorithm r = algorithm
  /\ (RiskManager.or_confidence r <=? of_Z 90)%num = true
  /\ ((RiskManager.optimized r = false /\ RiskManager.improvements r = []
       /\ RiskManager.newParameters r = currentParams
       /\ RiskManager.expectedImprovement r = of_Z 0
       /\ RiskManager.riskReduction r = of_Z 0)
      \/ (RiskManager.optimized r = true
          /\ RiskManager.improvements r <> []
          /\ (of_Z 70 <=? RiskManager.or_confidence r)%num = true)).
Proof.
  cbv zeta. unfold RiskManager.optimizeAlgorithm.
  destruct (String.eqb algorithm "momentum") eqn:E1;
    [|destruct (String.eqb algorithm "dca") eqn:E2;
      [|destruct (String.eqb algorithm "staking") eqn:E3;
        [|destruct (String.eqb algorithm "cci") eqn:E4]]].
  - apply String.eqb_eq in E1. subst algorithm.
    unfold RiskManager.optimizeMomentumAlgorithm. optimizer_cases.
  - apply String.eqb_eq in E2. subst algorithm.
    unfold RiskManager.optimizeDCAAlgorithm. optimizer_cases.
  - apply String.eqb_eq in E3. subst algorithm.
    unfold RiskManager.optimizeStakingAlgorithm. optimizer_cases.
  - apply String.eqb_eq in E4. subst algorithm.
    unfold RiskManager.optimizeCCIAlgorithm. optimizer_cases.
  - cbn. split; [reflexivity|]. split; [reflexivity|]. left. repeat split.
Qed.

(** X26. The DCA optimizer's cuts do not add up: in a bear market with
    HIGH or EXTREME volatility both rules fire and the reported risk
    reduction is 25 + 15 = 40, but each rule computes the new amount
    from the amount it was given, so for an amount [x >= 0] the result
    is [0.8 * x] (the bear-market cut alone), with the frequency set to
    WEEKLY. *)
Theorem optimizeDCAAlgorithm_cuts_do_not_compound
    (toNumber : string -> num) (params : RiskManager.Params)
    (marketCondition : RiskManager.MarketCondition) (x : Q) :
  RiskManager.is_high (RiskManager.mc_volatility marketCondition)
  || RiskManager.is_extreme (RiskManager.mc_volatility marketCondition)
  = true ->
  RiskManager.mc_trend marketCondition = RiskManager.BEAR ->
  JsMap.get "amount" params = Some (RiskManager.VNum (Fin x)) ->
  0 <= x ->
  let r :=
    RiskManager.optimizeDCAAlgorithm toNumber params marketCondition in
  RiskManager.riskReduction r = of_Z 40
  /\ length (RiskManager.improvements r) = 2%nat
  /\ JsMap.get "frequency" (RiskManager.newParameters r)
     = Some (RiskManager.VStr "WEEKLY")
  /\ exists a,
       JsMap.get "amount" (RiskManager.newParameters r)
       = Some (RiskManager.VNum (Fin a))
       /\ a == x * (8 # 10).
Proof.
  intros Hv Ht Ha Hx. cbv zeta. unfold RiskManager.optimizeDCAAlgorithm.
  cbv zeta. rewrite Hv, Ht.
  cbn [RiskManager.is_bear RiskManager.is_bull andb].
  cbn [RiskManager.conclude RiskManager.improve RiskManager.setParameter
       RiskManager.initialResult RiskManager.riskReduction
       RiskManager.improvements RiskManager.newParameters length app].
  split; [vm_compute; reflexivity|]. split; [reflexivity|].
  rewrite JsMap_get_set_same.
  unfold RiskManager.param. rewrite Ha.
  split.
  - rewrite JsMap_get_set_other by reflexivity.
    rewrite JsMap_get_set_other by reflexivity.
    apply JsMap_get_set_same.
  - unfold dec. cbn [num_mul num_max num_ltb].
    destruct (Qltb (x * (8 # 10)) (x * (6 # 10))) eqn:E.
    + apply Qltb_lt in E. exists (x * (6 # 10)).
      split; [reflexivity|]. lra.
    + exists (x * (8 # 10)). split; reflexivity.
Qed.

(** An amount of 100 in a volatile bear market becomes 80. *)
Lemma optimizeDCAAlgorithm_cuts_do_not_compound_witness :
  let r :=
    RiskManager.optimizeDCAAlgorithm (fun _ => NaN) Inputs.dcaParams
      Inputs.volatileBearMarket in
  RiskManager.riskReduction r = of_Z 40
  /\ exists a,
       JsMap.get "amount" (RiskManager.newParameters r)
       = Some (RiskManager.VNum (Fin a))
       /\ a == 100 * (8 # 10).
Proof.
  destruct (optimizeDCAAlgorithm_cuts_do_not_compound (fun _ => NaN)
              Inputs.dcaParams Inputs.volatileBearMarket 100
              eq_refl eq_refl eq_refl)
    as [H1 [_ [_ H4]]].
  - unfold Qle. simpl. lia.
  - split; [exact H1 | exact H4].
Defined.

(* ================================================================== *)
(** * Proofs: backtest metrics *)
(* ================================================================== *)

Lemma filter_length_le {A} (f : A -> bool) (l : list A) :
  (length (filter f l) <= length l)%nat.
Proof.
  induction l as [|x l IH]; simpl; [lia|]. destruct (f x); simpl; lia.
Qed.

Lemma filter_disjoint_length {A} (f g : A -> bool) (l : list A) :
  (forall x, f x = true -> g x = false) ->
  (length (filter f l) + length (filter g l) <= length l)%nat.
Proof.
  intros H. induction l as [|x l IH]; simpl; [lia|].
  destruct (f x) eqn:E.
  - rewrite (H x E). simpl. lia.
  - destruct (g x); simpl; lia.
Qed.

Lemma percentage_range (w n : nat) :
  (w <= n)%nat -> (0 < n)%nat ->
  exists r, (of_nat w / of_nat n * of_Z 100)%num = Fin r
            /\ 0 <= r /\ r <= 100.
Proof.
  intros Hw Hn. unfold of_nat, of_Z. cbn [num_div num_mul].
  assert (Hq : 0 < inject_Z (Z.of_nat n)).
  { unfold Qlt, inject_Z. simpl. lia. }
  assert (Hw0 : 0 <= inject_Z (Z.of_nat w)).
  { unfold Qle, inject_Z. simpl. lia. }
  assert (Hwn : inject_Z (Z.of_nat w) <= inject_Z (Z.of_nat n)).
  { unfold Qle, inject_Z. simpl. lia. }
  rewrite (Qeq_bool_pos_false _ Hq). eexists. split; [reflexivity|].
  set (a := inject_Z (Z.of_nat w)) in *.
  set (b := inject_Z (Z.of_nat n)) in *.
  change (inject_Z 100) with 100.
  assert (H0 : 0 <= a / b) by (apply Qle_shift_div_l; lra).
  assert (H1 : a / b <= 1) by (apply Qle_shift_div_r; lra).
  lra.
Qed.

(** X27. In the metrics [calculatePerformanceMetrics] derives from a
    list of trades, winning and losing trades are disjoint sets of SELL
    trades, so together they number at most [totalTrades], which is the
    length of the list; the win rate is a finite percentage within
    [0, 100]; and the profit factor is never negative. *)
Theorem calculatePerformanceMetrics_counts
    (sqrt : num -> num) (pow : num -> num -> num)
    (trades : list AlgorithmTester.Trade) (finalValue initialValue : num) :
  let m :=
    AlgorithmTester.calculatePerformanceMetrics sqrt pow trades finalValue
      initialValue in
  (AlgorithmTester.winningTrades m + AlgorithmTester.losingTrades m
   <= AlgorithmTester.totalTrades m)%nat
  /\ (exists r, AlgorithmTester.winRate m = Fin r /\ 0 <= r /\ r <= 100)
  /\ (AlgorithmTester.profitFactor m <? of_Z 0)%num = false
  /\ AlgorithmTester.totalTrades m = length trades.
Proof.
  cbv zeta. unfold AlgorithmTester.calculatePerformanceMetrics. cbv zeta.
  cbn [AlgorithmTester.winningTrades AlgorithmTester.losingTrades
       AlgorithmTester.totalTrades AlgorithmTester.winRate
       AlgorithmTester.profitFactor].
  set (sells := filter AlgorithmTester.is_sell trades).
  split; [|split; [|split; [|reflexivity]]].
  - pose proof (filter_length_le AlgorithmTester.is_sell trades) as Hs.
    fold sells in Hs.
    pose proof (filter_disjoint_length
                  (fun t => (AlgorithmTester.tr_pnl t >? of_Z 0)%num)
                  (fun t => (AlgorithmTester.tr_pnl t <? of_Z 0)%num) sells)
      as Hd.
    assert (Hx : forall x : AlgorithmTester.Trade,
               (AlgorithmTester.tr_pnl x >? of_Z 0)%num = true ->
               (AlgorithmTester.tr_pnl x <? of_Z 0)%num = false).
    { intros x. unfold num_gtb, of_Z, inject_Z.
      destruct (AlgorithmTester.tr_pnl x); simpl; auto.
      intros Hx. apply Qltb_lt in Hx. apply Qltb_ge. lra. }
    specialize (Hd Hx). lia.
  - destruct (Nat.ltb_spec 0 (length sells)) as [L|L].
    + apply percentage_range; [apply filter_length_le | exact L].
    + exists 0. split; [reflexivity|]. lra.
  - match goal with
    | |- ((if ?c then num_abs ?x else _) <? _)%num = false =>
        destruct c; [destruct x as [q| | |]|]; try reflexivity
    end.
    unfold of_Z, inject_Z. simpl. apply Qltb_ge. apply Qabs_nonneg.
Qed.

Lemma judge_keeps good bad pts issue advice t x :
  In x (AlgorithmTester.t_issues t) ->
  In x (AlgorithmTester.t_issues
          (AlgorithmTester.judge good bad pts issue advice t)).
Proof.
  unfold AlgorithmTester.judge. destruct good, bad; simpl; auto.
  all: intros H; apply in_or_app; now left.
Qed.

Lemma judge_raises pts issue advice t :
  In issue (AlgorithmTester.t_issues
              (AlgorithmTester.judge false true pts issue advice t)).
Proof. simpl. apply in_or_app. right. now left. Qed.

(** X28. A backtest in which no SELL was executed gets a win rate of 0
    and a profit factor of 0 from [calculatePerformanceMetrics], and
    therefore always carries the issues "Low win rate" and "Profit
    factor below 1.0 indicates losing strategy" in
    [evaluateTestResult], whatever the scenario, the returns and the
    risk metrics. *)
Theorem buy_only_run_is_flagged
    (sqrt : num -> num) (pow : num -> num -> num) (algorithm : string)
    (scenario : AlgorithmTester.TestScenario)
    (trades : list AlgorithmTester.Trade) (finalValue initialValue : num)
    (riskMetrics : RiskManager.RiskMetrics) :
  filter AlgorithmTester.is_sell trades = [] ->
  let performance :=
    AlgorithmTester.calculatePerformanceMetrics sqrt pow trades finalValue
      initialValue in
  let r :=
    AlgorithmTester.evaluateTestResult algorithm scenario performance
      riskMetrics in
  AlgorithmTester.winRate performance = Fin 0
  /\ AlgorithmTester.profitFactor performance = Fin 0
  /\ In "Low win rate"%string (AlgorithmTester.issues r)
  /\ In "Profit factor below 1.0 indicates losing strategy"%string
        (AlgorithmTester.issues r).
Proof.
  intros Hs. cbv zeta.
  assert (Ew : AlgorithmTester.winRate
                 (AlgorithmTester.calculatePerformanceMetrics sqrt pow trades
                    finalValue initialValue) = Fin 0).
  { unfold AlgorithmTester.calculatePerformanceMetrics. cbv zeta.
    cbn [AlgorithmTester.winRate]. rewrite Hs. reflexivity. }
  assert (Ep : AlgorithmTester.profitFactor
                 (AlgorithmTester.calculatePerformanceMetrics sqrt pow trades
                    finalValue initialValue) = Fin 0).
  { unfold AlgorithmTester.calculatePerformanceMetrics. cbv zeta.
    cbn [AlgorithmTester.profitFactor]. rewrite Hs. reflexivity. }
  split; [exact Ew|]. split; [exact Ep|].
  unfold AlgorithmTester.evaluateTestResult. cbn [AlgorithmTester.issues].
  unfold AlgorithmTester.tally. cbv zeta.
  rewrite Ew, Ep.
  change (Fin 0 >? of_Z 60)%num with false.
  change (Fin 0 <? of_Z 40)%num with true.
  change (Fin 0 >? dec 15 10)%num with false.
  change (Fin 0 <? of_Z 1)%num with true.
  split.
  - do 4 apply judge_keeps. apply judge_raises.
  - do 2 apply judge_keeps. apply judge_raises.
Qed.

(** Two purchases and no sale, in the bull-market scenario. *)
Lemma buy_only_run_is_flagged_witness :
  let performance :=
    AlgorithmTester.calculatePerformanceMetrics Inputs.sqrt_floor
      Inputs.pow_int Inputs.twoPurchases (of_Z 10500) (of_Z 10000) in
  AlgorithmTester.winRate performance = Fin 0
  /\ AlgorithmTester.profitFactor performance = Fin 0.
Proof.
  destruct (buy_only_run_is_flagged Inputs.sqrt_floor Inputs.pow_int "dca"
              {| AlgorithmTester.name := "Strong Bull Market";
                 AlgorithmTester.description := "";
                 AlgorithmTester.marketData := [];
                 AlgorithmTester.expectedOutcome := "";
                 AlgorithmTester.riskLevel := MEDIUM;
                 AlgorithmTester.duration := of_Z 30 |}
              Inputs.twoPurchases (of_Z 10500) (of_Z 10000)
              (RiskManager.calculateRiskMetrics Inputs.sqrt_floor
                 Inputs.pow_int Inputs.t0 [] [] Inputs.freshRiskManager)
              eq_refl)
    as [H1 [H2 _]].
  split; [exact H1 | exact H2].
Defined.
